(** * EduMentor: routing, chunking, retrieval store, sessions, profiles, prompts

    A shallow embedding of the pure and state-passing parts of the
    EduMentor backend, with the properties its specification states.

    Python values are modelled as the interpreter has them: a [str] is a
    sequence of Unicode code points, an [int] is an unbounded integer, a
    dict is a finite map, an exception is an explicit error result. *)

From Stdlib Require Import ZArith NArith List String Ascii Lia Bool.
From Stdlib Require Import DecimalString.
From stdpp Require Import gmap list sorting.

(** ** Python built-ins used by the code *)

Module Py.

Local Open Scope Z_scope.

(** A Python [str]: a sequence of code points. *)
Abbreviation str := (list N).

(** Text of an ASCII literal. *)
Definition lit (s : string) : str :=
  List.map N_of_ascii (list_ascii_of_string s).

(** [len(s)] *)
Definition len {A} (s : list A) : Z := Z.of_nat (length s).

(** [str.isspace] for one code point (the interpreter's whitespace table). *)
Definition is_space (c : N) : bool :=
  ((9 <=? c) && (c <=? 13) || (28 <=? c) && (c <=? 32)
   || (c =? 133) || (c =? 160) || (c =? 5760)
   || (8192 <=? c) && (c <=? 8202)
   || (c =? 8232) || (c =? 8233) || (c =? 8239) || (c =? 8287)
   || (c =? 12288))%N.

Fixpoint lstrip (s : str) : str :=
  match s with
  | c :: s' => if is_space c then lstrip s' else s
  | [] => []
  end.

Definition rstrip (s : str) : str := rev (lstrip (rev s)).

(** [s.strip()] *)
Definition strip (s : str) : str := rstrip (lstrip s).

(** Index normalisation of a slice bound against a sequence of length [n]:
    negative bounds count from the end, everything is clipped to [0, n]. *)
Definition adjust (n i : Z) : Z :=
  if i <? 0 then Z.max 0 (i + n) else Z.min i n.

(** [s[lo:hi]] *)
Definition slice {A} (s : list A) (lo hi : Z) : list A :=
  let n := Z.of_nat (length s) in
  let a := adjust n lo in
  let b := adjust n hi in
  take (Z.to_nat (b - a)) (drop (Z.to_nat a) s).

(** [s[i]]: a negative index counts from the end; [None] stands for an
    [IndexError]. *)
Definition py_index {A} (s : list A) (i : Z) : option A :=
  if i <? 0 then
    if i + len s <? 0 then None else s !! Z.to_nat (i + len s)
  else s !! Z.to_nat i.

(** [s[lo:]] *)
Definition slice_from {A} (s : list A) (lo : Z) : list A :=
  slice s lo (Z.of_nat (length s)).

(** [sub] occurs in [s] at index [i] (for [0 <= i]). *)
Definition occurs_at (s sub : str) (i : Z) : bool :=
  bool_decide (take (length sub) (drop (Z.to_nat i) s) = sub)
  && (i + len sub <=? len s).

(** Candidates [a + k - 1], ..., [a] from the highest down. *)
Fixpoint rscan (s sub : str) (a : Z) (k : nat) : Z :=
  match k with
  | O => -1
  | S k' =>
      if occurs_at s sub (a + Z.of_nat k') then a + Z.of_nat k'
      else rscan s sub a k'
  end.

(** [s.rfind(sub, lo, hi)]: the highest index at which [sub] occurs inside
    [s[lo:hi]], or -1. The bounds are normalised as for slices, except that
    a lower bound beyond the end is not clipped (the search is then empty). *)
Definition rfind (s sub : str) (lo hi : Z) : Z :=
  let n := len s in
  let b := adjust n hi in
  let a := if lo <? 0 then Z.max 0 (lo + n) else lo in
  rscan s sub a (Z.to_nat (b - len sub - a + 1)).

Fixpoint is_prefix (sub s : str) : bool :=
  match sub, s with
  | [], _ => true
  | c :: sub', d :: s' => (c =? d)%N && is_prefix sub' s'
  | _ :: _, [] => false
  end.

(** [sub in s] *)
Fixpoint contains (sub s : str) : bool :=
  is_prefix sub s ||
  match s with
  | [] => false
  | _ :: s' => contains sub s'
  end.

(** [sep.join(parts)] *)
Fixpoint join (sep : str) (parts : list str) : str :=
  match parts with
  | [] => []
  | [p] => p
  | p :: ps => p ++ sep ++ join sep ps
  end.

(** [str.lower] on the ASCII range; other code points are left alone. *)
Definition ascii_lower_char (c : N) : N :=
  if ((65 <=? c) && (c <=? 90))%N then (c + 32)%N else c.

Definition ascii_lower (s : str) : str := List.map ascii_lower_char s.

(** [str(n)] for an [int]. *)
Definition str_of_int (z : Z) : str := lit (NilZero.string_of_int (Z.to_int z)).

(** Exceptions (instances of [Exception]) and the outcome of a call. *)
Inductive exn :=
  | AttributeError | KeyError | IndexError | TypeError | AssertionError
  | RuntimeError (msg : str).

Inductive result (A : Type) :=
  | Ok (a : A)
  | Raise (e : exn).
Arguments Ok {A} a.
Arguments Raise {A} e.

(** Scalar values a profile field can hold. *)
Inductive pyval :=
  | PNone
  | PBool (b : bool)
  | PInt (z : Z)
  | PStr (s : str).

(** Truth value of [v] in a condition. *)
Definition truthy (v : pyval) : bool :=
  match v with
  | PNone => false
  | PBool b => b
  | PInt z => negb (z =? 0)
  | PStr s => match s with [] => false | _ => true end
  end.

(** [str(v)], as an f-string formats it. *)
Definition py_str (v : pyval) : str :=
  match v with
  | PNone => lit "None"
  | PBool true => lit "True"
  | PBool false => lit "False"
  | PInt z => str_of_int z
  | PStr s => s
  end.

(** [d.get(k)]: [None] for a missing key. *)
Definition dict_get (d : gmap str pyval) (k : str) : pyval :=
  default PNone (d !! k).

End Py.

(** ** PDFProcessor.chunk_text *)

Module Chunk.
Import Py.
Local Open Scope Z_scope.

Definition para_sep : str := [10; 10]%N.          (* '\n\n' *)
Definition dot_sep : str := lit ". ".
Definition bang_sep : str := lit "! ".
Definition quest_sep : str := lit "? ".

(** The end position chosen for the chunk that starts at [start]. *)
Definition chunk_end (text : str) (chunk_size start : Z) : Z :=
  let text_length := len text in
  let end_ := start + chunk_size in
  if end_ <? text_length then
    let para_break := rfind text para_sep start end_ in
    if para_break >? start then para_break
    else
      let sentence_break :=
        Z.max (Z.max (rfind text dot_sep start end_)
                     (rfind text bang_sep start end_))
              (rfind text quest_sep start end_) in
      if sentence_break >? start then sentence_break + 1 else end_
  else end_.

(** One pass through the body of the [while] loop: the loop state is the
    pair of [start] and the list [chunks]. *)
Definition chunk_body (text : str) (chunk_size overlap : Z)
    (st : Z * list str) : Z * list str :=
  let '(start, chunks) := st in
  let text_length := len text in
  let end_ := chunk_end text chunk_size start in
  let chunk := strip (slice text start end_) in
  let chunks' := match chunk with [] => chunks | _ => chunks ++ [chunk] end in
  let start' := if end_ <? text_length then end_ - overlap else text_length in
  (start', chunks').

(** The [while start < text_length] loop; [None] when the fuel runs out
    before the loop condition becomes false. *)
Fixpoint chunk_loop (fuel : nat) (text : str) (chunk_size overlap : Z)
    (st : Z * list str) : option (list str) :=
  if fst st <? len text then
    match fuel with
    | O => None
    | S fuel' =>
        chunk_loop fuel' text chunk_size overlap
          (chunk_body text chunk_size overlap st)
    end
  else Some (snd st).

Definition chunk_text (fuel : nat) (text : str) (chunk_size overlap : Z)
    : option (list str) :=
  match text, strip text with
  | [], _ | _, [] => Some []
  | _, _ => chunk_loop fuel text chunk_size overlap (0, [])
  end.

(** The loop state after [n] passes (staying put once the loop has exited). *)
Definition chunk_iter (text : str) (chunk_size overlap : Z)
    (st : Z * list str) : Z * list str :=
  if fst st <? len text then chunk_body text chunk_size overlap st else st.

Definition chunk_states (text : str) (chunk_size overlap : Z) (n : nat)
    : Z * list str :=
  Nat.iter n (chunk_iter text chunk_size overlap) (0, []).

End Chunk.

(** ** SessionService *)

Module Session.
Import Py.

Record message := Message { role : str; content : str }.

Record session := MkSession {
  user_id : option str;
  messages : list message;
  history_summary : str;
  current_topic : option str
}.

Definition fresh (uid : option str) : session :=
  {| user_id := uid; messages := []; history_summary := [];
     current_topic := None |}.

Definition set_messages (s : session) (ms : list message) : session :=
  {| user_id := user_id s; messages := ms;
     history_summary := history_summary s;
     current_topic := current_topic s |}.

(** [new_id] is the value of [str(uuid.uuid4())] drawn for this call. *)
Definition create_session (new_id user : str) (ss : gmap str session)
    : str * gmap str session :=
  (new_id, <[new_id := fresh (Some user)]> ss).

(** [dict.setdefault]: the stored session, or a fresh one that is stored. *)
Definition get_session (session_id : str) (ss : gmap str session)
    : session * gmap str session :=
  match ss !! session_id with
  | Some s => (s, ss)
  | None => (fresh None, <[session_id := fresh None]> ss)
  end.

Definition add_message (session_id : str) (r c : str) (ss : gmap str session)
    : gmap str session :=
  let '(s, ss1) := get_session session_id ss in
  let appended := messages s ++ [Message r c] in
  <[session_id := set_messages s (slice_from appended (-10))]> ss1.

(** Calls a client of the service can make. *)
Inductive op :=
  | Create (new_id user : str)
  | Get (session_id : str)
  | Add (session_id r c : str).

Definition step (ss : gmap str session) (o : op) : gmap str session :=
  match o with
  | Create new_id user => snd (create_session new_id user ss)
  | Get sid => snd (get_session sid ss)
  | Add sid r c => add_message sid r c ss
  end.

Definition run (ops : list op) : gmap str session :=
  fold_left step ops ∅.

(** What was added to session [sid], oldest first, since that session was
    last created. *)
Fixpoint added (sid : str) (ops : list op) (acc : list message)
    : list message :=
  match ops with
  | [] => acc
  | Create new_id _ :: ops' =>
      added sid ops' (if decide (new_id = sid) then [] else acc)
  | Get _ :: ops' => added sid ops' acc
  | Add sid' r c :: ops' =>
      added sid ops' (if decide (sid' = sid) then acc ++ [Message r c] else acc)
  end.

(** The last [n] elements of [l], in order. *)
Definition last_n {A} (n : nat) (l : list A) : list A :=
  drop (length l - n) l.

End Session.

(** ** ProfileService *)

Module Profile.
Import Py.

Section ProfileService.
(** [P]: a profile as stored. *)
Context {P : Type}.

(** What [json.loads] can give back for the whole file: a JSON object
    (a dict keyed by user id) or some other JSON value. *)
Inductive document :=
  | Mapping (d : gmap str P)
  | NotMapping.

(** [json.dumps(data, indent=2)] and [json.loads(text)]; [None] stands for
    a [JSONDecodeError]. *)
Variable json_dumps : gmap str P -> str.
Variable json_loads : str -> option document.

(** Content of [profiles.json] when the service creates it. *)
Definition initial_file : str := lit "{}".

(** The state is the content of [profiles.json]. Every exception inside
    the [try] gives the empty dict. *)
Definition _read_all (file : str) : document :=
  match strip file with
  | [] => Mapping ∅
  | _ =>
      match json_loads file with
      | Some doc => doc
      | None => Mapping ∅
      end
  end.

Definition _write_all (data : gmap str P) (file : str) : str :=
  json_dumps data.

Definition get_profile (user : str) (file : str) : result (option P) :=
  match _read_all file with
  | Mapping all_profiles => Ok (all_profiles !! user)
  | NotMapping => Raise AttributeError
  end.

Definition upsert_profile (user : str) (profile : P) (file : str)
    : result P * str :=
  match _read_all file with
  | Mapping all_profiles =>
      (Ok profile, _write_all (<[user := profile]> all_profiles) file)
  | NotMapping => (Raise TypeError, file)
  end.

(** The file after a sequence of upserts. *)
Definition upserts (ups : list (str * P)) (file : str) : str :=
  fold_left (fun f up => snd (upsert_profile (fst up) (snd up) f)) ups file.

End ProfileService.

End Profile.

(** ** services/context.py *)

Module Context.
Import Py.

Definition nl : str := [10%N].

Definition BASE_TUTOR_SYSTEM_PROMPT : str :=
  lit "You are EduMentor, a friendly, patient AI tutor" ++ nl ++
  lit "for middle and high school students. You explain step by step, check"
  ++ nl ++
  lit "understanding, and adapt difficulty." ++ nl ++ nl ++
  lit "Always:" ++ nl ++
  lit "- Use clear, simple language." ++ nl ++
  lit "- Show intermediate steps for maths problems." ++ nl ++
  lit "- Ask a brief follow-up question to confirm understanding." ++ nl.

Definition profile_keys : list string :=
  ["name"; "age"; "grade"; "syllabus"; "subject"; "proficiency"; "gender"]%string.

Definition is_none (v : pyval) : bool :=
  match v with PNone => true | _ => false end.

(** A dict in a condition: true when it is neither [None] nor empty. *)
Definition dict_truthy (d : option (gmap str pyval)) : bool :=
  match d with
  | None => false
  | Some m => negb (bool_decide (m = ∅))
  end.

Definition build_history_prompt (messages : list Session.message)
    (student_profile : option (gmap str pyval)) : str :=
  let header :=
    match student_profile with
    | Some d =>
        if dict_truthy student_profile then
          let prof_lines :=
            omap (fun k =>
                    match d !! lit k with
                    | Some v =>
                        if is_none v then None
                        else Some (lit k ++ lit ": " ++ py_str v)
                    | None => None
                    end) profile_keys in
          match prof_lines with
          | [] => []
          | _ => [lit "Student profile:"] ++ prof_lines ++ [[]]
          end
        else []
    | None => []
    end in
  let body :=
    List.map (fun msg =>
           (if bool_decide (Session.role msg = lit "user")
            then lit "Student:" else lit "Tutor:")
           ++ lit " " ++ Session.content msg) messages in
  join nl (header ++ body).

(** The guidance sentence appended after a profile header. *)
Definition profile_guidance : str :=
  lit "Adapt explanations using the profile: use simpler language and more "
  ++ lit "scaffolding for younger/beginner students; provide deeper examples for "
  ++ lit "advanced students. Focus your expertise on the student's selected subject. "
  ++ lit "Where helpful, address the student by name and refer to their grade or "
  ++ lit "age when giving examples.".

(** The instruction appended when retrieved document content is passed. *)
Definition vector_instruction : str :=
  nl ++ nl ++
  lit "IMPORTANT: Relevant content from uploaded PDF documents has been "
  ++ lit "provided in the context. Use this information to answer the student's "
  ++ lit "question accurately. If the uploaded content contains the answer, "
  ++ lit "prioritize it over general knowledge. Always cite the source when using "
  ++ lit "information from uploaded documents.".

(** The entry a field contributes to [parts]. *)
Definition part (label : string) (v : pyval) : str :=
  lit label ++ lit ": " ++ py_str v.

(** The list [parts] the function collects for a non-empty profile. *)
Definition profile_parts (d : gmap str pyval) : list str :=
  let name := dict_get d (lit "name") in
  let age := dict_get d (lit "age") in
  let grade := dict_get d (lit "grade") in
  let syllabus := dict_get d (lit "syllabus") in
  let subject := dict_get d (lit "subject") in
  let proficiency := dict_get d (lit "proficiency") in
  let gender := dict_get d (lit "gender") in
  (if truthy name then [part "Name" name] else [])
  ++ (if negb (is_none age) then [part "Age" age] else [])
  ++ (if truthy grade then [part "Grade" grade] else [])
  ++ (if truthy syllabus then [part "Syllabus" syllabus] else [])
  ++ (if truthy subject then [part "Subject" subject] else [])
  ++ (if truthy proficiency then [part "Proficiency" proficiency] else [])
  ++ (if truthy gender then [part "Gender" gender] else []).

Definition build_tutor_system_prompt
    (student_profile : option (gmap str pyval))
    (vector_context : option str) : str :=
  let prompt := BASE_TUTOR_SYSTEM_PROMPT in
  match student_profile with
  | None => prompt
  | Some d =>
      if negb (dict_truthy student_profile) then prompt
      else
        let parts := profile_parts d in
        let prompt :=
          match parts with
          | [] => prompt
          | _ =>
              prompt ++ nl ++ lit "Student Profile (for personalization):"
              ++ nl ++ lit "- " ++ join (nl ++ lit "- ") parts ++ lit "." ++ nl
              ++ profile_guidance
          end in
        match vector_context with
        | Some (_ :: _) => prompt ++ vector_instruction
        | _ => prompt
        end
  end.

End Context.

(** ** VectorStore

    The in-memory state of the store: one index and one metadata list per
    subject. The embedding model and the similarity index are external;
    the index of a subject is the sequence of vectors added to it. Saving
    to disk catches and logs every exception and does not touch the
    in-memory state; it is left out. *)

Module VectorStore.
Import Py.
Local Open Scope Z_scope.

Record meta := Meta { text : str; source : str; index : Z }.

Section Store.
Context {vec score : Type}.

(** One row of [embedding_model.encode]. *)
Variable embed : str -> vec.

(** [index.search(query, k)]: the pairs of [zip(distances[0], indices[0])],
    or an exception. *)
Variable faiss_search : list vec -> vec -> Z -> result (list (score * Z)).

Record hit := Hit {
  hit_text : str; hit_source : str; hit_score : score; hit_rank : Z
}.

Record store := Store {
  indexes : gmap str (list vec);
  metadata : gmap str (list meta)
}.

Definition empty_store : store := Store ∅ ∅.

Definition _init_subject_index (subject : str) (st : store) : store :=
  Store (<[subject := []]> (indexes st)) (<[subject := []]> (metadata st)).

(** [_load_all_indexes] when the data directory holds no files. *)
Definition new_store : store :=
  fold_left (fun st subject => _init_subject_index subject st)
    [lit "maths"; lit "science"; lit "evs"] empty_store.

Definition add_documents (subject : str) (texts : list str) (src : str)
    (st : store) : result Z * store :=
  let st1 :=
    match indexes st !! subject with
    | None => _init_subject_index subject st
    | Some _ => st
    end in
  match texts with
  | [] => (Ok 0, st1)
  | _ =>
      let embeddings := List.map embed texts in
      match metadata st1 !! subject, indexes st1 !! subject with
      | Some md, Some ix =>
          let start_idx := len md in
          let entries :=
            imap (fun i t => Meta t src (start_idx + Z.of_nat i)) texts in
          (Ok (len texts),
           Store (<[subject := ix ++ embeddings]> (indexes st1))
                 (<[subject := md ++ entries]> (metadata st1)))
      | _, _ => (Raise KeyError, st1)
      end
  end.

(** The loop over [enumerate(zip(distances[0], indices[0]))], from
    position [i] on. *)
Fixpoint collect (md : list meta) (i : Z) (found : list (score * Z))
    : result (list hit) :=
  match found with
  | [] => Ok []
  | (dist, idx) :: rest =>
      if idx <? len md then
        match py_index md idx with
        | None => Raise IndexError
        | Some m =>
            match collect md (i + 1) rest with
            | Ok hs => Ok (Hit (text m) (source m) dist (i + 1) :: hs)
            | Raise e => Raise e
            end
        end
      else collect md (i + 1) rest
  end.

Definition search (subject query : str) (top_k : Z) (st : store)
    : result (list hit) :=
  match indexes st !! subject with
  | None => Ok []
  | Some ix =>
      match metadata st !! subject with
      | None => Raise KeyError
      | Some md =>
          if len md =? 0 then Ok []
          else
            let k := Z.min top_k (len md) in
            match faiss_search ix (embed query) k with
            | Raise e => Raise e
            | Ok found => collect md 0 found
            end
      end
  end.

Definition delete_subject_data (subject : str) (st : store)
    : result unit * store :=
  match indexes st !! subject with
  | None => (Ok tt, st)
  | Some _ =>
      match metadata st !! subject with
      | None => (Raise KeyError, Store (delete subject (indexes st)) (metadata st))
      | Some _ =>
          (Ok tt,
           _init_subject_index subject
             (Store (delete subject (indexes st))
                    (delete subject (metadata st))))
      end
  end.

(** Operations on a store, and the store they lead to from the empty one. *)
Inductive op :=
  | Add (subject : str) (texts : list str) (src : str)
  | Delete (subject : str)
  | Init (subject : str).

Definition step (st : store) (o : op) : store :=
  match o with
  | Add subject texts src => snd (add_documents subject texts src st)
  | Delete subject => snd (delete_subject_data subject st)
  | Init subject => _init_subject_index subject st
  end.

Definition run (ops : list op) : store := fold_left step ops empty_store.

(** The (text, source) pairs added under [subject], oldest first, since
    the subject was last initialised or deleted. *)
Fixpoint added (subject : str) (ops : list op) (acc : list (str * str))
    : list (str * str) :=
  match ops with
  | [] => acc
  | Add s texts src :: ops' =>
      added subject ops'
        (if decide (s = subject)
         then acc ++ List.map (fun t => (t, src)) texts else acc)
  | Delete s :: ops' | Init s :: ops' =>
      added subject ops' (if decide (s = subject) then [] else acc)
  end.

End Store.

End VectorStore.

(** ** services/metrics.py

    The counters of the global [metrics] object. The wall-clock latency
    accumulator is a float fed by a timer and is left out. *)

Module Metrics.
Import Py.
Local Open Scope Z_scope.

Record metrics := MkMetrics {
  total_requests : Z;
  total_tutor_requests : Z;
  total_planner_requests : Z;
  total_analyzer_requests : Z;
  total_errors : Z;
  total_requests_with_latency : Z;
  tool_usage : gmap str Z
}.

Definition zero : metrics := MkMetrics 0 0 0 0 0 0 ∅.

Definition inc_tutor (m : metrics) : metrics :=
  MkMetrics (total_requests m) (total_tutor_requests m + 1)
    (total_planner_requests m) (total_analyzer_requests m) (total_errors m)
    (total_requests_with_latency m) (tool_usage m).

Definition inc_planner (m : metrics) : metrics :=
  MkMetrics (total_requests m) (total_tutor_requests m)
    (total_planner_requests m + 1) (total_analyzer_requests m) (total_errors m)
    (total_requests_with_latency m) (tool_usage m).

Definition inc_errors (m : metrics) : metrics :=
  MkMetrics (total_requests m) (total_tutor_requests m)
    (total_planner_requests m) (total_analyzer_requests m) (total_errors m + 1)
    (total_requests_with_latency m) (tool_usage m).

Definition inc_latency_count (m : metrics) : metrics :=
  MkMetrics (total_requests m) (total_tutor_requests m)
    (total_planner_requests m) (total_analyzer_requests m) (total_errors m)
    (total_requests_with_latency m + 1) (tool_usage m).

Definition inc_tool (tool_name : str) (m : metrics) : metrics :=
  MkMetrics (total_requests m) (total_tutor_requests m)
    (total_planner_requests m) (total_analyzer_requests m) (total_errors m)
    (total_requests_with_latency m)
    (<[tool_name := default 0 (tool_usage m !! tool_name) + 1]> (tool_usage m)).

End Metrics.

(** ** tools/content_tool.py, agents/tutor.py, agents/planner.py *)

Module Agents.
Import Py Context Metrics.
Local Open Scope Z_scope.

Record question := Question {
  q_question : str; q_options : list str; q_answer : str
}.

Definition fraction_quiz : list question :=
  [ Question (lit "What is 1/2 + 1/3?")
      [lit "2/5"; lit "5/6"; lit "1/6"; lit "3/5"] (lit "5/6");
    Question (lit "What is 3/4 - 1/8?")
      [lit "1/8"; lit "5/8"; lit "3/8"; lit "7/8"] (lit "5/8") ].

(** U+2014, the dash of the apology messages. *)
Definition em_dash : str := [8212%N].

Section Agents.
(** [str.lower] *)
Variable lower : str -> str.
(** [code_exec_tool], which runs [eval] on the text it is given: the text
    it returns (the value of the expression, or "Error executing code: ..."
    for an [Exception], which it catches), or [None] when it hands nothing
    back: the evaluation raised something that is not an [Exception]
    (KeyboardInterrupt, SystemExit), which the tool lets through and no
    [except Exception] catches, or the evaluation does not end. *)
Variable code_exec_tool : str -> option str.
(** Whether [OPENAI_API_KEY] is configured. *)
Variable api_key : bool.
(** The chat-completion call for a system and a user prompt: the content
    of the first choice (empty when there is none), or an exception. *)
Variable chat : str -> str -> result str.

(** [topic] is [None] when the caller passes Python's [None]. *)
Definition get_quiz_questions (topic : option str) : result (list question) :=
  match topic with
  | None => Raise AttributeError
  | Some t =>
      let topic_lower := lower t in
      if contains (lit "fraction") topic_lower then Ok fraction_quiz
      else Ok []
  end.

Definition quiz_lines (quiz : list question) : list str :=
  [lit "Here are some practice questions:"; []]
  ++ concat
       (imap (fun i q =>
                [str_of_int (Z.of_nat i + 1) ++ lit ". " ++ q_question q]
                ++ List.map (fun opt => lit "   - " ++ opt) (q_options q)
                ++ [[]]) quiz).

(** The part of [TutorAgent.respond] after the tools: the prompts, the key
    check and the chat call. *)
Definition respond_chat (student_profile : option (gmap str pyval))
    (session_state : Session.session) (user_message : str)
    (vector_context : option str) (tool_outputs : list str) (m : metrics)
    : result str * metrics :=
  let system_prompt :=
    build_tutor_system_prompt student_profile vector_context in
  let history_prompt :=
    build_history_prompt (Session.messages session_state) student_profile in
  let user_prompt :=
    lit "Conversation so far:" ++ nl ++ history_prompt ++ nl ++ nl
    ++ lit "New student message: " ++ user_message ++ nl ++ nl in
  let user_prompt :=
    match vector_context with
    | Some (c :: cs) =>
        user_prompt ++ lit "Relevant content from uploaded documents:" ++ nl
        ++ (c :: cs) ++ nl ++ nl
    | _ => user_prompt
    end in
  let user_prompt :=
    match tool_outputs with
    | [] => user_prompt
    | _ => user_prompt ++ lit "Tools output:" ++ nl ++ join nl tool_outputs
           ++ nl ++ nl
    end in
  if negb api_key then
    (Ok (lit "OpenAI API key is not configured on the server. "
         ++ lit "Set the OPENAI_API_KEY environment variable to enable model responses."),
     inc_errors m)
  else
    match chat system_prompt user_prompt with
    | Ok reply => (Ok reply, m)
    | Raise _ =>
        (Ok (lit "Sorry " ++ em_dash
             ++ lit " the tutor service encountered an internal error."),
         inc_errors m)
    end.

(** The part of [TutorAgent.respond] after the quiz tool. The outcome is
    [None] when the call hands nothing back to its caller: the math tool
    was used and did not hand back a text. *)
Definition respond_llm (student_profile : option (gmap str pyval))
    (session_state : Session.session) (user_message : str)
    (vector_context : option str) (use_math_tool : bool) (m : metrics)
    : option (result str) * metrics :=
  if use_math_tool then
    let m := inc_tool (lit "code_exec_tool") m in
    match code_exec_tool user_message with
    | None => (None, m)
    | Some result =>
        let '(reply, m) :=
          respond_chat student_profile session_state user_message
            vector_context [lit "Math tool result: " ++ result] m in
        (Some reply, m)
    end
  else
    let '(reply, m) :=
      respond_chat student_profile session_state user_message
        vector_context [] m in
    (Some reply, m).

(** [TutorAgent.respond] *)
Definition respond (student_profile : option (gmap str pyval))
    (session_state : Session.session) (user_message : str)
    (vector_context : option str) (m : metrics)
    : option (result str) * metrics :=
  let lower_msg := lower user_message in
  let use_math_tool :=
    existsb (fun sym => contains (lit sym) user_message)
      ["+"; "-"; "*"; "/"; "="; "^"]%string in
  let use_quiz_tool :=
    contains (lit "quiz") lower_msg || contains (lit "practice") lower_msg in
  if use_quiz_tool then
    let m := inc_tool (lit "content_tool") m in
    match get_quiz_questions (Session.current_topic session_state) with
    | Raise e => (Some (Raise e), m)
    | Ok (q :: qs) => (Some (Ok (strip (join nl (quiz_lines (q :: qs))))), m)
    | Ok [] =>
        respond_llm student_profile session_state user_message
          vector_context use_math_tool m
    end
  else
    respond_llm student_profile session_state user_message
      vector_context use_math_tool m.

Definition topics : list str :=
  [lit "Basic concepts & revision"; lit "Practice problems";
   lit "Advanced problems"; lit "Mock test"; lit "Revision & weak areas"].

(** [CurriculumPlannerAgent.create_plan] *)
Definition create_plan (student_profile : gmap str pyval) (goal : str)
    (days : Z) : result str :=
  let grade := dict_get student_profile (lit "grade") in
  let syllabus := dict_get student_profile (lit "syllabus") in
  let subject := dict_get student_profile (lit "subject") in
  let name := dict_get student_profile (lit "name") in
  let proficiency := dict_get student_profile (lit "proficiency") in
  let profile_parts :=
    (if truthy name then [lit "Student: " ++ py_str name] else [])
    ++ (if truthy grade then [lit "Grade: " ++ py_str grade] else [])
    ++ (if truthy syllabus then [lit "Syllabus: " ++ py_str syllabus] else [])
    ++ (if truthy subject then [lit "Subject: " ++ py_str subject] else [])
    ++ (if truthy proficiency then [lit "Level: " ++ py_str proficiency] else []) in
  let head :=
    [[128216%N] ++ lit " Personalized Study Plan (" ++ str_of_int days
     ++ lit " days)"]
    ++ match profile_parts with
       | [] => []
       | _ => [join (lit " | ") profile_parts]
       end
    ++ [lit "Goal: " ++ goal ++ nl] in
  match get_quiz_questions (Some (lit "fractions")) with
  | Raise e => Raise e
  | Ok quiz_preview =>
      let day_lines :=
        concat
          (List.map (fun day =>
                  [lit "Day " ++ str_of_int (day + 1) ++ lit ": "
                   ++ default [] (topics !! Z.to_nat (day mod len topics))]
                  ++ match quiz_preview with
                     | [] => []
                     | _ => [lit "  - Practice quiz included " ++ [9989%N]]
                     end) (seqZ 0 days)) in
      Ok (join nl
            (head ++ day_lines
             ++ [nl ++ lit "Stay consistent and review mistakes every day!"]))
  end.

End Agents.

End Agents.

(** ** agents/orchestrator.py *)

Module Orchestrator.
Import Py Context Metrics.
Local Open Scope Z_scope.

Inductive agent := Planner | Tutor.

(** The state a call works on: the session store, the global metrics and
    the routing lines written to the log ("Routing to ...", "Router:
    Directing to ... node"). *)
Record world := World {
  sessions : gmap str Session.session;
  counters : metrics;
  routing_log : list agent
}.

(** The LangGraph state dict; [g_message] and [g_reply] may be absent. *)
Record graph_state := GraphState {
  g_user_id : str;
  g_session_id : str;
  g_message : option str;
  g_session_state : Session.session;
  g_student_profile : gmap str pyval;
  g_vector_context : option str;
  g_reply : option str
}.

Definition set_reply (state : graph_state) (reply : str) : graph_state :=
  GraphState (g_user_id state) (g_session_id state) (g_message state)
    (g_session_state state) (g_student_profile state)
    (g_vector_context state) (Some reply).

Definition failed_reply : str :=
  lit "Sorry " ++ Agents.em_dash ++ lit " failed to produce a response.".

Definition internal_error_reply : str :=
  lit "Sorry " ++ Agents.em_dash
  ++ lit " the orchestration service encountered an internal error.".

Section Orchestrator.
Context {score : Type}.

(** [str.lower] *)
Variable lower : str -> str.
(** [tutor_agent.respond]: what it returns or raises, or [None] when it
    hands nothing back (its math tool let through something that is not an
    [Exception], or did not end); and [planner_agent.create_plan]. *)
Variable respond :
  option (gmap str pyval) -> Session.session -> str -> option str ->
  metrics -> option (result str) * metrics.
Variable create_plan : gmap str pyval -> str -> Z -> result str.
(** [vector_store.search], when a vector store was passed in. *)
Variable vector_store :
  option (str -> str -> Z -> result (list (@VectorStore.hit score))).
(** [profile_service.get_profile], when a profile service was passed in. *)
Variable profile_service :
  option (str -> result (option (gmap str pyval))).

(** A value in a condition: [None] and the empty string are false. *)
Definition str_truthy (s : option str) : bool :=
  match s with Some (_ :: _) => true | _ => false end.

(** The router of the LangGraph flow. *)
Definition route_message (state : graph_state) (w : world) : str * world :=
  let message := lower (default [] (g_message state)) in
  if contains (lit "plan") message
     && (contains (lit "study") message || contains (lit "test") message)
  then (lit "planner",
        World (sessions w) (counters w) (routing_log w ++ [Planner]))
  else (lit "tutor",
        World (sessions w) (counters w) (routing_log w ++ [Tutor])).

Definition planner_node (state : graph_state) : result graph_state :=
  match g_message state with
  | None => Raise KeyError
  | Some goal =>
      match create_plan (g_student_profile state) goal 5 with
      | Ok reply => Ok (set_reply state reply)
      | Raise e => Raise e
      end
  end.

Definition tutor_node (state : graph_state) (m : metrics)
    : option (result graph_state) * metrics :=
  match g_message state with
  | None => (Some (Raise KeyError), m)
  | Some user_message =>
      match respond (Some (g_student_profile state)) (g_session_state state)
              user_message (g_vector_context state) m with
      | (Some (Ok reply), m') => (Some (Ok (set_reply state reply)), m')
      | (Some (Raise e), m') => (Some (Raise e), m')
      | (None, m') => (None, m')
      end
  end.

(** [self._flow.invoke(inputs)] for the graph as it is built: the entry
    point is the tutor node, the router then ends the run or continues
    with the planner node. *)
Definition flow_invoke (inputs : graph_state) (w : world)
    : option (result graph_state) * world :=
  match tutor_node inputs (counters w) with
  | (None, m) => (None, World (sessions w) m (routing_log w))
  | (Some (Raise e), m) =>
      (Some (Raise e), World (sessions w) m (routing_log w))
  | (Some (Ok state), m) =>
      let '(next, w1) :=
        route_message state (World (sessions w) m (routing_log w)) in
      if bool_decide (next = lit "planner") then
        match planner_node state with
        | Ok state' => (Some (Ok state'), w1)
        | Raise e => (Some (Raise e), w1)
        end
      else (Some (Ok state), w1)
  end.

(** The block that loads the persisted profile and adds the subject. *)
Definition load_student_profile (user : str) (subject : option str)
    : result (gmap str pyval) :=
  let loaded :=
    match profile_service with
    | None => Ok ∅
    | Some get_profile =>
        match get_profile user with
        | Raise e => Raise e
        | Ok stored =>
            if dict_truthy stored then
              let s := default ∅ stored in
              Ok (<[lit "gender" := dict_get s (lit "gender")]>
                  (<[lit "proficiency" := dict_get s (lit "proficiency")]>
                  (<[lit "syllabus" := dict_get s (lit "syllabus")]>
                  (<[lit "class" := dict_get s (lit "class")]>
                  (<[lit "age" := dict_get s (lit "age")]>
                  (<[lit "name" := dict_get s (lit "name")]> ∅))))))
            else Ok ∅
        end
    end in
  match loaded with
  | Raise e => Raise e
  | Ok student_profile =>
      match subject with
      | Some (c :: cs) => Ok (<[lit "subject" := PStr (c :: cs)]> student_profile)
      | _ => Ok student_profile
      end
  end.

(** The vector-store lookup at the start of [handle_message]. *)
Definition lookup_vector_context (subject : option str) (message : str)
    : option str :=
  match subject, vector_store with
  | Some (c :: cs), Some search =>
      match search (c :: cs) message 3 with
      | Ok (r :: rs) =>
          Some (join (nl ++ nl)
                  (List.map (fun r => lit "[From " ++ VectorStore.hit_source r
                                 ++ lit "]: " ++ VectorStore.hit_text r)
                       (r :: rs)))
      | Ok [] => None
      | Raise _ => None
      end
  | _, _ => None
  end.

Definition set_counters (w : world) (m : metrics) : world :=
  World (sessions w) m (routing_log w).

Definition log_route (w : world) (a : agent) : world :=
  World (sessions w) (counters w) (routing_log w ++ [a]).

(** The last two statements of [handle_message]. *)
Definition finish (session_id reply : str) (w : world)
    : option (result str) * world :=
  (Some (Ok reply),
   World (Session.add_message session_id (lit "assistant") reply (sessions w))
         (counters w) (routing_log w)).

(** [AgentOrchestrator.handle_message] of edumentor_full; [has_flow] tells
    whether the LangGraph flow was built. The outcome is [None] when the
    tutor hands nothing back: no [except Exception] of the flow path
    applies, and the statements after the call are not reached. *)
Definition handle_message (has_flow : bool) (user session_id message : str)
    (subject : option str) (w : world) : option (result str) * world :=
  let ss := snd (Session.get_session session_id (sessions w)) in
  let ss := Session.add_message session_id (lit "user") message ss in
  (* the dict returned by get_session is the stored one: after
     add_message it holds the new message list *)
  let session_state := default (Session.fresh None) (ss !! session_id) in
  let w := World ss (counters w) (routing_log w) in
  let lower_msg := lower message in
  let vector_context := lookup_vector_context subject message in
  if has_flow then
    match load_student_profile user subject with
    | Raise _ =>
        finish session_id internal_error_reply
          (set_counters w (inc_errors (counters w)))
    | Ok student_profile =>
        let inputs :=
          GraphState user session_id (Some message) session_state
            student_profile vector_context None in
        let w :=
          if contains (lit "plan") lower_msg
             && (contains (lit "study") lower_msg
                 || contains (lit "test") lower_msg)
          then set_counters w (inc_planner (counters w))
          else set_counters w (inc_tutor (counters w)) in
        match flow_invoke inputs w with
        | (Some (Ok exec_result), w) =>
            let reply := default failed_reply (g_reply exec_result) in
            finish session_id reply
              (set_counters w (inc_latency_count (counters w)))
        | (Some (Raise _), w) =>
            finish session_id failed_reply
              (set_counters w (inc_errors (counters w)))
        | (None, w) => (None, w)
        end
    end
  else
    if contains (lit "plan") lower_msg
       && (contains (lit "study") lower_msg || contains (lit "test") lower_msg)
    then
      let w := log_route (set_counters w (inc_planner (counters w))) Planner in
      match load_student_profile user subject with
      | Raise e => (Some (Raise e), w)
      | Ok student_profile =>
          match create_plan student_profile message 5 with
          | Raise e => (Some (Raise e), w)
          | Ok reply => finish session_id reply w
          end
      end
    else
      let w := log_route (set_counters w (inc_tutor (counters w))) Tutor in
      match load_student_profile user subject with
      | Raise e => (Some (Raise e), w)
      | Ok student_profile =>
          match respond (Some student_profile) session_state message
                  vector_context (counters w) with
          | (None, m) => (None, set_counters w m)
          | (Some (Raise e), m) => (Some (Raise e), set_counters w m)
          | (Some (Ok reply), m) =>
              finish session_id reply
                (set_counters w (inc_latency_count m))
          end
      end.

(** [AgentOrchestrator.handle_message] of the first edumentor package:
    no profile service, no vector store, no flow. *)
Definition handle_message_simple (user session_id message : str) (w : world)
    : option (result str) * world :=
  let ss := snd (Session.get_session session_id (sessions w)) in
  let ss := Session.add_message session_id (lit "user") message ss in
  let session_state := default (Session.fresh None) (ss !! session_id) in
  let w := World ss (counters w) (routing_log w) in
  let lower_msg := lower message in
  let student_profile : gmap str pyval :=
    <[lit "syllabus" := PStr (lit "CBSE")]> (<[lit "grade" := PInt 8]> ∅) in
  if contains (lit "plan") lower_msg
     && (contains (lit "study") lower_msg || contains (lit "test") lower_msg)
  then
    let w := log_route (set_counters w (inc_planner (counters w))) Planner in
    match create_plan student_profile message 5 with
    | Raise e => (Some (Raise e), w)
    | Ok reply => finish session_id reply w
    end
  else
    let w := log_route (set_counters w (inc_tutor (counters w))) Tutor in
    match respond (Some student_profile) session_state message None
            (counters w) with
    | (None, m) => (None, set_counters w m)
    | (Some (Raise e), m) => (Some (Raise e), set_counters w m)
    | (Some (Ok reply), m) =>
        finish session_id reply (set_counters w (inc_latency_count m))
    end.

End Orchestrator.

End Orchestrator.

(** ** PDFProcessor.extract_text_from_pdf and process_pdf *)

Module PdfProcessor.
Import Py Context Chunk.
Local Open Scope Z_scope.

(** The outcome of a call that can raise a [ValueError]. *)
Inductive outcome (A : Type) :=
  | Done (a : A)
  | ValueError (msg : str).
Arguments Done {A} a.
Arguments ValueError {A} msg.

(** [page.extract_text()]: a text, [None], or an exception. *)
Inductive extraction :=
  | Extracted (text : option str)
  | ExtractFailed.

(** [PdfReader(pdf_file)] with its [pages]: the outcome of each page's
    extraction, or an exception with its message. *)
Inductive reader :=
  | Pages (pages : list extraction)
  | ReaderFailed (msg : str).

(** The [text_content] list: the texts of the pages for which
    [text and text.strip()] holds. *)
Definition page_text (p : extraction) : option str :=
  match p with
  | Extracted (Some text) =>
      match text, strip text with
      | [], _ | _, [] => None
      | _, _ => Some text
      end
  | Extracted None => None
  | ExtractFailed => None
  end.

Definition text_content (pages : list extraction) : list str :=
  omap page_text pages.

Definition failed (msg : str) : outcome str :=
  ValueError (lit "Failed to process PDF: " ++ msg).

Definition extract_text_from_pdf (r : reader) : outcome str :=
  match r with
  | ReaderFailed msg => failed msg
  | Pages pages =>
      if len pages =? 0 then failed (lit "PDF has no pages")
      else
        let full_text := join (nl ++ nl) (text_content pages) in
        let pages_with_text := len (text_content pages) in
        if pages_with_text =? 0 then
          failed (lit "Could not extract text from any of the "
                  ++ str_of_int (len pages) ++ lit " pages. "
                  ++ lit "This PDF might be image-based or protected.")
        else Done full_text
  end.

(** [process_pdf]: the chunks of the extracted text, with the default
    overlap of [chunk_text]. [None] when the fuel of the chunking loop runs
    out. *)
Definition process_pdf (fuel : nat) (r : reader) (chunk_size : Z)
    : option (outcome (list str)) :=
  match extract_text_from_pdf r with
  | ValueError msg => Some (ValueError msg)
  | Done text =>
      match chunk_text fuel text chunk_size 50 with
      | Some chunks => Some (Done chunks)
      | None => None
      end
  end.

End PdfProcessor.

(** ** VectorStore.get_subject_stats *)

Module VectorStoreStats.
Import Py VectorStore.
Local Open Scope Z_scope.

(** The result dict as the pair of [document_count] and [sources]; the
    code builds [sources] from a set, in no fixed order, so it is kept as a
    set. *)
Definition get_subject_stats {vec} (subject : str) (st : @store vec)
    : result (Z * gset str) :=
  match indexes st !! subject with
  | None => Ok (0, ∅)
  | Some _ =>
      match metadata st !! subject with
      | None => Raise KeyError
      | Some md => Ok (len md, list_to_set (List.map source md))
      end
  end.

End VectorStoreStats.

(** ** Scoring a quiz (QuizResultsDB.save_result, submit_quiz) *)

Module QuizScore.
Import Py.
Local Open Scope Z_scope.

(** A stored question; [correct_answer] is the index of the right option. *)
Record quiz_question := QuizQuestion {
  question : str;
  options : list str;
  correct_answer : Z;
  explanation : str
}.

(** The condition of the generator expression for position [i]:
    [i < len(user_answers) and user_answers[i] == q["correct_answer"]]. *)
Definition answered_right (user_answers : list Z) (i : nat)
    (q : quiz_question) : bool :=
  (Z.of_nat i <? len user_answers)
  && match py_index user_answers (Z.of_nat i) with
     | Some a => a =? correct_answer q
     | None => false
     end.

(** [sum(1 for i, q in enumerate(questions) if ...)] *)
Definition correct_answers (questions : list quiz_question)
    (user_answers : list Z) : Z :=
  fold_left Z.add
    (imap (fun i q => if answered_right user_answers i q then 1 else 0)
       questions) 0.

(** One entry of [detailed_results] in [submit_quiz]. *)
Record detail := Detail {
  d_question : str;
  d_options : list str;
  d_user_answer : option Z;
  d_correct_answer : Z;
  d_is_correct : bool;
  d_explanation : str
}.

Definition detailed_results (questions : list quiz_question)
    (answers : list Z) : list detail :=
  imap (fun i q =>
          let user_answer :=
            if Z.of_nat i <? len answers then py_index answers (Z.of_nat i)
            else None in
          let is_correct :=
            match user_answer with
            | Some a => a =? correct_answer q
            | None => false
            end in
          Detail (question q) (options q) user_answer (correct_answer q)
            is_correct (explanation q)) questions.

End QuizScore.


(** ** services/quiz.py (the response text), agents/tutor.py (the .env file) *)

Module TextTools.
Import Py.
Local Open Scope Z_scope.

(** [s.endswith(suffix)] *)
Definition ends_with (suffix s : str) : bool :=
  is_prefix (rev suffix) (rev s).

(** The fence of a markdown code block, with and without the language. *)
Definition fence : str := lit "```".
Definition json_fence : str := lit "```json".

(** [generate_quiz], from the content of the chat response to the text
    handed to [json.loads]. *)
Definition clean_response (raw : str) : str :=
  let content := strip raw in
  let content :=
    if is_prefix json_fence content then slice_from content 7
    else if is_prefix fence content then slice_from content 3
    else content in
  let content :=
    if ends_with fence content then slice content 0 (-3) else content in
  strip content.

(** The two quote characters. *)
Definition double_quote : str := [34%N].
Definition single_quote : str := [39%N].

(** [line.split("=", 1)] for a line that contains "=": the text before
    the first "=" and the text after it. *)
Fixpoint split_eq (line : str) : str * str :=
  match line with
  | [] => ([], [])
  | c :: rest =>
      if (c =? 61)%N then ([], rest)
      else let '(k, v) := split_eq rest in (c :: k, v)
  end.

(** The removal of surrounding quotes. *)
Definition unquote (val : str) : str :=
  if (is_prefix double_quote val && ends_with double_quote val)
     || (is_prefix single_quote val && ends_with single_quote val)
  then slice val 1 (-1)
  else val.

(** The loop over [text.splitlines()]. *)
Fixpoint parse_lines (lines : list str) (key : str) : option str :=
  match lines with
  | [] => None
  | raw :: rest =>
      let line := strip raw in
      if match line with [] => true | _ => false end
         || is_prefix (lit "#") line
         || negb (contains (lit "=") line)
      then parse_lines rest key
      else
        let '(k, v) := split_eq line in
        if bool_decide (strip k = key) then Some (unquote (strip v))
        else parse_lines rest key
  end.

(** [_parse_env_file_for_key]; [read] is [text.splitlines()], or [None]
    when reading the file raised. *)
Definition _parse_env_file_for_key (read : option (list str)) (key : str)
    : option str :=
  match read with
  | None => None
  | Some lines => parse_lines lines key
  end.

End TextTools.


(** ** Vocabulary of the statements *)

Module StrSpec.
Import Py.
Local Open Scope Z_scope.

(** [sub] is a contiguous part of [s]. *)
Definition substring (sub s : str) : Prop :=
  exists pre post, s = pre ++ sub ++ post.

(** [sub] lies in [s] at offset [i]. *)
Definition occurs (s sub : str) (i : Z) : Prop :=
  exists pre post, s = pre ++ sub ++ post /\ len pre = i.

End StrSpec.

Module ChunkSpec.
Import Py StrSpec Chunk.
Local Open Scope Z_scope.

(** A chunk as the specification wants it: at most [chunk_size] characters,
    and something is left after stripping. *)
Definition chunk_ok (chunk_size : Z) (c : str) : Prop :=
  len c <= chunk_size /\ strip c <> [].

Definition sentence_seps : list str := [dot_sep; bang_sep; quest_sep].




(** What one pass of the loop keeps true. *)
Definition loop_inv (chunk_size overlap : Z) (st : Z * list str) : Prop :=
  -1 - overlap <= fst st /\ Forall (chunk_ok chunk_size) (snd st).

(** A short paragraph followed by a long one: 60 letters, a paragraph
    break, 600 letters. *)
Definition long_paragraph_text : str :=
  replicate 60 97%N ++ para_sep ++ replicate 600 98%N.

(** A two-letter title, a paragraph break, 600 letters. *)
Definition short_title_text : str :=
  lit "Hi" ++ para_sep ++ replicate 600 97%N.


End ChunkSpec.

Module ContextSpec.
Import Py StrSpec Context.

(** The recognised fields shown when their value is true in a condition,
    with the label each is shown under. [age] is shown whenever it is not
    [None]. *)
Definition truthy_fields : list (string * string) :=
  [("name", "Name"); ("grade", "Grade"); ("syllabus", "Syllabus");
   ("subject", "Subject"); ("proficiency", "Proficiency");
   ("gender", "Gender")]%string.

Definition all_fields : list (string * string) :=
  (("age", "Age") :: truthy_fields)%string.

(** The profile is [None] or the empty dict. *)
Definition no_profile (student_profile : option (gmap str pyval)) : Prop :=
  student_profile = None \/ student_profile = Some ∅.

(** The contract as the specification words it, for one input: "present"
    read as holding a value other than [None], "provided" as not [None]. *)
Definition prompt_contract_as_stated
    (student_profile : option (gmap str pyval))
    (vector_context : option str) : Prop :=
  let out := build_tutor_system_prompt student_profile vector_context in
  (exists rest, out = BASE_TUTOR_SYSTEM_PROMPT ++ rest)
  /\ (no_profile student_profile -> out = BASE_TUTOR_SYSTEM_PROMPT)
  /\ (forall d key label,
        student_profile = Some d -> d <> ∅ ->
        (key, label) ∈ all_fields ->
        dict_get d (lit key) <> PNone ->
        substring (part label (dict_get d (lit key))) out)
  /\ (forall c, vector_context = Some c -> substring vector_instruction out).

End ContextSpec.

Module VectorStoreSpec.
Import Py VectorStore.
Local Open Scope Z_scope.

(** Every entry's [index] field is its position in the list. *)
Definition indexed (md : list meta) : Prop :=
  forall i m, md !! i = Some m -> index m = Z.of_nat i.

(** The (text, source) pairs of a metadata list. *)
Definition documents (md : list meta) : list (str * str) :=
  List.map (fun m => (text m, source m)) md.

(** What the store holds for one subject, against the pairs [log] added
    under it: both dicts know the subject or neither does; the metadata
    lists exactly the logged pairs, each at its position; the index holds
    one vector per entry. *)
Definition subject_inv {vec} (ix : option (list vec))
    (md : option (list meta)) (log : list (str * str)) : Prop :=
  match ix, md with
  | Some vectors, Some entries =>
      documents entries = log /\ indexed entries
      /\ length vectors = length entries
  | None, None => log = []
  | _, _ => False
  end.

Definition store_inv {vec} (st : @store vec)
    (log : str -> list (str * str)) : Prop :=
  forall s, subject_inv (indexes st !! s) (metadata st !! s) (log s).

(** The log after one more operation. *)
Definition log_step (o : op) (log : str -> list (str * str))
    (s : str) : list (str * str) :=
  match o with
  | Add s0 texts src =>
      if decide (s0 = s) then log s ++ List.map (fun t => (t, src)) texts
      else log s
  | Delete s0 | Init s0 => if decide (s0 = s) then [] else log s
  end.

End VectorStoreSpec.

Module OrchestratorSpec.
Import Py StrSpec Orchestrator.

(** The lowercased message asks for a plan: it contains "plan" and also
    "study" or "test". *)
Definition wants_planner (lowered : str) : Prop :=
  substring (lit "plan") lowered
  /\ (substring (lit "study") lowered \/ substring (lit "test") lowered).

(** The profile the first orchestrator passes to both agents. *)
Definition default_profile : gmap str pyval :=
  <[lit "syllabus" := PStr (lit "CBSE")]> (<[lit "grade" := PInt 8]> ∅).

(** The messages of a session, empty when the session is unknown. *)
Definition messages_of (session_id : str) (w : world) : list Session.message :=
  default [] (Session.messages <$> sessions w !! session_id).

(** The sessions after both messages of one exchange were added. *)
Definition after_exchange (session_id message reply : str) (w : world)
    : gmap str Session.session :=
  Session.add_message session_id (lit "assistant") reply
    (Session.add_message session_id (lit "user") message
       (snd (Session.get_session session_id (sessions w)))).

End OrchestratorSpec.

(** ** Concrete inputs *)

Module Samples.
Import Py.
Local Open Scope Z_scope.

(** One session created, then twelve messages added to it. *)
Definition twelve_messages : list Session.op :=
  Session.Create (lit "s1") (lit "asha")
  :: List.map (fun n => Session.Add (lit "s1") (lit "user") (str_of_int n))
       (seqZ 1 12).

(** Profiles with scalar fields, and a serialisation of the profile file
    for them: the empty mapping is written as the two characters of an
    empty JSON object, any other mapping as one token between braces. It
    stands in for the JSON library where a concrete one is needed. *)
#[global] Instance pyval_eq_dec : EqDecision pyval.
Proof. solve_decision. Defined.

#[global] Instance pyval_countable : Countable pyval.
Proof.
  refine (inj_countable'
    (fun v => match v with
              | PNone => inl tt
              | PBool b => inr (inl b)
              | PInt z => inr (inr (inl z))
              | PStr s => inr (inr (inr s))
              end)
    (fun x => match x with
              | inl _ => PNone
              | inr (inl b) => PBool b
              | inr (inr (inl z)) => PInt z
              | inr (inr (inr s)) => PStr s
              end) _).
  by intros [].
Defined.

Definition token_dumps (d : gmap str (gmap str pyval)) : str :=
  if decide (d = ∅) then lit "{}"
  else lit "{" ++ [N.pos (encode d)] ++ lit "}".

Definition token_loads (text : str)
    : option (@Profile.document (gmap str pyval)) :=
  if decide (text = lit "{}") then Some (Profile.Mapping ∅)
  else
    match text with
    | [l; N.pos p; r] =>
        if decide (l = 123%N /\ r = 125%N) then Profile.Mapping <$> decode p
        else None
    | _ => None
    end.

Definition asha_profile : gmap str pyval :=
  <[lit "name" := PStr (lit "Asha")]> (<[lit "age" := PInt 12]> ∅).

Definition ravi_profile : gmap str pyval :=
  <[lit "name" := PStr (lit "Ravi")]> (<[lit "syllabus" := PStr []]> ∅).

(** A stand-in for the embedding model and the flat index: a text is
    embedded as its length, the distance is the squared difference, the
    search sorts all stored vectors by distance, keeps the first [k] and
    pads with the label -1 when fewer than [k] are stored. A [k] that is
    not positive is refused. *)
Definition length_embed (s : str) : Z := len s.

Definition flat_search (ix : list Z) (q : Z) (k : Z) : result (list (Z * Z)) :=
  if k <=? 0 then Raise AssertionError
  else
    let scored := imap (fun i v => ((v - q) * (v - q), Z.of_nat i)) ix in
    let sorted :=
      merge_sort (H := fun a b => decide (fst a <= fst b))
        (fun a b => fst a <= fst b) scored in
    Ok (take (Z.to_nat k) (sorted ++ replicate (Z.to_nat k) (-1, -1))).

Definition store_ops : list VectorStore.op :=
  [ VectorStore.Init (lit "maths"); VectorStore.Init (lit "science");
    VectorStore.Add (lit "science")
      [lit "Plants make food."; lit "Leaves are green."; lit "Water"]
      (lit "bio.pdf");
    VectorStore.Add (lit "maths") [lit "Algebra"] (lit "alg.pdf");
    VectorStore.Delete (lit "maths");
    VectorStore.Add (lit "maths") [lit "Circles"; lit "Angles"] (lit "geo.pdf") ].

(** A vector store whose search always raises, a chat call that always
    answers, a math tool that always hands back the same text, and the
    world before the first request. *)
Definition failing_search (subject query : str) (top_k : Z)
    : result (list (@VectorStore.hit Z)) :=
  Raise (RuntimeError (lit "index unavailable")).

Definition canned_chat (system_prompt user_prompt : str) : result str :=
  Ok (lit "Let us work through it step by step.").

Definition no_tool (code : str) : option str := Some (lit "n/a").

Definition fresh_world : Orchestrator.world :=
  Orchestrator.World ∅ Metrics.zero [].

End Samples.

Module SessionSpec.
Import Py Session.

(** Who owns session [sid] after [ops]: the user of the last
    [create_session] that drew this id, nobody when the session came into
    being through [get_session] or [add_message]. *)
Fixpoint owner (sid : str) (ops : list op) (acc : option str) : option str :=
  match ops with
  | [] => acc
  | Create new_id user :: ops' =>
      owner sid ops' (if decide (new_id = sid) then Some user else acc)
  | Get _ :: ops' | Add _ _ _ :: ops' => owner sid ops' acc
  end.

End SessionSpec.


Module ProfileSpec.
Import Py.

(** The profile last upserted for [user] in [ups], [acc] when there is
    none. *)
Fixpoint latest {P} (user : str) (ups : list (str * P)) (acc : option P)
    : option P :=
  match ups with
  | [] => acc
  | (u, p) :: ups' =>
      latest user ups' (if decide (u = user) then Some p else acc)
  end.

End ProfileSpec.


Module Samples2.
Import Py.

(** Asha's profile with a key the prompt builder does not know. *)
Definition asha_with_class : gmap str pyval :=
  <[lit "class" := PStr (lit "7")]> Samples.asha_profile.

(** A math tool that never hands anything back. *)
Definition silent_tool (code : str) : option str := None.

(** Two turns of a conversation. *)
Definition two_turns : list Session.message :=
  [Session.Message (lit "user") (lit "What is a prime?");
   Session.Message (lit "assistant") (lit "A number with two divisors.")].

End Samples2.


Module AgentsSpec.
Import Py StrSpec Context.

(** The lowercased message mentions a quiz or practice. *)
Definition asks_for_quiz (lowered : str) : Prop :=
  substring (lit "quiz") lowered \/ substring (lit "practice") lowered.




(** The text of the built-in quiz on fractions. *)
Definition builtin_quiz_reply : str :=
  join nl
    [lit "Here are some practice questions:"; [];
     lit "1. What is 1/2 + 1/3?";
     lit "   - 2/5"; lit "   - 5/6"; lit "   - 1/6"; lit "   - 3/5"; [];
     lit "2. What is 3/4 - 1/8?";
     lit "   - 1/8"; lit "   - 5/8"; lit "   - 3/8"; lit "   - 7/8"].


(** How often [t] occurs in [tools]. *)
Definition uses (t : str) (tools : list str) : Z :=
  Z.of_nat (length (filter (fun u => u = t) tools)).

End AgentsSpec.


Module TextSpec.
Import Py StrSpec TextTools.

(** A line of the .env file that cannot give a value for [key]: blank, a
    comment, without "=", or a definition of another key. *)
Definition passed_over (key raw : str) : Prop :=
  strip raw = []
  \/ (exists rest, strip raw = lit "#" ++ rest)
  \/ ~ substring (lit "=") (strip raw)
  \/ exists k v,
       strip raw = k ++ lit "=" ++ v /\ (61%N ∉ k) /\ strip k <> key.

(** A response in a json code block, and a small .env file. *)
Definition fenced_response : str :=
  lit "  ```json" ++ [10%N] ++ lit "[1, 2]" ++ [10%N] ++ lit "```" ++ [10%N].

Definition env_lines : list str :=
  [lit "# keys"; []; lit "DEBUG=1";
   lit " OPENAI_API_KEY = " ++ double_quote ++ lit "sk-123" ++ double_quote;
   lit "OPENAI_API_KEY=other"].

End TextSpec.


(** * Properties *)

(** ** Facts about the built-ins *)

Module PyFacts.
Import Py StrSpec.
Local Open Scope Z_scope.

Lemma is_prefix_spec sub s :
  is_prefix sub s = true <-> exists post, s = sub ++ post.
Proof.
  revert s. induction sub as [|c sub IH]; intros s; simpl.
  - split; [intros _; by exists s | done].
  - destruct s as [|d s].
    + split; [done | intros [post H]; discriminate].
    + rewrite andb_true_iff, N.eqb_eq, IH. split.
      * intros [-> [post ->]]. by exists post.
      * intros [post H]. injection H as -> ->. split; [done | by exists post].
Qed.

Lemma contains_spec sub s : contains sub s = true <-> substring sub s.
Proof.
  unfold substring. induction s as [|a s IH]; simpl.
  - rewrite orb_false_r, is_prefix_spec. split.
    + intros [post H]. exists [], post. done.
    + intros (pre & post & H). symmetry in H.
      apply app_eq_nil in H as [-> H]. apply app_eq_nil in H as [-> ->].
      by exists [].
  - rewrite orb_true_iff, is_prefix_spec, IH. split.
    + intros [[post H] | (pre & post & H)].
      * exists [], post. done.
      * exists (a :: pre), post. by rewrite H.
    + intros (pre & post & H). destruct pre as [|b pre].
      * left. by exists post.
      * right. injection H as -> ->. by exists pre, post.
Qed.

Lemma contains_false sub s : contains sub s = false <-> ~ substring sub s.
Proof.
  rewrite <- contains_spec. destruct (contains sub s); split; done.
Qed.

Lemma lstrip_length s : (length (lstrip s) <= length s)%nat.
Proof.
  induction s as [|c s IH]; simpl; [done|].
  destruct (is_space c); simpl; lia.
Qed.

Lemma lstrip_head s c r : lstrip s = c :: r -> is_space c = false.
Proof.
  induction s as [|d s IH]; simpl; [done|].
  destruct (is_space d) eqn:E; [done|]. intros H. by injection H as <- _.
Qed.

Lemma lstrip_fix c r : is_space c = false -> lstrip (c :: r) = c :: r.
Proof. intros H. simpl. by rewrite H. Qed.

Lemma lstrip_idem s : lstrip (lstrip s) = lstrip s.
Proof.
  destruct (lstrip s) as [|c r] eqn:E; [done|].
  apply lstrip_fix. by eapply lstrip_head.
Qed.

(** [lstrip] takes a suffix, so the last element survives when anything does. *)
Lemma lstrip_suffix s : exists pre, s = pre ++ lstrip s.
Proof.
  induction s as [|c s [pre IH]]; simpl; [by exists []|].
  destruct (is_space c); [| by exists []].
  exists (c :: pre). simpl. by rewrite <- IH.
Qed.

Lemma rstrip_length s : (length (rstrip s) <= length s)%nat.
Proof.
  unfold rstrip. rewrite length_rev.
  etrans; [apply lstrip_length|]. by rewrite length_rev.
Qed.

Lemma rstrip_idem s : rstrip (rstrip s) = rstrip s.
Proof. unfold rstrip. by rewrite rev_involutive, lstrip_idem. Qed.

Lemma rstrip_prefix s : exists post, s = rstrip s ++ post.
Proof.
  unfold rstrip. destruct (lstrip_suffix (rev s)) as [pre H].
  exists (rev pre). rewrite <- rev_app_distr, <- H. by rewrite rev_involutive.
Qed.

Lemma strip_length s : (length (strip s) <= length s)%nat.
Proof.
  unfold strip. etrans; [apply rstrip_length | apply lstrip_length].
Qed.

(** Stripping a stripped string changes nothing. *)
Lemma strip_idem s : strip (strip s) = strip s.
Proof.
  unfold strip.
  assert (H : lstrip (rstrip (lstrip s)) = rstrip (lstrip s)).
  { destruct (rstrip (lstrip s)) as [|c r] eqn:E; [done|].
    apply lstrip_fix.
    destruct (rstrip_prefix (lstrip s)) as [post Hp]. rewrite E in Hp.
    by eapply lstrip_head. }
  by rewrite H, rstrip_idem.
Qed.

Lemma len_nonneg {A} (s : list A) : 0 <= len s.
Proof. unfold len. lia. Qed.

Lemma len_app {A} (s t : list A) : len (s ++ t) = len s + len t.
Proof. unfold len. rewrite length_app. lia. Qed.

(** A slice is never longer than the distance of its normalised bounds. *)
Lemma slice_length {A} (s : list A) lo hi :
  len (slice s lo hi) <= Z.max 0 (adjust (len s) hi - adjust (len s) lo).
Proof.
  unfold slice, len. rewrite length_take. lia.
Qed.

Lemma occurs_at_spec s sub i :
  0 <= i -> occurs_at s sub i = true <-> occurs s sub i.
Proof.
  intros Hi. unfold occurs_at, occurs.
  rewrite andb_true_iff, bool_decide_eq_true, Z.leb_le. split.
  - intros [Ht Hl]. exists (take (Z.to_nat i) s), (drop (length sub) (drop (Z.to_nat i) s)).
    split.
    + pose proof (take_drop (length sub) (drop (Z.to_nat i) s)) as Htd.
      rewrite Ht in Htd. rewrite Htd. by rewrite take_drop.
    + unfold len in *. rewrite length_take. lia.
  - intros (pre & post & -> & Hl). unfold len in *.
    assert (Z.to_nat i = length pre) as Hn by lia. rewrite Hn.
    rewrite drop_app_length, take_app_length. split; [done|].
    rewrite !length_app. lia.
Qed.

Lemma rscan_range s sub a k :
  rscan s sub a k = -1
  \/ (a <= rscan s sub a k < a + Z.of_nat k
      /\ occurs_at s sub (rscan s sub a k) = true).
Proof.
  induction k as [|k IH]; simpl; [by left|].
  destruct (occurs_at s sub (a + Z.of_nat k)) eqn:E.
  - right. split; [lia | done].
  - destruct IH as [IH | [IH1 IH2]]; [by left | right]. split; [lia | done].
Qed.


(** Where [rfind] can point: nowhere, or at an occurrence inside the
    (normalised) window. *)
Lemma rfind_range s sub lo hi :
  let a := if lo <? 0 then Z.max 0 (lo + len s) else lo in
  rfind s sub lo hi = -1
  \/ (a <= rfind s sub lo hi
      /\ rfind s sub lo hi + len sub <= adjust (len s) hi
      /\ occurs s sub (rfind s sub lo hi)).
Proof.
  intros a. unfold rfind. fold a.
  destruct (rscan_range s sub a (Z.to_nat (adjust (len s) hi - len sub - a + 1)))
    as [H | [H1 H2]]; [by left | right].
  assert (0 <= a) by (unfold a; destruct (lo <? 0) eqn:E; lia).
  split; [lia|]. split; [lia|]. apply occurs_at_spec; [lia | done].
Qed.

Lemma rfind_ge s sub lo hi : -1 <= rfind s sub lo hi.
Proof.
  destruct (rfind_range s sub lo hi) as [H | [H _]]; [lia|].
  destruct (lo <? 0) eqn:E; lia.
Qed.


(** Inside the text, [rfind] gives -1 exactly when the window holds no
    occurrence. *)
Lemma rfind_none s sub lo hi :
  0 <= lo -> 0 <= hi <= len s ->
  (forall q, lo <= q -> q + len sub <= hi -> ~ occurs s sub q) ->
  rfind s sub lo hi = -1.
Proof.
  intros Hlo Hhi Hnone.
  destruct (rfind_range s sub lo hi) as [H | (H1 & H2 & H3)]; [done|].
  exfalso.
  assert (adjust (len s) hi <= hi).
  { unfold adjust. destruct (hi <? 0) eqn:E; lia. }
  assert ((if lo <? 0 then Z.max 0 (lo + len s) else lo) = lo) as Ha
      by (destruct (lo <? 0) eqn:E; lia).
  rewrite Ha in H1.
  apply (Hnone (rfind s sub lo hi)); [lia | lia | done].
Qed.

End PyFacts.

(** ** chunk_text *)

Module ChunkFacts.
Import Py StrSpec PyFacts Chunk ChunkSpec.
Local Open Scope Z_scope.

Lemma adjust_inside n i : 0 <= i <= n -> adjust n i = i.
Proof. intros H. unfold adjust. destruct (i <? 0) eqn:E; lia. Qed.

Lemma sep_len sep : sep ∈ sentence_seps -> len sep = 2.
Proof.
  unfold sentence_seps. intros H.
  repeat (apply elem_of_cons in H as [-> | H]; [done|]).
  by apply elem_of_nil in H.
Qed.

(** The end of a chunk lies after its start and at most [chunk_size]
    further; it is never below -1. *)
Lemma chunk_end_bounds text chunk_size start :
  0 < chunk_size -> 0 <= start + chunk_size ->
  start < chunk_end text chunk_size start <= start + chunk_size
  /\ -1 <= chunk_end text chunk_size start.
Proof.
  intros Hcs Hhi. unfold chunk_end.
  destruct (start + chunk_size <? len text) eqn:E; [|lia].
  apply Z.ltb_lt in E.
  assert (Hadj : adjust (len text) (start + chunk_size) = start + chunk_size)
    by (apply adjust_inside; lia).
  assert (Hr : forall sep, len sep = 2 ->
            -1 <= rfind text sep start (start + chunk_size)
            /\ (rfind text sep start (start + chunk_size) = -1
                \/ rfind text sep start (start + chunk_size)
                   <= start + chunk_size - 2)).
  { intros sep Hs. pose proof (rfind_ge text sep start (start + chunk_size)).
    destruct (rfind_range text sep start (start + chunk_size))
      as [H1 | (_ & H1 & _)]; [lia|]. rewrite Hadj, Hs in H1. lia. }
  pose proof (Hr para_sep eq_refl). pose proof (Hr dot_sep eq_refl).
  pose proof (Hr bang_sep eq_refl). pose proof (Hr quest_sep eq_refl).
  repeat match goal with
         | |- context [?x >? start] => destruct (x >? start) eqn:?
         end; lia.
Qed.


Lemma chunk_body_inv text chunk_size overlap st :
  0 <= overlap < chunk_size -> fst st < len text ->
  loop_inv chunk_size overlap st ->
  loop_inv chunk_size overlap (chunk_body text chunk_size overlap st).
Proof.
  intros Hov Hlt [Hs Hok]. destruct st as [start chunks]. simpl in *.
  destruct (chunk_end_bounds text chunk_size start) as [[He1 He2] He3];
    [lia | lia |].
  unfold loop_inv, chunk_body. simpl. split.
  - destruct (_ <? len text); simpl; [lia|]. pose proof (len_nonneg text). lia.
  - set (e := chunk_end text chunk_size start) in *.
    destruct (strip (slice text start e)) as [|c r] eqn:Ec; [done|].
    apply Forall_app. split; [done|]. apply Forall_singleton. split.
    + rewrite <- Ec.
      pose proof (strip_length (slice text start e)) as H1.
      pose proof (slice_length text start e) as H2.
      unfold len at 1. unfold len at 1 in H2.
      assert (adjust (len text) e - adjust (len text) start <= chunk_size).
      { unfold adjust. pose proof (len_nonneg text).
        destruct (e <? 0) eqn:E1; destruct (start <? 0) eqn:E2; lia. }
      lia.
    + rewrite <- Ec, strip_idem, Ec. done.
Qed.

Lemma chunk_loop_ok fuel text chunk_size overlap st chunks :
  0 <= overlap < chunk_size ->
  loop_inv chunk_size overlap st ->
  chunk_loop fuel text chunk_size overlap st = Some chunks ->
  Forall (chunk_ok chunk_size) chunks.
Proof.
  intros Hov. revert st. induction fuel as [|fuel IH]; intros st Hinv; simpl.
  - destruct (fst st <? len text); [done|]. intros [= <-]. apply Hinv.
  - destruct (fst st <? len text) eqn:E.
    + apply IH. apply chunk_body_inv; [done | lia | done].
    + intros [= <-]. apply Hinv.
Qed.


(** A start position that the body maps to itself is never left: the loop
    condition stays true whatever the fuel. *)
Lemma chunk_loop_stuck text chunk_size overlap start :
  start < len text ->
  chunk_end text chunk_size start < len text ->
  chunk_end text chunk_size start - overlap = start ->
  forall fuel chunks,
    chunk_loop fuel text chunk_size overlap (start, chunks) = None.
Proof.
  intros Hlt He Hfix fuel. induction fuel as [|fuel IH]; intros chunks; simpl.
  - apply Z.ltb_lt in Hlt. by rewrite Hlt.
  - apply Z.ltb_lt in Hlt as ->. apply Z.ltb_lt in He as ->.
    rewrite Hfix. apply IH.
Qed.

End ChunkFacts.

Module ChunkTheorems.
Import Py StrSpec PyFacts Chunk ChunkSpec ChunkFacts.
Local Open Scope Z_scope.

Lemma chunk_loop_step fuel text chunk_size overlap st :
  chunk_loop (S fuel) text chunk_size overlap st
  = if fst st <? len text
    then chunk_loop fuel text chunk_size overlap
           (chunk_body text chunk_size overlap st)
    else Some (snd st).
Proof. reflexivity. Qed.

Lemma chunk_loop_zero text chunk_size overlap st :
  chunk_loop 0 text chunk_size overlap st
  = if fst st <? len text then None else Some (snd st).
Proof. reflexivity. Qed.

Lemma chunk_text_nonblank fuel text chunk_size overlap :
  strip text <> [] ->
  chunk_text fuel text chunk_size overlap
  = chunk_loop fuel text chunk_size overlap (0, []).
Proof.
  intros Hs. unfold chunk_text. destruct text as [|c text]; [done|].
  by destruct (strip (c :: text)).
Qed.

(** Without overlap every pass moves the start forward, so the loop ends
    within as many passes as the text has characters. *)
Lemma chunk_loop_terminates_without_overlap text chunk_size :
  0 < chunk_size ->
  forall fuel st,
    0 <= fst st -> len text - fst st <= Z.of_nat fuel ->
    exists chunks, chunk_loop fuel text chunk_size 0 st = Some chunks.
Proof.
  intros Hcs fuel. induction fuel as [|fuel IH]; intros [start chunks] H0 Hf;
    simpl in H0, Hf.
  - exists chunks. simpl. destruct (start <? len text) eqn:E; [lia | done].
  - rewrite chunk_loop_step. simpl fst.
    destruct (start <? len text) eqn:E; [| by exists chunks].
    destruct (chunk_end_bounds text chunk_size start) as [[He1 He2] He3];
      [lia | lia |].
    apply IH; unfold chunk_body; simpl;
      destruct (chunk_end text chunk_size start <? len text) eqn:E2; lia.
Qed.

Lemma chunk_text_terminates_without_overlap text chunk_size :
  0 < chunk_size ->
  exists chunks, chunk_text (length text) text chunk_size 0 = Some chunks.
Proof.
  intros Hcs. unfold chunk_text.
  destruct text as [|c text]; [by exists []|].
  destruct (strip (c :: text)); [by exists []|].
  apply chunk_loop_terminates_without_overlap; [done | simpl; lia |].
  unfold len. simpl fst. lia.
Qed.




Lemma long_paragraph_first_pass :
  chunk_body long_paragraph_text 500 50 (0, [])
  = (10, [replicate 60 97%N]).
Proof. vm_compute. reflexivity. Qed.

Lemma long_paragraph_second_end :
  chunk_end long_paragraph_text 500 10 = 60.
Proof. vm_compute. reflexivity. Qed.

(** C3 fails on the code. With the default parameters, on a text of 60
    letters, a paragraph break and 600 more letters, the first chunk ends
    at the paragraph break (position 60), the next start is 10, the chunk
    from 10 ends at position 60 again, and the start stays 10: the loop
    condition never becomes false, whatever the number of passes allowed. *)
Theorem chunk_text_loops_on_long_paragraph :
  forall fuel, chunk_text fuel long_paragraph_text 500 50 = None.
Proof.
  intros fuel.
  assert (Hlen : len long_paragraph_text = 662) by (vm_compute; reflexivity).
  assert (Htext : chunk_text fuel long_paragraph_text 500 50
                  = chunk_loop fuel long_paragraph_text 500 50 (0, [])).
  { apply chunk_text_nonblank. by vm_compute. }
  rewrite Htext. destruct fuel as [|fuel].
  - rewrite chunk_loop_zero. simpl fst. by rewrite Hlen.
  - rewrite chunk_loop_step. simpl fst. rewrite Hlen. simpl (0 <? 662).
    rewrite long_paragraph_first_pass.
    apply chunk_loop_stuck; rewrite ?long_paragraph_second_end, ?Hlen; lia.
Qed.

(** A break closer to the start than [overlap] makes the next start
    negative; positions are then counted from the end of the text. After
    the title, the second chunk is the 47 letters before the last one. *)
Example negative_start_after_short_title :
  chunk_states short_title_text 500 50 1 = (-48, [lit "Hi"])
  /\ chunk_states short_title_text 500 50 2
     = (-51, [lit "Hi"; replicate 47 97%N])
  /\ chunk_end short_title_text 500 (-51) - 50 = -51.
Proof. by vm_compute. Qed.

End ChunkTheorems.

(** ** SessionService *)

Module SessionTheorems.
Import Py Session.

Lemma slice_from_last {A} (l : list A) (n : nat) :
  0 < n -> slice_from l (- Z.of_nat n) = last_n n l.
Proof.
  intros Hn. unfold slice_from, slice, last_n.
  remember (Z.of_nat (length l)) as k eqn:Hk.
  assert (Hb : adjust k k = k)
    by (unfold adjust; destruct (k <? 0)%Z eqn:E; lia).
  assert (Ha : Z.to_nat (adjust k (- Z.of_nat n)) = length l - n)
    by (unfold adjust; destruct (- Z.of_nat n <? 0)%Z eqn:E; lia).
  assert (Hc : length l - (length l - n)
               <= Z.to_nat (k - adjust k (- Z.of_nat n)))
    by (unfold adjust; destruct (- Z.of_nat n <? 0)%Z eqn:E; lia).
  rewrite Hb, Ha. apply take_ge. by rewrite length_drop.
Qed.

Lemma last_n_length {A} (n : nat) (l : list A) : length (last_n n l) <= n.
Proof. unfold last_n. rewrite length_drop. lia. Qed.

Lemma last_n_snoc {A} (n : nat) (l : list A) x :
  last_n n (last_n n l ++ [x]) = last_n n (l ++ [x]).
Proof.
  unfold last_n. rewrite !length_app, length_drop. simpl.
  destruct (decide (n = 0)) as [-> | Hn].
  { rewrite !drop_ge; [done | | ]; rewrite length_app, ?length_drop; simpl; lia. }
  destruct (decide (length l < n)) as [Hlt | Hge].
  - replace (length l - n) with 0 by lia. rewrite drop_0.
    f_equal. lia.
  - rewrite !drop_app_le by (rewrite ?length_drop; lia).
    rewrite drop_drop. f_equal. f_equal. lia.
Qed.

(** What every reachable store satisfies, for the messages [log sid] added
    to each session so far. *)
Lemma session_run_inv ops :
  forall (ss : gmap str session) (log : str -> list message),
    (forall sid s, ss !! sid = Some s -> messages s = last_n 10 (log sid)) ->
    (forall sid, ss !! sid = None -> log sid = []) ->
    forall sid s,
      fold_left step ops ss !! sid = Some s ->
      messages s = last_n 10 (added sid ops (log sid)).
Proof.
  induction ops as [|o ops IH]; intros ss log Hsome Hnone sid s; simpl.
  - apply Hsome.
  - destruct o as [new_id user | sid0 | sid0 r c]; simpl.
    + intros Hrun.
      refine (IH _ (fun x => if decide (new_id = x) then [] else log x)
                _ _ sid s Hrun).
      * intros x sx. destruct (decide (new_id = x)) as [-> | Hne].
        -- rewrite lookup_insert_eq. by intros [= <-].
        -- rewrite lookup_insert_ne by done. apply Hsome.
      * intros x. destruct (decide (new_id = x)) as [-> | Hne]; [done|].
        rewrite lookup_insert_ne by done. apply Hnone.
    + intros Hrun. refine (IH _ log _ _ sid s Hrun).
      * intros x sx. unfold get_session.
        destruct (ss !! sid0) eqn:E; simpl; [apply Hsome|].
        destruct (decide (sid0 = x)) as [-> | Hne].
        -- rewrite lookup_insert_eq. intros [= <-]. simpl.
           by rewrite (Hnone x E).
        -- rewrite lookup_insert_ne by done. apply Hsome.
      * intros x. unfold get_session.
        destruct (ss !! sid0) eqn:E; simpl; [apply Hnone|].
        destruct (decide (sid0 = x)) as [-> | Hne].
        -- by rewrite lookup_insert_eq.
        -- rewrite lookup_insert_ne by done. apply Hnone.
    + intros Hrun.
      refine (IH _ (fun x => if decide (sid0 = x)
                             then log x ++ [Message r c] else log x)
                _ _ sid s Hrun).
      * intros x sx. unfold add_message, get_session.
        destruct (ss !! sid0) as [s0|] eqn:E.
        -- destruct (decide (sid0 = x)) as [-> | Hne].
           ++ rewrite lookup_insert_eq. intros [= <-]. simpl.
              rewrite (slice_from_last _ 10) by lia. rewrite (Hsome _ _ E).
              apply last_n_snoc.
           ++ rewrite lookup_insert_ne by done. apply Hsome.
        -- destruct (decide (sid0 = x)) as [-> | Hne].
           ++ rewrite lookup_insert_eq. intros [= <-]. simpl.
              rewrite (slice_from_last _ 10) by lia. rewrite (Hnone _ E). done.
           ++ rewrite !lookup_insert_ne by done. apply Hsome.
      * intros x. unfold add_message, get_session.
        destruct (ss !! sid0) as [s0|] eqn:E;
          (destruct (decide (sid0 = x)) as [-> | Hne];
           [by rewrite lookup_insert_eq
           | rewrite !lookup_insert_ne by done; apply Hnone]).
Qed.

(** C9. After any sequence of [create_session], [get_session] and
    [add_message] calls, every stored session holds at most 10 messages,
    and they are the last (up to 10) messages added to that session, in
    the order they were added. *)
Theorem session_messages_capped ops sid s :
  run ops !! sid = Some s ->
  length (messages s) <= 10
  /\ messages s = last_n 10 (added sid ops []).
Proof.
  intros H.
  assert (Hm : messages s = last_n 10 (added sid ops [])).
  { apply (session_run_inv ops ∅ (fun _ => [])); [| done | exact H].
    intros x sx. by rewrite lookup_empty. }
  split; [|done]. rewrite Hm. apply last_n_length.
Qed.

Lemma session_messages_capped_witness :
  exists s,
    run Samples.twelve_messages !! lit "s1" = Some s
    /\ length (messages s) <= 10
    /\ messages s = last_n 10 (added (lit "s1") Samples.twelve_messages []).
Proof.
  assert (H : is_Some (run Samples.twelve_messages !! lit "s1"))
    by (vm_compute; eauto).
  destruct H as [s H]. exists s. split; [exact H|].
  exact (session_messages_capped Samples.twelve_messages (lit "s1") s H).
Defined.

Example twelve_messages_kept :
  List.map content
    (default [] (messages <$> run Samples.twelve_messages !! lit "s1"))
  = List.map str_of_int (seqZ 3 10).
Proof. vm_compute. reflexivity. Qed.

End SessionTheorems.

(** ** ProfileService *)

Module ProfileTheorems.
Import Py Profile.

Section Roundtrip.
Context {P : Type}.
Variable json_dumps : gmap str P -> str.
Variable json_loads : str -> option (@document P).

(** What the code relies on from the JSON library: a dumped mapping loads
    back as itself, a dump is never blank, and the empty mapping is dumped
    as the text the service creates the file with. *)
Hypothesis loads_dumps :
  forall d, json_loads (json_dumps d) = Some (Mapping d).
Hypothesis dumps_not_blank : forall d, strip (json_dumps d) <> [].
Hypothesis dumps_empty : json_dumps ∅ = initial_file.

Lemma read_dumped d : _read_all json_loads (json_dumps d) = Mapping d.
Proof.
  unfold _read_all. pose proof (dumps_not_blank d) as Hb.
  destruct (strip (json_dumps d)); [done|]. by rewrite loads_dumps.
Qed.

Lemma upsert_dumped user profile d :
  upsert_profile json_dumps json_loads user profile (json_dumps d)
  = (Ok profile, json_dumps (<[user := profile]> d)).
Proof. unfold upsert_profile. by rewrite read_dumped. Qed.

(** The file always holds the dump of a mapping, and that mapping has no
    entry for a user who was not upserted. *)
Lemma upserts_dumped ups :
  forall d0, exists d,
    upserts json_dumps json_loads ups (json_dumps d0) = json_dumps d
    /\ forall user, user ∉ ups.*1 -> d !! user = d0 !! user.
Proof.
  induction ups as [|[u p] ups IH]; intros d0; simpl.
  - by exists d0.
  - rewrite upsert_dumped. simpl.
    destruct (IH (<[u := p]> d0)) as (d & Hd & Hother).
    exists d. split; [done|]. intros user Hin.
    apply not_elem_of_cons in Hin as [Hne Hin].
    rewrite Hother by done. by rewrite lookup_insert_ne.
Qed.

(** C7. On the profile file as the service creates it and after any
    sequence of upserts: [upsert_profile user profile] followed by
    [get_profile user] returns that profile; the upsert leaves what
    [get_profile] returns for every other user unchanged; and
    [get_profile] returns [None] for a user who was never upserted. *)
Theorem profile_round_trip ups user profile :
  let file := upserts json_dumps json_loads ups initial_file in
  let after := upsert_profile json_dumps json_loads user profile file in
  fst after = Ok profile
  /\ get_profile json_loads user (snd after) = Ok (Some profile)
  /\ (forall other, other <> user ->
        get_profile json_loads other (snd after)
        = get_profile json_loads other file)
  /\ (user ∉ ups.*1 -> get_profile json_loads user file = Ok None).
Proof.
  intros file after. subst after file. rewrite <- dumps_empty.
  destruct (upserts_dumped ups ∅) as (d & -> & Hother).
  rewrite upsert_dumped. simpl. unfold get_profile. rewrite !read_dumped.
  repeat split.
  - by rewrite lookup_insert_eq.
  - intros other Hne. by rewrite lookup_insert_ne.
  - intros Hin. by rewrite Hother, lookup_empty.
Qed.

End Roundtrip.

Lemma token_loads_dumps d :
  Samples.token_loads (Samples.token_dumps d) = Some (Mapping d).
Proof.
  unfold Samples.token_dumps, Samples.token_loads.
  destruct (decide (d = ∅)) as [-> | Hne]; [done|].
  destruct (decide (_ = lit "{}")) as [Heq | _]; [discriminate Heq|].
  simpl. by rewrite decode_encode.
Qed.

Lemma token_dumps_not_blank d : strip (Samples.token_dumps d) <> [].
Proof.
  unfold Samples.token_dumps. destruct (decide (d = ∅)); [by vm_compute|].
  generalize (N.pos (encode d)). intros x. by vm_compute.
Qed.

Lemma profile_round_trip_witness :
  let ups := [(lit "asha", Samples.asha_profile)] in
  let file := upserts Samples.token_dumps Samples.token_loads ups initial_file in
  let after :=
    upsert_profile Samples.token_dumps Samples.token_loads (lit "ravi")
      Samples.ravi_profile file in
  fst after = Ok Samples.ravi_profile
  /\ get_profile Samples.token_loads (lit "ravi") (snd after)
     = Ok (Some Samples.ravi_profile)
  /\ (forall other, other <> lit "ravi" ->
        get_profile Samples.token_loads other (snd after)
        = get_profile Samples.token_loads other file)
  /\ (lit "ravi" ∉ ups.*1 ->
      get_profile Samples.token_loads (lit "ravi") file = Ok None).
Proof.
  exact (profile_round_trip Samples.token_dumps Samples.token_loads
           token_loads_dumps token_dumps_not_blank eq_refl
           [(lit "asha", Samples.asha_profile)] (lit "ravi")
           Samples.ravi_profile).
Defined.

End ProfileTheorems.

(** ** build_tutor_system_prompt *)

Module ContextTheorems.
Import Py StrSpec PyFacts Context ContextSpec.

Lemma substring_refl s : substring s s.
Proof. exists [], []. by rewrite app_nil_r. Qed.

Lemma substring_app_l x a b : substring x a -> substring x (a ++ b).
Proof.
  intros (pre & post & ->). exists pre, (post ++ b). by rewrite <- !app_assoc.
Qed.

Lemma substring_app_r x a b : substring x b -> substring x (a ++ b).
Proof.
  intros (pre & post & ->). exists (a ++ pre), post. by rewrite <- !app_assoc.
Qed.

Lemma substring_join sep parts p : p ∈ parts -> substring p (join sep parts).
Proof.
  induction parts as [|q parts IH]; intros Hin; [by apply elem_of_nil in Hin|].
  apply elem_of_cons in Hin as [-> | Hin]; simpl.
  - destruct parts; [apply substring_refl|].
    apply substring_app_l, substring_refl.
  - destruct parts as [|q' parts]; [by apply elem_of_nil in Hin|].
    by apply substring_app_r, substring_app_r, IH.
Qed.

Lemma dict_truthy_false (p : option (gmap str pyval)) :
  dict_truthy p = false <-> no_profile p.
Proof.
  unfold no_profile. destruct p as [d|]; simpl.
  - rewrite negb_false_iff, bool_decide_eq_true. split.
    + intros ->. by right.
    + by intros [? | [= ->]].
  - split; [by left | done].
Qed.

Ltac find_part :=
  first [ by apply list_elem_of_here
        | apply elem_of_app; left; by apply list_elem_of_here
        | apply elem_of_app; right; find_part ].

Lemma truthy_field_in_parts d key label :
  (key, label) ∈ truthy_fields ->
  truthy (dict_get d (lit key)) = true ->
  part label (dict_get d (lit key)) ∈ profile_parts d.
Proof.
  unfold truthy_fields. intros Hin Ht.
  repeat (apply elem_of_cons in Hin as [[= -> ->] | Hin];
          [unfold profile_parts; cbv zeta; rewrite Ht; find_part|]).
  by apply elem_of_nil in Hin.
Qed.

Lemma age_in_parts d :
  dict_get d (lit "age") <> PNone ->
  part "Age" (dict_get d (lit "age")) ∈ profile_parts d.
Proof.
  intros Hage. unfold profile_parts. cbv zeta.
  destruct (dict_get d (lit "age")) eqn:E; [done | | |]; simpl is_none;
    simpl negb; cbv iota; find_part.
Qed.

(** The shape of the prompt for a profile that is a non-empty dict. *)
Lemma prompt_shape d ctx :
  d <> ∅ ->
  build_tutor_system_prompt (Some d) ctx
  = BASE_TUTOR_SYSTEM_PROMPT
    ++ match profile_parts d with
       | [] => []
       | parts =>
           nl ++ lit "Student Profile (for personalization):"
           ++ nl ++ lit "- " ++ join (nl ++ lit "- ") parts ++ lit "." ++ nl
           ++ profile_guidance
       end
    ++ match ctx with
       | Some (_ :: _) => vector_instruction
       | _ => []
       end.
Proof.
  intros Hd. unfold build_tutor_system_prompt. simpl dict_truthy.
  rewrite bool_decide_eq_false_2 by done. simpl negb. cbv iota zeta.
  destruct (profile_parts d) as [|p ps]; destruct ctx as [[|c cs]|];
    rewrite ?app_nil_r, <- ?app_assoc; reflexivity.
Qed.

Lemma part_in_prompt d ctx p :
  d <> ∅ -> p ∈ profile_parts d ->
  substring p (build_tutor_system_prompt (Some d) ctx).
Proof.
  intros Hd Hin. rewrite prompt_shape by done.
  destruct (profile_parts d) as [|q qs] eqn:E; [by apply elem_of_nil in Hin|].
  apply substring_app_r, substring_app_l.
  do 4 apply substring_app_r. apply substring_app_l.
  by apply substring_join.
Qed.

(** C8 (amended). For every profile and vector context the prompt begins
    with the base prompt. For a profile that is [None] or empty it is
    exactly the base prompt. For a non-empty profile, each of name, grade,
    syllabus, subject, proficiency and gender whose value is true in a
    condition, and age whenever it is not [None], appears in the prompt as
    "Label: value". For a non-empty profile and a non-empty vector context
    the prompt ends with the instruction to prioritise and cite the
    uploaded-document content. *)
Theorem tutor_prompt_contents student_profile vector_context :
  let out := build_tutor_system_prompt student_profile vector_context in
  (exists rest, out = BASE_TUTOR_SYSTEM_PROMPT ++ rest)
  /\ (no_profile student_profile -> out = BASE_TUTOR_SYSTEM_PROMPT)
  /\ (forall d key label,
        student_profile = Some d -> d <> ∅ ->
        (key, label) ∈ truthy_fields ->
        truthy (dict_get d (lit key)) = true ->
        substring (part label (dict_get d (lit key))) out)
  /\ (forall d,
        student_profile = Some d -> d <> ∅ ->
        dict_get d (lit "age") <> PNone ->
        substring (part "Age" (dict_get d (lit "age"))) out)
  /\ (forall d c,
        student_profile = Some d -> d <> ∅ ->
        vector_context = Some c -> c <> [] ->
        exists before, out = before ++ vector_instruction).
Proof.
  intros out. subst out. repeat split.
  - destruct student_profile as [d|]; [|exists []; by rewrite app_nil_r].
    destruct (decide (d = ∅)) as [-> | Hd].
    + exists []. by rewrite app_nil_r.
    + rewrite prompt_shape by done. eauto.
  - intros [-> | ->]; reflexivity.
  - intros d key label -> Hd Hin Ht.
    by apply part_in_prompt, truthy_field_in_parts.
  - intros d -> Hd Hage. by apply part_in_prompt, age_in_parts.
  - intros d c -> Hd -> Hc. rewrite prompt_shape by done.
    destruct c as [|x c]; [done|]. rewrite app_assoc. eauto.
Qed.

Lemma tutor_prompt_contents_witness :
  Samples.asha_profile <> ∅
  /\ truthy (dict_get Samples.asha_profile (lit "name")) = true
  /\ substring (lit "Name: Asha")
       (build_tutor_system_prompt (Some Samples.asha_profile)
          (Some (lit "notes")))
  /\ substring (lit "Age: 12")
       (build_tutor_system_prompt (Some Samples.asha_profile)
          (Some (lit "notes")))
  /\ exists before,
       build_tutor_system_prompt (Some Samples.asha_profile)
         (Some (lit "notes")) = before ++ vector_instruction.
Proof.
  assert (Hd : Samples.asha_profile <> ∅).
  { intros H. apply (f_equal (fun m => m !! lit "name")) in H.
    by vm_compute in H. }
  pose proof (tutor_prompt_contents (Some Samples.asha_profile)
                (Some (lit "notes"))) as (_ & _ & Hfield & Hage & Hctx).
  split; [exact Hd|]. split; [reflexivity|]. split; [|split].
  - exact (Hfield Samples.asha_profile "name"%string "Name"%string eq_refl Hd
             ltac:(by constructor) eq_refl).
  - exact (Hage Samples.asha_profile eq_refl Hd ltac:(by vm_compute)).
  - exact (Hctx Samples.asha_profile (lit "notes") eq_refl Hd eq_refl
             ltac:(done)).
Defined.

(** C8, as stated, fails without a profile: the function returns the base
    prompt before it looks at the vector context, so the instruction about
    uploaded documents is missing although a context was passed. *)
Lemma prompt_contract_fails_without_profile :
  build_tutor_system_prompt None (Some (lit "notes"))
  = BASE_TUTOR_SYSTEM_PROMPT
  /\ ~ prompt_contract_as_stated None (Some (lit "notes")).
Proof.
  split; [reflexivity|]. intros (_ & _ & _ & Hctx).
  specialize (Hctx (lit "notes") eq_refl).
  apply contains_spec in Hctx. by vm_compute in Hctx.
Qed.

(** A field that holds an empty string is present and is not shown. *)
Lemma empty_syllabus_not_shown :
  dict_get Samples.ravi_profile (lit "syllabus") = PStr []
  /\ ~ substring (lit "Syllabus")
         (build_tutor_system_prompt (Some Samples.ravi_profile) None).
Proof.
  split; [by vm_compute|]. intros H.
  apply contains_spec in H. by vm_compute in H.
Qed.

End ContextTheorems.

(** ** VectorStore *)

Module VectorStoreFacts.
Import Py PyFacts VectorStore VectorStoreSpec.
Local Open Scope Z_scope.

Lemma documents_entries src k (texts : list str) :
  documents (imap (fun i t => Meta t src (k + Z.of_nat i)) texts)
  = List.map (fun t => (t, src)) texts.
Proof.
  unfold documents. apply list_eq. intros i.
  change (@List.map) with (@fmap list _).
  rewrite !list_lookup_fmap, list_lookup_imap.
  by destruct (texts !! i).
Qed.

Lemma documents_app md1 md2 :
  documents (md1 ++ md2) = documents md1 ++ documents md2.
Proof. unfold documents. apply map_app. Qed.

Lemma indexed_nil : indexed [].
Proof. intros i m H. by rewrite lookup_nil in H. Qed.

Lemma indexed_app md src (texts : list str) :
  indexed md ->
  indexed (md ++ imap (fun i t => Meta t src (len md + Z.of_nat i)) texts).
Proof.
  intros Hmd i m. destruct (decide (i < length md)%nat) as [Hlt | Hge].
  - rewrite lookup_app_l by done. apply Hmd.
  - rewrite lookup_app_r by lia. rewrite list_lookup_imap.
    destruct (texts !! (i - length md)%nat); [|done].
    intros [= <-]. simpl. unfold len. lia.
Qed.

Lemma py_index_elem {A} (l : list A) i x : py_index l i = Some x -> x ∈ l.
Proof.
  unfold py_index. intros H. apply list_elem_of_lookup.
  destruct (i <? 0); [destruct (i + len l <? 0); [done|] |]; eauto.
Qed.

Section Store.
Context {vec score : Type}.
Variable embed : str -> vec.

Lemma init_inv s0 (st : @store vec) log :
  store_inv st log ->
  store_inv (_init_subject_index s0 st) (log_step (Init s0) log).
Proof.
  intros Hinv s. unfold _init_subject_index, log_step. simpl.
  destruct (decide (s0 = s)) as [-> | Hne].
  - rewrite !lookup_insert_eq. simpl. split; [done|]. split; [|done].
    apply indexed_nil.
  - rewrite !lookup_insert_ne by done. apply Hinv.
Qed.

Lemma add_documents_inv s0 texts src (st : @store vec) log :
  store_inv st log ->
  store_inv (snd (add_documents embed s0 texts src st))
    (log_step (Add s0 texts src) log).
Proof.
  intros Hinv.
  set (st1 := match indexes st !! s0 with
              | None => _init_subject_index s0 st
              | Some _ => st
              end).
  assert (H1 : store_inv st1 log /\ is_Some (indexes st1 !! s0)).
  { subst st1. pose proof (Hinv s0) as H0. unfold subject_inv in H0.
    destruct (indexes st !! s0) eqn:Ei; [by eauto|].
    destruct (metadata st !! s0) eqn:Em; [done|]. split.
    - intros s. pose proof (init_inv s0 st log Hinv s) as Hs.
      unfold log_step in Hs. destruct (decide (s0 = s)) as [<- | Hne];
        [by rewrite H0 | done].
    - simpl. rewrite lookup_insert_eq. eauto. }
  destruct H1 as [Hinv1 [ix Hix]]. unfold add_documents. fold st1.
  pose proof (Hinv1 s0) as H0. unfold subject_inv in H0. rewrite Hix in H0.
  destruct (metadata st1 !! s0) as [md|] eqn:Em; [|done].
  destruct H0 as (Hdoc & Hidx & Hlen).
  destruct texts as [|t texts].
  - simpl. intros s. unfold log_step.
    destruct (decide (s0 = s)); [rewrite app_nil_r|]; apply Hinv1.
  - rewrite Hix. simpl snd. intros s. unfold log_step. simpl indexes.
    simpl metadata. destruct (decide (s0 = s)) as [<- | Hne].
    + rewrite !lookup_insert_eq. simpl. split; [|split].
      * rewrite documents_app, Hdoc. f_equal.
        apply (documents_entries src (len md) (t :: texts)).
      * apply (indexed_app md src (t :: texts) Hidx).
      * rewrite !length_app. cbn [length]. rewrite length_imap, length_map. lia.
    + rewrite !lookup_insert_ne by done. apply Hinv1.
Qed.

Lemma delete_subject_data_inv s0 (st : @store vec) log :
  store_inv st log ->
  store_inv (snd (delete_subject_data s0 st)) (log_step (Delete s0) log).
Proof.
  intros Hinv s. unfold delete_subject_data, log_step.
  pose proof (Hinv s0) as H0. unfold subject_inv in H0.
  destruct (indexes st !! s0) eqn:Ei.
  - destruct (metadata st !! s0) eqn:Em; [|done]. simpl.
    destruct (decide (s0 = s)) as [<- | Hne].
    + rewrite !lookup_insert_eq. simpl. split; [done|]. split; [|done].
      apply indexed_nil.
    + rewrite !lookup_insert_ne, !lookup_delete_ne by done. apply Hinv.
  - destruct (metadata st !! s0) eqn:Em; [done|]. simpl.
    destruct (decide (s0 = s)) as [<- | Hne]; [|apply Hinv].
    rewrite Ei, Em. done.
Qed.

Lemma step_inv o (st : @store vec) log :
  store_inv st log -> store_inv (step embed st o) (log_step o log).
Proof.
  destruct o; simpl step.
  - apply add_documents_inv.
  - apply delete_subject_data_inv.
  - apply init_inv.
Qed.

Lemma added_step s o ops acc log :
  log s = acc -> added s (o :: ops) acc = added s ops (log_step o log s).
Proof. intros <-. by destruct o. Qed.

Lemma fold_inv ops :
  forall (st : @store vec) log,
    store_inv st log ->
    store_inv (fold_left (step embed) ops st) (fun s => added s ops (log s)).
Proof.
  induction ops as [|o ops IH]; intros st log Hinv; simpl fold_left.
  - exact Hinv.
  - intros s. rewrite (added_step s o ops (log s) log eq_refl).
    exact (IH _ _ (step_inv o st log Hinv) s).
Qed.

(** Every store reached from the empty one satisfies the invariant, for
    the pairs added since each subject was last initialised or deleted. *)
Lemma store_run_inv ops :
  store_inv (run embed ops) (fun s => added s ops []).
Proof.
  apply (fold_inv ops empty_store (fun _ => [])).
  intros s. unfold empty_store. simpl. by rewrite !lookup_empty.
Qed.

(** Operations on one subject leave the other subjects alone. *)
Lemma add_documents_frame s t texts src (st : @store vec) :
  s <> t ->
  indexes (snd (add_documents embed s texts src st)) !! t = indexes st !! t
  /\ metadata (snd (add_documents embed s texts src st)) !! t
     = metadata st !! t.
Proof.
  intros Hne. unfold add_documents, _init_subject_index.
  destruct (indexes st !! s) eqn:Ei; destruct texts as [|x texts]; simpl;
    repeat match goal with
           | |- context [match ?m !! s with _ => _ end] =>
               destruct (m !! s) eqn:?; simpl
           end;
    rewrite ?lookup_insert_ne by done; done.
Qed.

Lemma delete_subject_data_frame s t (st : @store vec) :
  s <> t ->
  indexes (snd (delete_subject_data s st)) !! t = indexes st !! t
  /\ metadata (snd (delete_subject_data s st)) !! t = metadata st !! t.
Proof.
  intros Hne. unfold delete_subject_data, _init_subject_index.
  destruct (indexes st !! s); [|done].
  destruct (metadata st !! s); simpl;
    rewrite ?lookup_insert_ne, ?lookup_delete_ne by done; done.
Qed.

(** Each hit collected carries the text and source of a metadata entry. *)
Lemma collect_from_metadata md :
  forall (found : list (score * Z)) i hits,
    collect md i found = Ok hits ->
    forall h, h ∈ hits -> (hit_text h, hit_source h) ∈ documents md.
Proof.
  induction found as [|[dist idx] found IH]; intros i hits; simpl.
  - intros [= <-] h Hh. by apply elem_of_nil in Hh.
  - destruct (idx <? len md); [|by apply IH].
    destruct (py_index md idx) as [m|] eqn:Em; [|done].
    destruct (collect md (i + 1) found) as [hs|] eqn:Ec; [|done].
    intros [= <-] h Hh. apply elem_of_cons in Hh as [-> | Hh].
    + simpl. unfold documents. apply py_index_elem in Em.
      apply list_elem_of_In, in_map_iff. exists m. split; [done|].
      by apply list_elem_of_In.
    + by apply (IH _ _ Ec).
Qed.

(** When every index found is -1 or a position of the metadata list, no
    pair is skipped and none raises: the hits are as many as the pairs and
    the rank of each is its position, counted from [i + 1]. *)
Lemma collect_all md :
  md <> [] ->
  forall (found : list (score * Z)) i,
    Forall (fun p => -1 <= snd p < len md) found ->
    exists hits,
      collect md i found = Ok hits
      /\ length hits = length found
      /\ forall j h, hits !! j = Some h -> hit_rank h = i + Z.of_nat j + 1.
Proof.
  intros Hmd. induction found as [|[dist idx] found IH]; intros i Hall; simpl.
  - exists []. split; [done|]. split; [done|]. intros j h H.
    by rewrite lookup_nil in H.
  - apply Forall_cons in Hall as [Hidx Hall]. simpl in Hidx.
    replace (idx <? len md) with true by (symmetry; apply Z.ltb_lt; lia).
    assert (Hm : is_Some (py_index md idx)).
    { unfold py_index, len in *. destruct md as [|m0 md]; [done|].
      destruct (idx <? 0) eqn:E.
      - replace (idx + Z.of_nat (length (m0 :: md)) <? 0) with false
          by (symmetry; apply Z.ltb_ge; simpl length; lia).
        apply lookup_lt_is_Some. simpl length in *. lia.
      - apply lookup_lt_is_Some. simpl length in *. lia. }
    destruct Hm as [m ->].
    destruct (IH (i + 1) Hall) as (hs & -> & Hlen & Hrank).
    eexists. split; [done|]. split; [simpl; lia|].
    intros [|j] h; simpl.
    + intros [= <-]. simpl. lia.
    + intros H. rewrite (Hrank j h H). lia.
Qed.

End Store.

End VectorStoreFacts.

Module VectorStoreTheorems.
Import Py PyFacts VectorStore VectorStoreSpec VectorStoreFacts.
Local Open Scope Z_scope.

Section Store.
Context {vec score : Type}.
Variable embed : str -> vec.
Variable faiss_search : list vec -> vec -> Z -> result (list (score * Z)).

(** C10. After any sequence of [add_documents], [delete_subject_data] and
    [_init_subject_index] operations, for every subject the store knows,
    the i-th metadata entry has [index] equal to i, and the entries are
    exactly the chunks added for that subject since it was last
    initialised or deleted: as many, in the same order. *)
Theorem metadata_positions_consistent ops s md :
  metadata (run embed ops) !! s = Some md ->
  indexed md
  /\ length md = length (added s ops [])
  /\ documents md = added s ops [].
Proof.
  intros Hmd. pose proof (store_run_inv embed ops s) as H. unfold subject_inv in H.
  rewrite Hmd in H. destruct (indexes (run embed ops) !! s); [|done].
  destruct H as (Hdoc & Hidx & _). split; [done|]. split; [|done].
  rewrite <- Hdoc. unfold documents. by rewrite length_map.
Qed.

(** C4. For two distinct subjects [s] and [t]: [add_documents] and
    [delete_subject_data] on [s] leave the index and the metadata of [t] as
    they were; and every hit that [search] returns for [t] carries the text
    and source of a chunk that was added under [t]. *)
Theorem subjects_isolated s t :
  s <> t ->
  (forall (st : @store vec) texts src,
     indexes (snd (add_documents embed s texts src st)) !! t = indexes st !! t
     /\ metadata (snd (add_documents embed s texts src st)) !! t
        = metadata st !! t)
  /\ (forall st : @store vec,
        indexes (snd (delete_subject_data s st)) !! t = indexes st !! t
        /\ metadata (snd (delete_subject_data s st)) !! t = metadata st !! t)
  /\ (forall ops query top_k hits,
        search embed faiss_search t query top_k (run embed ops) = Ok hits ->
        forall h, h ∈ hits -> (hit_text h, hit_source h) ∈ added t ops []).
Proof.
  intros Hne. split; [|split].
  - intros st texts src. by apply add_documents_frame.
  - intros st. by apply delete_subject_data_frame.
  - intros ops query top_k hits. unfold search.
    pose proof (store_run_inv embed ops t) as H. unfold subject_inv in H.
    destruct (indexes (run embed ops) !! t) as [ix|];
      [| intros [= <-] h Hh; by apply elem_of_nil in Hh].
    destruct (metadata (run embed ops) !! t) as [md|]; [|done].
    destruct H as (Hdoc & _ & _).
    destruct (len md =? 0);
      [intros [= <-] h Hh; by apply elem_of_nil in Hh|].
    destruct (faiss_search ix (embed query) (Z.min top_k (len md)))
      as [found|]; [|done].
    intros Hc h Hh. rewrite <- Hdoc.
    by apply (collect_from_metadata md found 0 hits Hc).
Qed.

(** What the code relies on from the similarity index: a search that
    returns gives exactly [k] pairs, each label is -1 or the position of a
    stored vector, and a search for a positive [k] returns. *)
Hypothesis faiss_len :
  forall ix q k found, faiss_search ix q k = Ok found -> len found = k.
Hypothesis faiss_range :
  forall ix q k found,
    faiss_search ix q k = Ok found ->
    Forall (fun p => -1 <= snd p < len ix) found.
Hypothesis faiss_total :
  forall ix q k, 0 < k -> exists found, faiss_search ix q k = Ok found.

(** C5. On every store reached by the store's operations: a returned
    result list has at most [top_k] hits and at most as many as the subject
    has documents, and the rank of each hit is its 1-based position in the
    list; a search with a positive [top_k] returns; and for a subject the
    store does not know, or one without documents, the result is the empty
    list. *)
Theorem search_bounded_and_ranked ops s query top_k :
  let st := run embed ops in
  (forall hits,
     search embed faiss_search s query top_k st = Ok hits ->
     (0 <= top_k -> len hits <= top_k)
     /\ len hits <= len (added s ops [])
     /\ forall i h, hits !! i = Some h -> hit_rank h = Z.of_nat i + 1)
  /\ (0 < top_k ->
      exists hits, search embed faiss_search s query top_k st = Ok hits)
  /\ (indexes st !! s = None \/ metadata st !! s = Some [] ->
      search embed faiss_search s query top_k st = Ok []).
Proof.
  intros st. subst st. unfold search.
  pose proof (store_run_inv embed ops s) as H. unfold subject_inv in H.
  destruct (indexes (run embed ops) !! s) as [ix|].
  2:{ split; [|split]; [| by eauto | done].
      intros hits [= <-]. unfold len. simpl. split; [lia|]. split; [lia|].
      intros i h Hi. by rewrite lookup_nil in Hi. }
  destruct (metadata (run embed ops) !! s) as [md|]; [|done].
  destruct H as (Hdoc & _ & Hlen).
  assert (Hn : len (added s ops []) = len md).
  { rewrite <- Hdoc. unfold documents, len. by rewrite length_map. }
  destruct (len md =? 0) eqn:E.
  { split; [|split]; [| by eauto | done].
    intros hits [= <-]. unfold len. simpl. split; [lia|]. split; [lia|].
    intros i h Hi. by rewrite lookup_nil in Hi. }
  apply Z.eqb_neq in E.
  assert (Hmd : md <> []) by (intros ->; by apply E).
  assert (Hcollect : forall found,
            faiss_search ix (embed query) (Z.min top_k (len md)) = Ok found ->
            exists hits, collect md 0 found = Ok hits
              /\ len hits = Z.min top_k (len md)
              /\ forall j h, hits !! j = Some h -> hit_rank h = Z.of_nat j + 1).
  { intros found Hf.
    pose proof (faiss_len _ _ _ _ Hf) as Hl.
    pose proof (faiss_range _ _ _ _ Hf) as Hr.
    assert (len ix = len md) as Hix by (unfold len; lia).
    rewrite Hix in Hr.
    destruct (collect_all md Hmd found 0 Hr) as (hits & Hc & Hlh & Hrank).
    exists hits. split; [done|]. split; [unfold len in *; lia|].
    intros j h Hj. rewrite (Hrank j h Hj). lia. }
  split; [|split].
  - intros hits.
    destruct (faiss_search ix (embed query) (Z.min top_k (len md)))
      as [found|] eqn:Ef; [|done].
    destruct (Hcollect found eq_refl) as (hits' & -> & Hl & Hrank).
    intros [= <-]. split; [lia|]. split; [lia | done].
  - intros Hk. pose proof (len_nonneg md).
    destruct (faiss_total ix (embed query) (Z.min top_k (len md)))
      as [found Hf]; [lia|].
    rewrite Hf. destruct (Hcollect found Hf) as (hits & -> & _). eauto.
  - intros [Hi | Hm]; [done|]. injection Hm as ->. done.
Qed.

End Store.

Lemma flat_search_len ix q k found :
  Samples.flat_search ix q k = Ok found -> len found = k.
Proof.
  unfold Samples.flat_search. destruct (k <=? 0) eqn:E; [done|].
  intros [= <-]. unfold len.
  rewrite length_take, length_app, length_replicate. lia.
Qed.

Lemma flat_search_range ix q k found :
  Samples.flat_search ix q k = Ok found ->
  Forall (fun p => -1 <= snd p < len ix) found.
Proof.
  unfold Samples.flat_search. destruct (k <=? 0) eqn:E; [done|].
  intros [= <-]. apply Forall_take, Forall_app. split.
  - rewrite merge_sort_Permutation. apply Forall_lookup. intros i p.
    rewrite list_lookup_imap. destruct (ix !! i) eqn:Ei; [|done].
    intros [= <-]. simpl. apply lookup_lt_Some in Ei. unfold len. lia.
  - apply Forall_replicate. simpl. pose proof (len_nonneg ix). lia.
Qed.

Lemma flat_search_total ix q k :
  0 < k -> exists found, Samples.flat_search ix q k = Ok found.
Proof.
  intros Hk. unfold Samples.flat_search.
  replace (k <=? 0) with false by (symmetry; apply Z.leb_gt; lia). eauto.
Qed.

Lemma metadata_positions_consistent_witness :
  exists md,
    metadata (run Samples.length_embed Samples.store_ops) !! lit "maths"
    = Some md
    /\ indexed md
    /\ length md = length (added (lit "maths") Samples.store_ops [])
    /\ documents md = added (lit "maths") Samples.store_ops [].
Proof.
  assert (H : is_Some (metadata (run Samples.length_embed Samples.store_ops)
                         !! lit "maths")) by (vm_compute; eauto).
  destruct H as [md H]. exists md. split; [exact H|].
  exact (metadata_positions_consistent Samples.length_embed
           Samples.store_ops (lit "maths") md H).
Defined.

Example store_ops_maths_metadata :
  metadata (run Samples.length_embed Samples.store_ops) !! lit "maths"
  = Some [Meta (lit "Circles") (lit "geo.pdf") 0;
          Meta (lit "Angles") (lit "geo.pdf") 1].
Proof. vm_compute. reflexivity. Qed.

Lemma subjects_isolated_witness :
  lit "maths" <> lit "science"
  /\ (forall (st : @store Z) texts src,
        indexes (snd (add_documents Samples.length_embed (lit "maths")
                        texts src st)) !! lit "science"
        = indexes st !! lit "science"
        /\ metadata (snd (add_documents Samples.length_embed (lit "maths")
                            texts src st)) !! lit "science"
           = metadata st !! lit "science")
  /\ (forall st : @store Z,
        indexes (snd (delete_subject_data (lit "maths") st)) !! lit "science"
        = indexes st !! lit "science"
        /\ metadata (snd (delete_subject_data (lit "maths") st))
             !! lit "science"
           = metadata st !! lit "science")
  /\ (forall ops query top_k hits,
        search Samples.length_embed Samples.flat_search (lit "science")
          query top_k (run Samples.length_embed ops) = Ok hits ->
        forall h, h ∈ hits ->
          (hit_text h, hit_source h) ∈ added (lit "science") ops []).
Proof.
  assert (Hne : lit "maths" <> lit "science") by (by vm_compute).
  split; [exact Hne|].
  exact (subjects_isolated Samples.length_embed Samples.flat_search
           (lit "maths") (lit "science") Hne).
Defined.

Lemma search_bounded_and_ranked_witness :
  let st := run Samples.length_embed Samples.store_ops in
  (forall hits,
     search Samples.length_embed Samples.flat_search (lit "science")
       (lit "green leaves") 2 st = Ok hits ->
     (0 <= 2 -> len hits <= 2)
     /\ len hits <= len (added (lit "science") Samples.store_ops [])
     /\ forall i h, hits !! i = Some h -> hit_rank h = Z.of_nat i + 1)
  /\ (0 < 2 ->
      exists hits,
        search Samples.length_embed Samples.flat_search (lit "science")
          (lit "green leaves") 2 st = Ok hits)
  /\ (indexes st !! lit "science" = None
      \/ metadata st !! lit "science" = Some [] ->
      search Samples.length_embed Samples.flat_search (lit "science")
        (lit "green leaves") 2 st = Ok []).
Proof.
  exact (search_bounded_and_ranked Samples.length_embed Samples.flat_search
           flat_search_len flat_search_range flat_search_total
           Samples.store_ops (lit "science") (lit "green leaves") 2).
Defined.

Example store_ops_search :
  search Samples.length_embed Samples.flat_search (lit "science")
    (lit "Rain") 2 (run Samples.length_embed Samples.store_ops)
  = Ok [Hit (lit "Water") (lit "bio.pdf") 1 1;
        Hit (lit "Plants make food.") (lit "bio.pdf") 169 2].
Proof. vm_compute. reflexivity. Qed.

Example unknown_subject_search :
  search Samples.length_embed Samples.flat_search (lit "history")
    (lit "rome") 3 (run Samples.length_embed Samples.store_ops)
  = Ok [].
Proof. vm_compute. reflexivity. Qed.

End VectorStoreTheorems.

(** ** The orchestrator *)

Module OrchestratorTheorems.
Import Py StrSpec PyFacts Context Metrics Orchestrator OrchestratorSpec.
Local Open Scope Z_scope.

Lemma keyword_test lowered :
  contains (lit "plan") lowered
  && (contains (lit "study") lowered || contains (lit "test") lowered) = true
  <-> wants_planner lowered.
Proof.
  unfold wants_planner.
  by rewrite andb_true_iff, orb_true_iff, !contains_spec.
Qed.

Lemma keyword_test_false lowered :
  contains (lit "plan") lowered
  && (contains (lit "study") lowered || contains (lit "test") lowered) = false
  <-> ~ wants_planner lowered.
Proof.
  rewrite <- keyword_test. by destruct (_ && _).
Qed.

Section Routing.
Context {score : Type}.
Variable lower : str -> str.
Variable respond :
  option (gmap str pyval) -> Session.session -> str -> option str ->
  metrics -> option (result str) * metrics.
Variable create_plan : gmap str pyval -> str -> Z -> result str.
Variable vector_store :
  option (str -> str -> Z -> result (list (@VectorStore.hit score))).
Variable profile_service :
  option (str -> result (option (gmap str pyval))).

(** The router, the first orchestrator's [handle_message] and the in-code
    routing of the full orchestrator (the path without the LangGraph flow)
    decide by the keywords alone. When the lowercased message contains
    "plan" and also "study" or "test", the router names the planner node,
    and [handle_message] logs the planner route, counts a planner request
    and returns what [create_plan] returns for the message. In every other
    case the router names the tutor node, and [handle_message] logs the
    tutor route and ends as [respond] ends for the message. *)
Lemma in_code_routing_is_keyword_match :
  (forall state w,
     let lowered := lower (default [] (g_message state)) in
     (wants_planner lowered ->
      route_message lower state w = (lit "planner", log_route w Planner))
     /\ (~ wants_planner lowered ->
         route_message lower state w = (lit "tutor", log_route w Tutor)))
  /\ (forall user session_id message w,
        let out :=
          handle_message_simple lower respond create_plan user session_id
            message w in
        (wants_planner (lower message) ->
         routing_log (snd out) = routing_log w ++ [Planner]
         /\ counters (snd out) = inc_planner (counters w)
         /\ fst out = Some (create_plan default_profile message 5))
        /\ (~ wants_planner (lower message) ->
            routing_log (snd out) = routing_log w ++ [Tutor]
            /\ exists session_state m,
                 fst out
                 = fst (respond (Some default_profile) session_state message
                          None m)))
  /\ (forall user session_id message subject w,
        let out :=
          handle_message lower respond create_plan vector_store
            profile_service false user session_id message subject w in
        (wants_planner (lower message) ->
         routing_log (snd out) = routing_log w ++ [Planner]
         /\ counters (snd out) = inc_planner (counters w)
         /\ forall student_profile,
              load_student_profile profile_service user subject
              = Ok student_profile ->
              fst out = Some (create_plan student_profile message 5))
        /\ (~ wants_planner (lower message) ->
            routing_log (snd out) = routing_log w ++ [Tutor]
            /\ forall student_profile,
                 load_student_profile profile_service user subject
                 = Ok student_profile ->
                 exists session_state vector_context m,
                   fst out
                   = fst (respond (Some student_profile) session_state
                            message vector_context m))).
Proof.
  split; [|split].
  - intros state w lowered. subst lowered. unfold route_message, log_route.
    split; intros H.
    + apply keyword_test in H. by rewrite H.
    + apply keyword_test_false in H. by rewrite H.
  - intros user session_id message w out. subst out.
    unfold handle_message_simple. fold default_profile. split; intros H.
    + apply keyword_test in H. rewrite H.
      destruct (create_plan default_profile message 5); by simpl.
    + apply keyword_test_false in H. rewrite H.
      match goal with
      | |- context [respond ?p ?s ?msg ?c ?m] =>
          destruct (respond p s msg c m) as [[[reply | e]|] m'] eqn:E
      end; simpl; (split; [done|]); do 2 eexists; by rewrite E.
  - intros user session_id message subject w out. subst out.
    unfold handle_message. split; intros H.
    + apply keyword_test in H. rewrite H.
      destruct (load_student_profile profile_service user subject)
        as [p | e]; simpl.
      * destruct (create_plan p message 5) eqn:E; simpl;
          (split; [done|]); (split; [done|]); intros ? [= <-];
          by rewrite E.
      * by repeat split.
    + apply keyword_test_false in H. rewrite H.
      destruct (load_student_profile profile_service user subject)
        as [p | e]; simpl; [|by split].
      match goal with
      | |- context [respond ?p ?s ?msg ?c ?m] =>
          destruct (respond p s msg c m) as [[[reply | e]|] m'] eqn:E
      end; simpl; (split; [done|]); intros ? [= <-]; do 3 eexists;
        by rewrite E.
Qed.

(** A search that raises is caught: the call goes on exactly as it would
    without a vector store. *)
Lemma search_failure_is_swallowed
    (search : str -> str -> Z -> result (list (@VectorStore.hit score)))
    has_flow user session_id message subject e w :
  search subject message 3 = Raise e ->
  handle_message lower respond create_plan (Some search) profile_service
    has_flow user session_id message (Some subject) w
  = handle_message (score:=score) lower respond create_plan None
      profile_service has_flow user session_id message (Some subject) w.
Proof.
  intros H. unfold handle_message, lookup_vector_context.
  destruct subject as [|c cs]; [done|]. by rewrite H.
Qed.

(** The flow touches the metrics and the log, never the sessions. *)
Lemma flow_invoke_sessions inputs w :
  sessions (snd (flow_invoke lower respond create_plan inputs w)) = sessions w.
Proof.
  unfold flow_invoke, tutor_node, route_message.
  destruct (g_message inputs) as [msg|]; [|done].
  destruct (respond _ _ _ _ _) as [[[r | e]|] m']; simpl; [|done..].
  destruct (_ && _); simpl;
    repeat match goal with
           | |- context [bool_decide ?P] => destruct (bool_decide P)
           | |- context [planner_node ?f ?x] => destruct (planner_node f x)
           end; done.
Qed.

(** With the LangGraph flow every [Exception] is caught: unless the tutor
    hands nothing back, the call returns a reply and the session receives
    the user message and that reply. *)
Lemma flow_path_always_replies user session_id message subject w :
  fst (handle_message lower respond create_plan vector_store
         profile_service true user session_id message subject w)
  = None
  \/ exists reply,
       fst (handle_message lower respond create_plan vector_store
              profile_service true user session_id message subject w)
       = Some (Ok reply)
       /\ sessions (snd (handle_message lower respond create_plan
                           vector_store profile_service true user session_id
                           message subject w))
          = after_exchange session_id message reply w.
Proof.
  unfold handle_message, after_exchange, finish.
  destruct (load_student_profile profile_service user subject) as [p | e];
    [|right; by eexists].
  match goal with
  | |- context [flow_invoke _ _ _ ?i ?w0] =>
      pose proof (flow_invoke_sessions i w0) as Hs;
      destruct (flow_invoke lower respond create_plan i w0)
        as [[[st | e]|] w1]
  end; simpl in Hs; [right | right | by left];
    eexists; simpl; rewrite Hs; (split; [done|]);
    by destruct (contains _ _ && _).
Qed.

(** Without the flow the call returns a reply, and the session receives
    both messages, whenever the agent the message is routed to returns. *)
Lemma fallback_replies_when_agent_returns user session_id message subject w
    student_profile :
  load_student_profile profile_service user subject = Ok student_profile ->
  (forall session_state vector_context m,
     exists reply m',
       respond (Some student_profile) session_state message vector_context m
       = (Some (Ok reply), m')) ->
  (exists reply, create_plan student_profile message 5 = Ok reply) ->
  exists reply,
    fst (handle_message lower respond create_plan vector_store
           profile_service false user session_id message subject w)
    = Some (Ok reply)
    /\ sessions (snd (handle_message lower respond create_plan vector_store
                        profile_service false user session_id message
                        subject w))
       = after_exchange session_id message reply w.
Proof.
  intros Hp Hr [plan Hplan]. unfold handle_message, after_exchange, finish.
  rewrite Hp. destruct (_ && _).
  - rewrite Hplan. by eexists.
  - match goal with
    | |- context [respond ?a ?b ?c ?d ?m] =>
        destruct (Hr b d m) as (reply & m' & ->)
    end. by eexists.
Qed.

End Routing.

(** C6 fails on the code. Without the LangGraph flow, with a vector store
    whose search raises, the message "Give me a quiz" for subject "maths":
    the search failure is caught, the message is routed to the tutor, the
    tutor's quiz tool reads the session's [current_topic], which is [None],
    and raises; [handle_message] lets that exception through, and the
    session holds the user message only. *)
Theorem quiz_request_raises_without_flow code_exec_tool api_key chat :
  let out :=
    handle_message ascii_lower
      (Agents.respond ascii_lower code_exec_tool api_key chat)
      (Agents.create_plan ascii_lower) (Some Samples.failing_search) None
      false (lit "u1") (lit "s1") (lit "Give me a quiz") (Some (lit "maths"))
      Samples.fresh_world in
  fst out = Some (Raise AttributeError)
  /\ messages_of (lit "s1") (snd out)
     = [Session.Message (lit "user") (lit "Give me a quiz")].
Proof. by vm_compute. Qed.

(** The same request with the flow: the exception is caught and an apology
    is the reply. *)
Example quiz_request_with_flow code_exec_tool api_key chat :
  let out :=
    handle_message ascii_lower
      (Agents.respond ascii_lower code_exec_tool api_key chat)
      (Agents.create_plan ascii_lower) (Some Samples.failing_search) None
      true (lit "u1") (lit "s1") (lit "Give me a quiz") (Some (lit "maths"))
      Samples.fresh_world in
  fst out = Some (Ok failed_reply)
  /\ messages_of (lit "s1") (snd out)
     = [Session.Message (lit "user") (lit "Give me a quiz");
        Session.Message (lit "assistant") failed_reply].
Proof. by vm_compute. Qed.

(** C1 fails on the code where the LangGraph flow is used. The graph is
    built with the tutor node as its entry point, and the router only
    decides what follows it, so the tutor runs for every message, also for
    one that contains "plan" and "study".

    "Plan my study practice": the tutor's quiz tool runs (the content tool
    is counted) and raises, the flow fails, the reply is the apology and
    the router and the planner are never reached, although the request was
    counted as a planner request. "Plan my study week", with no API key:
    the tutor counts an error for the missing key, its reply is thrown
    away and the plan is returned.

    The in-code routing of the same method, without the flow, hands both
    messages to the planner alone: the reply is the plan and the tutor
    leaves no trace in the metrics. *)
Theorem planner_request_runs_tutor_on_flow code_exec_tool api_key chat :
  let handle has_flow key message :=
    handle_message (score:=Z) ascii_lower
      (Agents.respond ascii_lower code_exec_tool key chat)
      (Agents.create_plan ascii_lower) None None has_flow (lit "u1")
      (lit "s1") message None Samples.fresh_world in
  let practice := lit "Plan my study practice" in
  let week := lit "Plan my study week" in
  (wants_planner (ascii_lower practice) /\ wants_planner (ascii_lower week))
  /\ (fst (handle true api_key practice) = Some (Ok failed_reply)
      /\ routing_log (snd (handle true api_key practice)) = []
      /\ total_planner_requests (counters (snd (handle true api_key practice)))
         = 1
      /\ tool_usage (counters (snd (handle true api_key practice)))
         = {[lit "content_tool" := 1]})
  /\ (fst (handle true false week)
      = Some (Agents.create_plan ascii_lower ∅ week 5)
      /\ routing_log (snd (handle true false week)) = [Planner]
      /\ total_errors (counters (snd (handle true false week))) = 1)
  /\ (forall message,
        message = practice \/ message = week ->
        fst (handle false api_key message)
        = Some (Agents.create_plan ascii_lower ∅ message 5)
        /\ routing_log (snd (handle false api_key message)) = [Planner]
        /\ counters (snd (handle false api_key message)) = inc_planner zero).
Proof.
  intros handle practice week. split; [|split; [|split]].
  - split; apply keyword_test; by vm_compute.
  - by vm_compute.
  - by vm_compute.
  - intros message [-> | ->]; by vm_compute.
Qed.

End OrchestratorTheorems.

(** ** More on the built-ins *)

Module StripFacts.
Import Py StrSpec PyFacts.

Lemma lstrip_nil_iff s :
  lstrip s = [] <-> Forall (fun c => is_space c = true) s.
Proof.
  induction s as [|c s IH]; simpl; [by split|].
  destruct (is_space c) eqn:E.
  - rewrite IH. split; [by constructor | by inversion 1].
  - split; [done | inversion 1; congruence].
Qed.

Lemma lstrip_spaces s :
  Forall (fun c => is_space c = true) (lstrip s) ->
  Forall (fun c => is_space c = true) s.
Proof.
  intros H. apply lstrip_nil_iff.
  destruct (lstrip s) as [|c r] eqn:E; [done|].
  apply lstrip_head in E. inversion H; congruence.
Qed.

(** Stripping leaves nothing exactly when every character is white space. *)
Lemma strip_nil_iff s :
  strip s = [] <-> Forall (fun c => is_space c = true) s.
Proof.
  unfold strip, rstrip. split.
  - intros H. apply lstrip_spaces.
    apply (f_equal (@rev N)) in H. rewrite rev_involutive in H. simpl in H.
    apply lstrip_nil_iff in H. by apply Forall_rev in H; rewrite rev_involutive in H.
  - intros H. apply lstrip_nil_iff in H. rewrite H. done.
Qed.

Lemma strip_nonblank_iff s :
  strip s <> [] <-> exists c, c ∈ s /\ is_space c = false.
Proof.
  rewrite strip_nil_iff. split.
  - intros H. apply not_Forall_Exists in H; [|intros c; apply _].
    apply Exists_exists in H as (c & Hc & Hs). exists c. split; [done|].
    simpl in Hs. by destruct (is_space c).
  - intros (c & Hc & Hs) H. rewrite Forall_forall in H.
    specialize (H c Hc). congruence.
Qed.

Lemma substring_trans a b c : substring a b -> substring b c -> substring a c.
Proof.
  intros (p1 & q1 & ->) (p2 & q2 & ->). exists (p2 ++ p1), (q1 ++ q2).
  by rewrite <- !app_assoc.
Qed.

Lemma substring_elem sub s c : substring sub s -> c ∈ sub -> c ∈ s.
Proof.
  intros (pre & post & ->) H. rewrite !elem_of_app. auto.
Qed.

Lemma slice_substring (s : str) lo hi : substring (slice s lo hi) s.
Proof.
  unfold slice.
  set (a := Z.to_nat (adjust (Z.of_nat (length s)) lo)).
  set (k := Z.to_nat _).
  exists (take a s), (drop k (drop a s)).
  by rewrite take_drop, take_drop.
Qed.

Lemma strip_substring s : substring (strip s) s.
Proof.
  unfold strip.
  destruct (rstrip_prefix (lstrip s)) as [post Hpost].
  destruct (lstrip_suffix s) as [pre Hpre].
  exists pre, post. by rewrite <- Hpost.
Qed.

(** The whole sequence as a slice. *)
Lemma slice_all {A} (s : list A) hi :
  (len s <= hi)%Z -> slice s 0 hi = s.
Proof.
  intros H. unfold slice, adjust, len in *. simpl.
  replace (hi <? 0)%Z with false by (symmetry; apply Z.ltb_ge; lia).
  rewrite Z.min_r by lia. rewrite Z.min_l by lia. simpl.
  rewrite drop_0. apply take_ge. lia.
Qed.

End StripFacts.

(** ** More on chunk_text and the PDF text *)

Module PdfTheorems.
Import Py StrSpec PyFacts StripFacts Context Chunk ChunkSpec ChunkFacts.
Import PdfProcessor.
Local Open Scope Z_scope.

Lemma chunk_body_substrings text chunk_size overlap st :
  Forall (fun c => substring c text) (snd st) ->
  Forall (fun c => substring c text)
    (snd (chunk_body text chunk_size overlap st)).
Proof.
  destruct st as [start chunks]. unfold chunk_body. simpl. intros H.
  set (e := chunk_end text chunk_size start).
  destruct (strip (slice text start e)) as [|c r] eqn:E; [done|].
  apply Forall_app. split; [done|]. apply Forall_singleton. rewrite <- E.
  eapply substring_trans; [apply strip_substring | apply slice_substring].
Qed.

Lemma chunk_loop_substrings fuel text chunk_size overlap :
  forall st chunks,
    Forall (fun c => substring c text) (snd st) ->
    chunk_loop fuel text chunk_size overlap st = Some chunks ->
    Forall (fun c => substring c text) chunks.
Proof.
  induction fuel as [|fuel IH]; intros st chunks Hst; simpl.
  - destruct (fst st <? len text); [done | by intros [= <-]].
  - destruct (fst st <? len text); [| by intros [= <-]].
    apply IH. by apply chunk_body_substrings.
Qed.

(** X2. Whatever the parameters, every chunk the loop collects, after any
    number of passes and in any returned list, is a contiguous part of the
    text: chunking never invents or reorders characters. *)
Theorem chunks_are_parts_of_the_text text chunk_size overlap :
  (forall n,
     Forall (fun c => substring c text)
       (snd (chunk_states text chunk_size overlap n)))
  /\ (forall fuel chunks,
        chunk_text fuel text chunk_size overlap = Some chunks ->
        Forall (fun c => substring c text) chunks).
Proof.
  split.
  - intros n. unfold chunk_states. induction n as [|n IH]; simpl; [done|].
    unfold chunk_iter at 1. destruct (_ <? len text); [|done].
    by apply chunk_body_substrings.
  - intros fuel chunks. unfold chunk_text.
    destruct text as [|c text]; [by intros [= <-]|].
    destruct (strip (c :: text)); [by intros [= <-]|].
    by apply chunk_loop_substrings.
Qed.

Lemma chunks_are_parts_of_the_text_witness :
  chunk_text 4 (lit "Read this story now. Then stop") 24 3
  = Some [lit "Read this story now."; lit "ow. Then stop"]
  /\ Forall (fun c => substring c (lit "Read this story now. Then stop"))
       [lit "Read this story now."; lit "ow. Then stop"].
Proof.
  assert (H : chunk_text 4 (lit "Read this story now. Then stop") 24 3
              = Some [lit "Read this story now."; lit "ow. Then stop"])
    by (vm_compute; reflexivity).
  split; [exact H|].
  exact (proj2 (chunks_are_parts_of_the_text
                  (lit "Read this story now. Then stop") 24 3) 4%nat _ H).
Defined.

Lemma one_pass_loop fuel text chunk_size overlap :
  strip text <> [] -> len text <= chunk_size ->
  chunk_loop (S fuel) text chunk_size overlap (0, []) = Some [strip text].
Proof.
  intros Hs Hlen.
  assert (Hpos : 0 < len text).
  { destruct text; [by vm_compute in Hs | unfold len; simpl; lia]. }
  assert (Hend : chunk_end text chunk_size 0 = chunk_size).
  { unfold chunk_end. rewrite Z.add_0_l.
    by replace (chunk_size <? len text) with false
      by (symmetry; apply Z.ltb_ge; lia). }
  assert (Hbody : chunk_body text chunk_size overlap (0, [])
                  = (len text, [strip text])).
  { unfold chunk_body. rewrite Hend.
    replace (chunk_size <? len text) with false
      by (symmetry; apply Z.ltb_ge; lia).
    rewrite slice_all by done. by destruct (strip text). }
  rewrite ChunkTheorems.chunk_loop_step. simpl fst.
  replace (0 <? len text) with true by (symmetry; apply Z.ltb_lt; lia).
  rewrite Hbody. destruct fuel;
    [rewrite ChunkTheorems.chunk_loop_zero
    | rewrite ChunkTheorems.chunk_loop_step]; simpl fst;
    by replace (len text <? len text) with false
      by (symmetry; apply Z.ltb_ge; lia).
Qed.

(** X3. A text that is not blank and has at most [chunk_size] characters
    comes back as one chunk, the stripped text, whatever the overlap, after
    a single pass of the loop. *)
Theorem short_text_is_one_chunk fuel text chunk_size overlap :
  strip text <> [] -> len text <= chunk_size ->
  chunk_text (S fuel) text chunk_size overlap = Some [strip text].
Proof.
  intros Hs Hlen. rewrite ChunkTheorems.chunk_text_nonblank by done.
  by apply one_pass_loop.
Qed.

Lemma short_text_is_one_chunk_witness :
  strip (lit "  Hello world. Bye ") <> []
  /\ len (lit "  Hello world. Bye ") <= 500
  /\ chunk_text 1 (lit "  Hello world. Bye ") 500 50
     = Some [lit "Hello world. Bye"].
Proof.
  assert (H1 : strip (lit "  Hello world. Bye ") <> []) by (by vm_compute).
  assert (H2 : len (lit "  Hello world. Bye ") <= 500) by (by vm_compute).
  split; [exact H1|]. split; [exact H2|].
  exact (short_text_is_one_chunk 0 (lit "  Hello world. Bye ") 500 50 H1 H2).
Defined.

Lemma page_text_spec p t :
  page_text p = Some t <-> p = Extracted (Some t) /\ strip t <> [].
Proof.
  unfold page_text. destruct p as [[text|]|]; [|by split; [|intros []] ..].
  destruct text as [|c text].
  - split; [done|]. intros [[= <-] H]. exfalso. by apply H.
  - destruct (strip (c :: text)) eqn:E.
    + split; [done|]. intros [[= <-] H]. exfalso. by apply H.
    + split; [intros [= <-]; by rewrite E | intros [[= <-] _]; done].
Qed.

Lemma text_content_spec pages t :
  t ∈ text_content pages <-> Extracted (Some t) ∈ pages /\ strip t <> [].
Proof.
  unfold text_content. rewrite list_elem_of_omap. split.
  - intros (p & Hp & Ht). apply page_text_spec in Ht as [-> Hs]. done.
  - intros [Hp Hs]. exists (Extracted (Some t)). split; [done|].
    by apply page_text_spec.
Qed.

(** X4. [extract_text_from_pdf] returns a text exactly when some page
    yields a text that is not blank; the returned text is not blank and
    contains the text of every such page; every failure, whatever its
    cause, is a [ValueError] whose message starts with "Failed to process
    PDF: ". *)
Theorem extracted_text_has_content r :
  (forall text,
     extract_text_from_pdf r = Done text ->
     strip text <> []
     /\ forall pages t,
          r = Pages pages -> Extracted (Some t) ∈ pages -> strip t <> [] ->
          substring t text)
  /\ ((exists text, extract_text_from_pdf r = Done text)
      <-> exists pages t,
            r = Pages pages /\ Extracted (Some t) ∈ pages /\ strip t <> [])
  /\ (forall msg,
        extract_text_from_pdf r = ValueError msg ->
        exists cause, msg = lit "Failed to process PDF: " ++ cause).
Proof.
  unfold extract_text_from_pdf, failed.
  destruct r as [pages | m].
  2:{ split; [done|]. split; [|intros msg [= <-]; eauto].
      split; [by intros [? ?] | by intros (? & ? & ? & _)]. }
  destruct (len pages =? 0) eqn:E0.
  { apply Z.eqb_eq in E0. destruct pages; [|unfold len in E0; simpl in E0; lia].
    split; [done|]. split; [|intros msg [= <-]; eauto].
    split; [by intros [? ?]|]. intros (ps & t & [= <-] & Hin & _).
    by apply elem_of_nil in Hin. }
  destruct (len (text_content pages) =? 0) eqn:E1.
  { apply Z.eqb_eq in E1.
    assert (Hnil : text_content pages = [])
      by (destruct (text_content pages); [done | unfold len in E1; simpl in E1; lia]).
    split; [done|]. split; [|intros msg [= <-]; eauto].
    split; [by intros [? ?]|]. intros (ps & t & [= <-] & Hin & Hs).
    assert (Ht : t ∈ text_content pages) by (by apply text_content_spec).
    rewrite Hnil in Ht. by apply elem_of_nil in Ht. }
  apply Z.eqb_neq in E1.
  assert (Hex : exists t0, t0 ∈ text_content pages).
  { destruct (text_content pages) as [|t0 ts]; [done|]. exists t0. by left. }
  destruct Hex as [t0 Hin0].
  pose proof (proj1 (text_content_spec pages t0) Hin0) as Ht0.
  split; [|split]; [| | done].
  - intros text [= <-]. split.
    + apply strip_nonblank_iff.
      destruct Ht0 as [_ Hs]. apply strip_nonblank_iff in Hs as (c & Hc & Hsp).
      exists c. split; [|done].
      eapply substring_elem; [|exact Hc].
      by apply ContextTheorems.substring_join.
    + intros ps t [= <-] Hin Hs. apply ContextTheorems.substring_join.
      by apply text_content_spec.
  - split; [|by eauto]. intros _. exists pages, t0. by destruct Ht0.
Qed.

Lemma extracted_text_has_content_witness :
  let r := Pages [Extracted (Some (lit "Title")); ExtractFailed;
                  Extracted (Some (lit "  ")); Extracted None;
                  Extracted (Some (lit "Body text."))] in
  extract_text_from_pdf r = Done (lit "Title" ++ nl ++ nl ++ lit "Body text.")
  /\ strip (lit "Title" ++ nl ++ nl ++ lit "Body text.") <> []
  /\ substring (lit "Body text.") (lit "Title" ++ nl ++ nl ++ lit "Body text.").
Proof.
  intros r.
  assert (H : extract_text_from_pdf r
              = Done (lit "Title" ++ nl ++ nl ++ lit "Body text."))
    by (by vm_compute).
  destruct (proj1 (extracted_text_has_content r) _ H) as [Hs Hsub].
  split; [exact H|]. split; [exact Hs|].
  refine (Hsub _ (lit "Body text.") eq_refl _ _).
  - do 4 right. by left.
  - by vm_compute.
Defined.

Lemma extracted_nonblank r text :
  extract_text_from_pdf r = Done text -> strip text <> [].
Proof.
  unfold extract_text_from_pdf, failed. destruct r as [pages | m]; [|done].
  destruct (len pages =? 0); [done|].
  destruct (len (text_content pages) =? 0) eqn:E1; [done|].
  intros [= <-]. apply Z.eqb_neq in E1.
  destruct (text_content pages) as [|t0 ts] eqn:Et; [done|].
  assert (Hin : t0 ∈ text_content pages) by (rewrite Et; by left).
  apply text_content_spec in Hin as [_ Hs].
  apply strip_nonblank_iff in Hs as (c & Hc & Hsp).
  apply strip_nonblank_iff. exists c. split; [|done].
  eapply substring_elem; [|exact Hc].
  apply ContextTheorems.substring_join. by left.
Qed.

(** X30. [process_pdf] is the extraction followed by the chunking. A
    failed extraction fails [process_pdf] with the same [ValueError]
    before any chunking; an extracted text of at most [chunk_size]
    characters gives exactly one chunk, the text without surrounding
    whitespace; and whenever [process_pdf] returns chunks, each is a
    contiguous part of the extracted text. *)
Theorem process_pdf_outcomes r chunk_size :
  (forall msg fuel,
     extract_text_from_pdf r = ValueError msg ->
     process_pdf fuel r chunk_size = Some (ValueError msg))
  /\ (forall text fuel,
        extract_text_from_pdf r = Done text ->
        len text <= chunk_size ->
        process_pdf (S fuel) r chunk_size = Some (Done [strip text]))
  /\ (forall fuel chunks,
        process_pdf fuel r chunk_size = Some (Done chunks) ->
        exists text,
          extract_text_from_pdf r = Done text
          /\ Forall (fun c => substring c text) chunks).
Proof.
  unfold process_pdf. split; [|split].
  - by intros msg fuel ->.
  - intros text fuel Ht Hlen. rewrite Ht.
    assert (Hs : strip text <> []) by (by eapply extracted_nonblank).
    rewrite ChunkTheorems.chunk_text_nonblank by done.
    by rewrite one_pass_loop.
  - intros fuel chunks.
    destruct (extract_text_from_pdf r) as [text | msg]; [|done].
    destruct (chunk_text fuel text chunk_size 50) as [cs|] eqn:Ec; [|done].
    intros [= <-]. exists text. split; [done|].
    revert Ec. unfold chunk_text.
    destruct text as [|c text]; [by intros [= <-]|].
    destruct (strip (c :: text)); [by intros [= <-]|].
    by apply chunk_loop_substrings.
Qed.

Lemma process_pdf_outcomes_witness :
  let r := Pages [Extracted (Some (lit "Title")); ExtractFailed;
                  Extracted (Some (lit "Body text. "))] in
  extract_text_from_pdf r = Done (lit "Title" ++ nl ++ nl ++ lit "Body text. ")
  /\ process_pdf 1 r 500 = Some (Done [lit "Title" ++ nl ++ nl ++ lit "Body text."]).
Proof.
  intros r.
  assert (H : extract_text_from_pdf r
              = Done (lit "Title" ++ nl ++ nl ++ lit "Body text. "))
    by (by vm_compute).
  split; [exact H|].
  rewrite (proj1 (proj2 (process_pdf_outcomes r 500)) _ 0%nat H);
    [done | by vm_compute].
Defined.

(** X1. Without overlap the loop of [chunk_text] always ends: for a
    positive [chunk_size] it returns within as many passes as the text has
    characters, and what it returns are chunks of at most [chunk_size]
    characters that are not blank. *)
Theorem chunking_without_overlap_returns text chunk_size :
  0 < chunk_size ->
  exists chunks,
    chunk_text (length text) text chunk_size 0 = Some chunks
    /\ Forall (chunk_ok chunk_size) chunks.
Proof.
  intros Hcs. unfold chunk_text.
  destruct text as [|c text]; [by exists []|].
  destruct (strip (c :: text)) eqn:Es; [by exists []|].
  destruct (ChunkTheorems.chunk_loop_terminates_without_overlap (c :: text)
              chunk_size Hcs (length (c :: text)) (0, []))
    as [chunks Hc]; [simpl; lia | unfold len; simpl fst; lia |].
  exists chunks. split; [done|].
  apply (chunk_loop_ok (length (c :: text)) (c :: text) chunk_size 0 (0, [])
           chunks); [lia | | done].
  split; simpl; [lia | done].
Qed.

Lemma chunking_without_overlap_returns_witness :
  0 < 12
  /\ exists chunks,
       chunk_text 35 (lit "One two. Three four. Five six seven") 12 0
       = Some chunks
       /\ Forall (chunk_ok 12) chunks.
Proof.
  split; [lia|].
  exact (chunking_without_overlap_returns
           (lit "One two. Three four. Five six seven") 12 ltac:(lia)).
Defined.

End PdfTheorems.

(** ** More on the vector store *)

Module VectorStoreMore.
Import Py PyFacts VectorStore VectorStoreSpec VectorStoreFacts VectorStoreStats.
Local Open Scope Z_scope.

Section Store.
Context {vec score : Type}.
Variable embed : str -> vec.
Variable faiss_search : list vec -> vec -> Z -> result (list (score * Z)).

(** X5. On every store reached by the store's operations,
    [get_subject_stats] never raises: the document count is the number of
    chunks added for the subject since it was last initialised or deleted,
    and the sources are exactly the sources of those chunks; for a subject
    the store does not know both are empty. *)
Theorem stats_reflect_added_documents ops s :
  get_subject_stats s (run embed ops)
  = Ok (len (added s ops []), list_to_set (List.map snd (added s ops []))).
Proof.
  unfold get_subject_stats.
  pose proof (store_run_inv embed ops s) as H. unfold subject_inv in H.
  destruct (indexes (run embed ops) !! s) as [ix|];
    destruct (metadata (run embed ops) !! s) as [md|]; try done.
  - destruct H as (Hdoc & _ & _). rewrite <- Hdoc. unfold documents, len.
    rewrite length_map, map_map. done.
  - by rewrite H.
Qed.

(** X6. On every store reached by the store's operations neither
    [add_documents] nor [delete_subject_data] raises: [add_documents]
    returns the number of texts it was given, for known and unknown subjects
    alike. *)
Theorem store_operations_never_raise ops s texts src :
  fst (add_documents embed s texts src (run embed ops)) = Ok (len texts)
  /\ fst (delete_subject_data s (run embed ops)) = Ok tt.
Proof.
  pose proof (store_run_inv embed ops s) as H. unfold subject_inv in H.
  unfold add_documents, delete_subject_data, _init_subject_index.
  destruct (indexes (run embed ops) !! s) as [ix|] eqn:Ei;
    destruct (metadata (run embed ops) !! s) as [md|] eqn:Em; try done.
  - split; [|done]. destruct texts; [done|]. by rewrite Ei.
  - split; [|done]. destruct texts; [done|]. simpl.
    by rewrite !lookup_insert_eq.
Qed.

(** X7. After [delete_subject_data] for a subject, on any store at all, a
    search in that subject returns the empty list and its statistics are
    empty, whatever was stored before and whether or not the call raised. *)
Theorem deleted_subject_is_empty (st : @store vec) s query top_k :
  search embed faiss_search s query top_k (snd (delete_subject_data s st))
  = Ok []
  /\ get_subject_stats s (snd (delete_subject_data s st)) = Ok (0, ∅).
Proof.
  unfold delete_subject_data, search, get_subject_stats, _init_subject_index.
  destruct (indexes st !! s) eqn:Ei.
  - destruct (metadata st !! s) eqn:Em; simpl.
    + by rewrite !lookup_insert_eq.
    + by rewrite lookup_delete_eq.
  - simpl. by rewrite Ei.
Qed.

Hypothesis faiss_len :
  forall ix q k found, faiss_search ix q k = Ok found -> len found = k.
Hypothesis faiss_range :
  forall ix q k found,
    faiss_search ix q k = Ok found ->
    Forall (fun p => -1 <= snd p < len ix) found.
Hypothesis faiss_total :
  forall ix q k, 0 < k -> exists found, faiss_search ix q k = Ok found.

Lemma search_hit_count ops s query top_k :
  0 < top_k ->
  exists hits,
    search embed faiss_search s query top_k (run embed ops) = Ok hits
    /\ len hits = Z.min top_k (len (added s ops [])).
Proof.
  intros Hk. unfold search.
  pose proof (store_run_inv embed ops s) as H. unfold subject_inv in H.
  destruct (indexes (run embed ops) !! s) as [ix|];
    destruct (metadata (run embed ops) !! s) as [md|]; try done.
  2:{ rewrite H. exists []. split; [done|]. unfold len. simpl. lia. }
  destruct H as (Hdoc & _ & Hlen).
  assert (Hn : len (added s ops []) = len md).
  { rewrite <- Hdoc. unfold documents, len. by rewrite length_map. }
  rewrite Hn. destruct (len md =? 0) eqn:E.
  { apply Z.eqb_eq in E. exists []. split; [done|]. rewrite E.
    unfold len. simpl. lia. }
  apply Z.eqb_neq in E. pose proof (len_nonneg md).
  assert (Hmd : md <> []) by (intros ->; by apply E).
  destruct (faiss_total ix (embed query) (Z.min top_k (len md)))
    as [found Hf]; [lia|].
  rewrite Hf.
  pose proof (faiss_len _ _ _ _ Hf) as Hl.
  pose proof (faiss_range _ _ _ _ Hf) as Hr.
  assert (len ix = len md) as Hix by (unfold len; lia). rewrite Hix in Hr.
  destruct (collect_all md Hmd found 0 Hr) as (hits & Hc & Hlh & _).
  exists hits. split; [done|]. unfold len in *. lia.
Qed.

(** X8. With an index that returns exactly [k] pairs with valid labels, a
    search with a positive [top_k] on a store reached by the store's
    operations returns exactly [min(top_k, n)] hits, where [n] is the
    number of documents the subject holds: nothing is dropped by the
    position guard. *)
Theorem search_returns_min_hits ops s query top_k :
  0 < top_k ->
  exists hits,
    search embed faiss_search s query top_k (run embed ops) = Ok hits
    /\ len hits = Z.min top_k (len (added s ops [])).
Proof. apply search_hit_count. Qed.

End Store.

Lemma search_returns_min_hits_witness :
  0 < 5
  /\ exists hits,
       search Samples.length_embed Samples.flat_search (lit "science")
         (lit "Rain") 5 (run Samples.length_embed Samples.store_ops) = Ok hits
       /\ len hits = Z.min 5 (len (added (lit "science") Samples.store_ops [])).
Proof.
  split; [lia|].
  exact (search_returns_min_hits Samples.length_embed Samples.flat_search
           VectorStoreTheorems.flat_search_len
           VectorStoreTheorems.flat_search_range
           VectorStoreTheorems.flat_search_total
           Samples.store_ops (lit "science") (lit "Rain") 5 ltac:(lia)).
Defined.

Example store_ops_stats :
  get_subject_stats (lit "science")
    (run Samples.length_embed Samples.store_ops)
  = Ok (3, {[lit "bio.pdf"]}).
Proof.
  rewrite stats_reflect_added_documents. f_equal.
Qed.

End VectorStoreMore.

(** ** More on the session store *)

Module SessionMore.
Import Py Session SessionSpec.

(** X9. Sessions are independent: [add_message], [create_session] and
    [get_session] for one session id leave every other session exactly as
    it was. *)
Theorem sessions_are_independent (ss : gmap str session) sid other :
  other <> sid ->
  (forall r c, add_message sid r c ss !! other = ss !! other)
  /\ (forall user, snd (create_session sid user ss) !! other = ss !! other)
  /\ snd (get_session sid ss) !! other = ss !! other.
Proof.
  intros Hne. unfold add_message, create_session, get_session.
  split; [|split].
  - intros r c. destruct (ss !! sid); rewrite !lookup_insert_ne by done; done.
  - intros user. simpl. by rewrite lookup_insert_ne.
  - destruct (ss !! sid); simpl; [done|]. by rewrite lookup_insert_ne.
Qed.

Lemma sessions_are_independent_witness :
  lit "s2" <> lit "s1"
  /\ add_message (lit "s1") (lit "user") (lit "hello")
       (run Samples.twelve_messages) !! lit "s2"
     = run Samples.twelve_messages !! lit "s2".
Proof.
  assert (Hne : lit "s2" <> lit "s1") by (by vm_compute).
  split; [exact Hne|].
  exact (proj1 (sessions_are_independent (run Samples.twelve_messages)
                  (lit "s1") (lit "s2") Hne) (lit "user") (lit "hello")).
Defined.

Lemma session_fields_inv ops :
  forall (ss : gmap str session) (own : str -> option str),
    (forall sid s, ss !! sid = Some s ->
       user_id s = own sid /\ current_topic s = None
       /\ history_summary s = []) ->
    (forall sid, ss !! sid = None -> own sid = None) ->
    forall sid s,
      fold_left step ops ss !! sid = Some s ->
      user_id s = owner sid ops (own sid) /\ current_topic s = None
      /\ history_summary s = [].
Proof.
  induction ops as [|o ops IH]; intros ss own Hsome Hnone sid s; simpl.
  - apply Hsome.
  - destruct o as [new_id user | sid0 | sid0 r c]; simpl; intros Hrun.
    + refine (IH _ (fun x => if decide (new_id = x) then Some user else own x)
                _ _ sid s Hrun).
      * intros x sx. destruct (decide (new_id = x)) as [-> | Hne].
        -- rewrite lookup_insert_eq. by intros [= <-].
        -- rewrite lookup_insert_ne by done. apply Hsome.
      * intros x. destruct (decide (new_id = x)) as [-> | Hne].
        -- by rewrite lookup_insert_eq.
        -- rewrite lookup_insert_ne by done. apply Hnone.
    + refine (IH _ own _ _ sid s Hrun).
      * intros x sx. unfold get_session.
        destruct (ss !! sid0) eqn:E; simpl; [apply Hsome|].
        destruct (decide (sid0 = x)) as [-> | Hne].
        -- rewrite lookup_insert_eq. intros [= <-]. simpl.
           by rewrite (Hnone x E).
        -- rewrite lookup_insert_ne by done. apply Hsome.
      * intros x. unfold get_session.
        destruct (ss !! sid0) eqn:E; simpl; [apply Hnone|].
        destruct (decide (sid0 = x)) as [-> | Hne].
        -- by rewrite lookup_insert_eq.
        -- rewrite lookup_insert_ne by done. apply Hnone.
    + refine (IH _ own _ _ sid s Hrun).
      * intros x sx. unfold add_message, get_session.
        destruct (ss !! sid0) as [s0|] eqn:E.
        -- destruct (decide (sid0 = x)) as [-> | Hne].
           ++ rewrite lookup_insert_eq. intros [= <-]. simpl.
              apply (Hsome _ _ E).
           ++ rewrite lookup_insert_ne by done. apply Hsome.
        -- destruct (decide (sid0 = x)) as [-> | Hne].
           ++ rewrite lookup_insert_eq. intros [= <-]. simpl.
              by rewrite (Hnone _ E).
           ++ rewrite !lookup_insert_ne by done. apply Hsome.
      * intros x. unfold add_message, get_session.
        destruct (ss !! sid0) as [s0|] eqn:E.
        -- destruct (decide (sid0 = x)) as [-> | Hne].
           ++ by rewrite lookup_insert_eq.
           ++ rewrite lookup_insert_ne by done. apply Hnone.
        -- destruct (decide (sid0 = x)) as [-> | Hne].
           ++ by rewrite lookup_insert_eq.
           ++ rewrite !lookup_insert_ne by done. apply Hnone.
Qed.

(** X10. After any sequence of [create_session], [get_session] and
    [add_message] calls, a session's [user_id] is the user of the last
    [create_session] that drew its id, and [None] when the session was
    only ever reached through [get_session] or [add_message]; adding
    messages never changes it. No call sets [current_topic] or
    [history_summary]: the topic is [None] and the summary empty in every
    session. *)
Theorem session_owner_and_topic_fixed ops sid s :
  run ops !! sid = Some s ->
  user_id s = owner sid ops None
  /\ current_topic s = None
  /\ history_summary s = [].
Proof.
  intros H. apply (session_fields_inv ops ∅ (fun _ => None)); [| done | exact H].
  intros x sx. by rewrite lookup_empty.
Qed.

Lemma session_owner_and_topic_fixed_witness :
  exists s,
    run Samples.twelve_messages !! lit "s1" = Some s
    /\ user_id s = Some (lit "asha")
    /\ current_topic s = None
    /\ history_summary s = [].
Proof.
  assert (H : is_Some (run Samples.twelve_messages !! lit "s1"))
    by (vm_compute; eauto).
  destruct H as [s H]. exists s. split; [exact H|].
  destruct (session_owner_and_topic_fixed Samples.twelve_messages (lit "s1")
              s H) as (Hu & Ht & Hh).
  split; [|by split]. rewrite Hu. by vm_compute.
Defined.

End SessionMore.

(** ** More on the profile file *)

Module ProfileMore.
Import Py Profile ProfileSpec.

Section File.
Context {P : Type}.
Variable json_dumps : gmap str P -> str.
Variable json_loads : str -> option (@document P).

Hypothesis loads_dumps :
  forall d, json_loads (json_dumps d) = Some (Mapping d).
Hypothesis dumps_not_blank : forall d, strip (json_dumps d) <> [].
Hypothesis dumps_empty : json_dumps ∅ = initial_file.

Lemma upserts_fold ups :
  forall d0, exists d,
    upserts json_dumps json_loads ups (json_dumps d0) = json_dumps d
    /\ forall user, d !! user = latest user ups (d0 !! user).
Proof.
  induction ups as [|[u p] ups IH]; intros d0; simpl.
  - by exists d0.
  - rewrite (ProfileTheorems.upsert_dumped json_dumps json_loads loads_dumps
               dumps_not_blank). simpl.
    destruct (IH (<[u := p]> d0)) as (d & Hd & Hl).
    exists d. split; [done|]. intros user. rewrite Hl.
    destruct (decide (u = user)) as [-> | Hne].
    + by rewrite lookup_insert_eq.
    + by rewrite lookup_insert_ne.
Qed.

(** X11. Upserts compose like assignments to one dict: on the file as the
    service creates it, after any sequence of upserts, [get_profile]
    returns for every user the profile last upserted for that user, and
    [None] when there was none. *)
Theorem last_upsert_wins ups user :
  get_profile json_loads user
    (upserts json_dumps json_loads ups initial_file)
  = Ok (latest user ups None).
Proof.
  rewrite <- dumps_empty.
  destruct (upserts_fold ups ∅) as (d & -> & Hl).
  unfold get_profile.
  rewrite (ProfileTheorems.read_dumped json_dumps json_loads loads_dumps
             dumps_not_blank).
  by rewrite Hl, lookup_empty.
Qed.

(** X12. A profile file that is blank or does not decode is read as the
    empty dict: [get_profile] returns [None] for every user instead of
    raising, and the next upsert writes a file that holds the upserted
    profile and nothing else. *)
Theorem unreadable_file_reads_as_empty file :
  strip file = [] \/ json_loads file = None ->
  (forall user, get_profile json_loads user file = Ok None)
  /\ (forall user profile other,
        get_profile json_loads other
          (snd (upsert_profile json_dumps json_loads user profile file))
        = Ok (if decide (other = user) then Some profile else None)).
Proof.
  intros Hbad.
  assert (Hread : _read_all json_loads file = Mapping ∅).
  { unfold _read_all. destruct Hbad as [-> | ->]; [done|].
    by destruct (strip file). }
  split.
  - intros user. unfold get_profile. by rewrite Hread, lookup_empty.
  - intros user profile other. unfold upsert_profile, _write_all.
    rewrite Hread. simpl. unfold get_profile.
    rewrite (ProfileTheorems.read_dumped json_dumps json_loads loads_dumps
               dumps_not_blank).
    destruct (decide (other = user)) as [-> | Hne].
    + by rewrite lookup_insert_eq.
    + by rewrite lookup_insert_ne, lookup_empty.
Qed.

End File.

Lemma last_upsert_wins_witness :
  let ups := [(lit "asha", Samples.asha_profile);
              (lit "ravi", Samples.ravi_profile);
              (lit "asha", Samples.ravi_profile)] in
  get_profile Samples.token_loads (lit "asha")
    (upserts Samples.token_dumps Samples.token_loads ups initial_file)
  = Ok (Some Samples.ravi_profile).
Proof.
  exact (last_upsert_wins Samples.token_dumps Samples.token_loads
           ProfileTheorems.token_loads_dumps
           ProfileTheorems.token_dumps_not_blank eq_refl
           [(lit "asha", Samples.asha_profile);
            (lit "ravi", Samples.ravi_profile);
            (lit "asha", Samples.ravi_profile)] (lit "asha")).
Defined.

Lemma unreadable_file_reads_as_empty_witness :
  Samples.token_loads (lit "not json") = None
  /\ get_profile Samples.token_loads (lit "asha") (lit "not json") = Ok None
  /\ get_profile Samples.token_loads (lit "asha")
       (snd (upsert_profile Samples.token_dumps Samples.token_loads
               (lit "ravi") Samples.ravi_profile (lit "not json")))
     = Ok None.
Proof.
  assert (H : Samples.token_loads (lit "not json") = None) by (by vm_compute).
  destruct (unreadable_file_reads_as_empty Samples.token_dumps
              Samples.token_loads ProfileTheorems.token_loads_dumps
              ProfileTheorems.token_dumps_not_blank (lit "not json")
              (or_intror H)) as [Hget Hup].
  split; [exact H|]. split; [exact (Hget (lit "asha"))|].
  exact (Hup (lit "ravi") Samples.ravi_profile (lit "asha")).
Defined.

End ProfileMore.

(** ** More on the prompts *)

Module ContextMore.
Import Py StrSpec PyFacts Context ContextSpec ContextTheorems.

(** X13. The history prompt holds every message of the list on a line of
    its own text: a message with role "user" as "Student: " followed by
    its content, a message with any other role as "Tutor: " followed by
    its content, with or without a profile. *)
Theorem history_holds_every_message messages student_profile msg :
  msg ∈ messages ->
  (Session.role msg = lit "user" ->
   substring (lit "Student: " ++ Session.content msg)
     (build_history_prompt messages student_profile))
  /\ (Session.role msg <> lit "user" ->
      substring (lit "Tutor: " ++ Session.content msg)
        (build_history_prompt messages student_profile)).
Proof.
  intros Hin. unfold build_history_prompt.
  set (header := match student_profile with Some _ => _ | None => _ end).
  set (line := fun m : Session.message => _ ++ lit " " ++ Session.content m).
  assert (Hline : substring (line msg) (join nl (header ++ List.map line messages))).
  { apply substring_join. apply elem_of_app. right.
    apply list_elem_of_In, in_map. by apply list_elem_of_In. }
  split; intros Hrole; subst line; simpl in Hline.
  - by rewrite bool_decide_eq_true_2 in Hline by done.
  - by rewrite bool_decide_eq_false_2 in Hline by done.
Qed.

Lemma history_holds_every_message_witness :
  substring (lit "Student: What is a prime?")
    (build_history_prompt Samples2.two_turns (Some Samples.asha_profile))
  /\ substring (lit "Tutor: A number with two divisors.")
       (build_history_prompt Samples2.two_turns (Some Samples.asha_profile)).
Proof.
  split.
  - refine (proj1 (history_holds_every_message Samples2.two_turns
                     (Some Samples.asha_profile)
                     (Session.Message (lit "user") (lit "What is a prime?"))
                     _) eq_refl).
    by left.
  - refine (proj2 (history_holds_every_message Samples2.two_turns
                     (Some Samples.asha_profile)
                     (Session.Message (lit "assistant")
                        (lit "A number with two divisors.")) _) _).
    + right. by left.
    + by vm_compute.
Defined.

(** X14. The system prompt reads the seven recognised fields and nothing
    else: two non-empty profiles that agree on name, age, grade, syllabus,
    subject, proficiency and gender give the same prompt, whatever other
    keys they hold. *)
Theorem prompt_reads_recognised_fields_only d1 d2 vector_context :
  d1 <> ∅ -> d2 <> ∅ ->
  (forall key label,
     (key, label) ∈ all_fields ->
     dict_get d1 (lit key) = dict_get d2 (lit key)) ->
  build_tutor_system_prompt (Some d1) vector_context
  = build_tutor_system_prompt (Some d2) vector_context.
Proof.
  intros H1 H2 Heq. rewrite !prompt_shape by done.
  assert (Hparts : profile_parts d1 = profile_parts d2).
  { unfold profile_parts. cbv zeta.
    rewrite (Heq "name" "Name")%string, (Heq "age" "Age")%string,
      (Heq "grade" "Grade")%string, (Heq "syllabus" "Syllabus")%string,
      (Heq "subject" "Subject")%string,
      (Heq "proficiency" "Proficiency")%string,
      (Heq "gender" "Gender")%string;
      [done | unfold all_fields, truthy_fields; repeat constructor ..]. }
  by rewrite Hparts.
Qed.

Lemma prompt_reads_recognised_fields_only_witness :
  Samples.asha_profile <> Samples2.asha_with_class
  /\ build_tutor_system_prompt (Some Samples.asha_profile) None
     = build_tutor_system_prompt (Some Samples2.asha_with_class) None.
Proof.
  split.
  - intros H. apply (f_equal (fun m => m !! lit "class")) in H.
    by vm_compute in H.
  - apply prompt_reads_recognised_fields_only.
    + intros H. apply (f_equal (fun m => m !! lit "name")) in H.
      by vm_compute in H.
    + intros H. apply (f_equal (fun m => m !! lit "name")) in H.
      by vm_compute in H.
    + intros key label Hin. unfold all_fields, truthy_fields in Hin.
      repeat (apply elem_of_cons in Hin as [[= -> ->] | Hin];
              [by vm_compute|]).
      by apply elem_of_nil in Hin.
Defined.

End ContextMore.

(** ** More on the agents *)

Module AgentsMore.
Import Py StrSpec PyFacts Context Metrics Agents AgentsSpec ContextTheorems
  StripFacts.
Local Open Scope Z_scope.

Lemma quiz_test lowered :
  contains (lit "quiz") lowered || contains (lit "practice") lowered = true
  <-> asks_for_quiz lowered.
Proof. unfold asks_for_quiz. by rewrite orb_true_iff, !contains_spec. Qed.


Lemma inc_tool_errors t m : total_errors (inc_tool t m) = total_errors m.
Proof. done. Qed.


Section Tutor.
Variable lower : str -> str.
Variable code_exec_tool : str -> option str.
Variable api_key : bool.
Variable chat : str -> str -> result str.







(** X16. A quiz or practice request in a session whose topic mentions
    "fraction" is answered with the built-in quiz, numbered from 1 with
    the options listed under each question; the content tool is counted
    once, and neither the API key nor the chat call nor the math tool
    plays a part. *)
Theorem quiz_request_answered_from_builtin student_profile session_state
    user_message vector_context m topic :
  asks_for_quiz (lower user_message) ->
  Session.current_topic session_state = Some topic ->
  substring (lit "fraction") (lower topic) ->
  respond lower code_exec_tool api_key chat student_profile session_state
    user_message vector_context m
  = (Some (Ok builtin_quiz_reply), inc_tool (lit "content_tool") m).
Proof.
  intros Hq Ht Hf. apply quiz_test in Hq. apply contains_spec in Hf.
  unfold respond. cbv zeta. rewrite Hq, Ht. unfold get_quiz_questions.
  rewrite Hf. unfold fraction_quiz. f_equal.
Qed.

Lemma respond_without_topic student_profile session_state user_message
    vector_context m :
  Session.current_topic session_state = None ->
  asks_for_quiz (lower user_message) ->
  respond lower code_exec_tool api_key chat student_profile session_state
    user_message vector_context m
  = (Some (Raise AttributeError), inc_tool (lit "content_tool") m).
Proof.
  intros Ht Hq. apply quiz_test in Hq. unfold respond. cbv zeta.
  by rewrite Hq, Ht.
Qed.

(** X17. In every session the session service can hold, a message that
    mentions "quiz" or "practice" makes the tutor raise [AttributeError]:
    the content tool is counted, then the quiz lookup lowercases the
    session's topic, which is always [None]. *)
Theorem quiz_request_raises_in_service_sessions ops session_id session_state
    student_profile user_message vector_context m :
  Session.run ops !! session_id = Some session_state ->
  asks_for_quiz (lower user_message) ->
  respond lower code_exec_tool api_key chat student_profile session_state
    user_message vector_context m
  = (Some (Raise AttributeError), inc_tool (lit "content_tool") m).
Proof.
  intros Hrun Hq. apply respond_without_topic; [|done].
  eapply (SessionMore.session_fields_inv ops ∅ (fun _ => None));
    [| done | exact Hrun].
  intros x sx. by rewrite lookup_empty.
Qed.

Lemma create_plan_shape student_profile goal days :
  exists first rest,
    create_plan lower student_profile goal days
    = Ok (join nl
            (first
             ++ [lit "Goal: " ++ goal ++ nl]
             ++ concat
                  (List.map
                     (fun day =>
                        [lit "Day " ++ str_of_int (day + 1) ++ lit ": "
                         ++ default [] (topics !! Z.to_nat (day mod 5))]
                        ++ rest) (seqZ 0 days))
             ++ [nl ++ lit "Stay consistent and review mistakes every day!"])).
Proof.
  unfold create_plan. cbv zeta.
  set (parts := (_ ++ _ ++ _ ++ _ ++ _ : list str)).
  set (title := (_ ++ lit " Personalized Study Plan (" ++ _ ++ _ : str)).
  assert (Hq : exists q, get_quiz_questions lower (Some (lit "fractions")) = Ok q).
  { simpl. destruct (contains _ _); eauto. }
  destruct Hq as [q Hq]. rewrite Hq.
  eexists ([title] ++ match parts with [] => [] | _ => [join (lit " | ") parts] end),
    (match q with [] => [] | _ => _ end).
  by rewrite <- !app_assoc.
Qed.


(** X18. The planner never raises, for any profile, goal and number of
    days. The plan names the goal, and for every day from 1 to [days] it
    has the line "Day k: topic" with the five topics taken in turn; with
    no days (zero or negative) it still returns a plan. *)
Theorem plan_lists_every_day student_profile goal days :
  exists plan,
    create_plan lower student_profile goal days = Ok plan
    /\ substring (lit "Goal: " ++ goal) plan
    /\ forall k,
         0 <= k < days ->
         substring
           (lit "Day " ++ str_of_int (k + 1) ++ lit ": "
            ++ default [] (topics !! Z.to_nat (k mod 5)))
           plan.
Proof.
  destruct (create_plan_shape student_profile goal days)
    as (first & rest & ->).
  eexists; split; [reflexivity|]. split.
  - apply (substring_trans _ (lit "Goal: " ++ goal ++ nl)).
    + exists [], nl. by rewrite <- app_assoc.
    + apply substring_join. rewrite !elem_of_app. right. left. by left.
  - intros k Hk. apply substring_join.
    rewrite !elem_of_app. right. right. left.
    apply list_elem_of_In, in_concat.
    eexists. split; [apply (in_map _ _ k), list_elem_of_In, elem_of_seqZ; lia|].
    by left.
Qed.

End Tutor.


Lemma quiz_request_answered_from_builtin_witness :
  let s :=
    Session.MkSession None [] [] (Some (lit "Adding Fractions")) in
  asks_for_quiz (ascii_lower (lit "Quiz me"))
  /\ respond ascii_lower Samples.no_tool false Samples.canned_chat None s
       (lit "Quiz me") None zero
     = (Some (Ok builtin_quiz_reply), inc_tool (lit "content_tool") zero).
Proof.
  intros s.
  assert (H : asks_for_quiz (ascii_lower (lit "Quiz me")))
    by (apply quiz_test; by vm_compute).
  split; [exact H|].
  apply (quiz_request_answered_from_builtin ascii_lower Samples.no_tool false
           Samples.canned_chat None s (lit "Quiz me") None zero
           (lit "Adding Fractions") H eq_refl).
  apply contains_spec. by vm_compute.
Defined.

Lemma quiz_request_raises_in_service_sessions_witness :
  exists s,
    Session.run Samples.twelve_messages !! lit "s1" = Some s
    /\ asks_for_quiz (ascii_lower (lit "Some practice please"))
    /\ fst (respond ascii_lower Samples.no_tool true Samples.canned_chat None
              s (lit "Some practice please") None zero)
       = Some (Raise AttributeError).
Proof.
  assert (H : is_Some (Session.run Samples.twelve_messages !! lit "s1"))
    by (vm_compute; eauto).
  destruct H as [s H]. exists s. split; [exact H|].
  assert (Hq : asks_for_quiz (ascii_lower (lit "Some practice please")))
    by (apply quiz_test; by vm_compute).
  split; [exact Hq|].
  by rewrite (quiz_request_raises_in_service_sessions ascii_lower
                Samples.no_tool true Samples.canned_chat
                Samples.twelve_messages (lit "s1") s None
                (lit "Some practice please") None zero H Hq).
Defined.

(** X19. The tool counters count: after a run of [inc_tool] calls each
    tool's counter has grown by the number of calls that named it (a tool
    never named before starts from zero), and no other counter of the
    metrics has changed. *)
Theorem tool_usage_counts_calls tools m t :
  let m' := fold_left (fun m tool_name => inc_tool tool_name m) tools m in
  default 0 (tool_usage m' !! t) = default 0 (tool_usage m !! t) + uses t tools
  /\ total_requests m' = total_requests m
  /\ total_tutor_requests m' = total_tutor_requests m
  /\ total_planner_requests m' = total_planner_requests m
  /\ total_analyzer_requests m' = total_analyzer_requests m
  /\ total_errors m' = total_errors m
  /\ total_requests_with_latency m' = total_requests_with_latency m.
Proof.
  revert m. induction tools as [|u tools IH]; intros m; simpl.
  - unfold uses. simpl. repeat split; lia.
  - destruct (IH (inc_tool u m)) as (H1 & H2 & H3 & H4 & H5 & H6 & H7).
    repeat split; try (etrans; [eassumption | done]).
    rewrite H1. unfold uses. rewrite filter_cons. simpl.
    destruct (decide (u = t)) as [-> | Hne].
    + rewrite lookup_insert_eq. simpl. lia.
    + rewrite lookup_insert_ne by done. lia.
Qed.

End AgentsMore.

(** ** More on the orchestrator *)

Module OrchestratorMore.
Import Py StrSpec PyFacts Context Metrics Orchestrator OrchestratorSpec
  AgentsSpec ContextTheorems OrchestratorTheorems.
Local Open Scope Z_scope.


Section Generic.
Context {score : Type}.
Variable lower : str -> str.
Variable respond :
  option (gmap str pyval) -> Session.session -> str -> option str ->
  metrics -> option (result str) * metrics.
Variable create_plan : gmap str pyval -> str -> Z -> result str.
Variable profile_service :
  option (str -> result (option (gmap str pyval))).

(** X20. The vector store changes a call only through hits: when no
    subject is given, the subject is empty, the search returns no hit or
    the search raises, [handle_message] behaves exactly as it does without
    a vector store, on both paths. *)
Theorem search_without_hits_changes_nothing
    (search : str -> str -> Z -> result (list (@VectorStore.hit score)))
    has_flow user session_id message subject w :
  (forall s,
     subject = Some s -> s <> [] ->
     search s message 3 = Ok [] \/ exists e, search s message 3 = Raise e) ->
  handle_message lower respond create_plan (Some search) profile_service
    has_flow user session_id message subject w
  = handle_message (score:=score) lower respond create_plan None
      profile_service has_flow user session_id message subject w.
Proof.
  intros H.
  assert (E : lookup_vector_context (Some search) subject message
              = lookup_vector_context (score:=score) None subject message).
  { unfold lookup_vector_context. destruct subject as [[|c cs]|]; try done.
    destruct (H (c :: cs) eq_refl) as [-> | [e ->]]; done. }
  unfold handle_message. by rewrite E.
Qed.

(** X21. In the LangGraph flow the tutor node always runs first, also for
    a message the router sends to the planner. When the tutor raises, the
    flow raises and the planner is never called; when the tutor returns,
    its reply is replaced by what the planner returns, the metrics are the
    ones the tutor left, and the planner route is logged; when the tutor
    hands nothing back, neither does the flow. *)
Theorem flow_runs_tutor_before_planner inputs w message :
  g_message inputs = Some message ->
  wants_planner (lower message) ->
  let tutor :=
    respond (Some (g_student_profile inputs)) (g_session_state inputs)
      message (g_vector_context inputs) (counters w) in
  (forall e,
     fst tutor = Some (Raise e) ->
     flow_invoke lower respond create_plan inputs w
     = (Some (Raise e), World (sessions w) (snd tutor) (routing_log w)))
  /\ (forall reply,
        fst tutor = Some (Ok reply) ->
        flow_invoke lower respond create_plan inputs w
        = (Some match create_plan (g_student_profile inputs) message 5 with
                | Ok plan => Ok (set_reply inputs plan)
                | Raise e => Raise e
                end,
           World (sessions w) (snd tutor) (routing_log w ++ [Planner])))
  /\ (fst tutor = None ->
      flow_invoke lower respond create_plan inputs w
      = (None, World (sessions w) (snd tutor) (routing_log w))).
Proof.
  intros Hm Hp tutor. apply keyword_test in Hp.
  unfold flow_invoke, tutor_node. rewrite Hm. fold tutor.
  destruct tutor as [[[reply | e]|] m']; simpl; (split; [|split]); try done.
  - intros r [= <-]. unfold route_message, planner_node. simpl.
    rewrite Hm. simpl. rewrite Hp. simpl.
    by destruct (create_plan _ _ _).
  - by intros e' [= <-].
Qed.

(** X22. The profile the orchestrator hands to the agents. When loading
    succeeds, the profile never has a grade, whatever was stored; its
    subject is the request's subject when that is non-empty and absent
    otherwise; and for a stored non-empty profile the fields name, age,
    class, syllabus, proficiency and gender are the stored ones. Loading
    fails only when the profile service raises. *)
Theorem loaded_profile_fields user subject :
  (forall p,
     load_student_profile profile_service user subject = Ok p ->
     p !! lit "grade" = None
     /\ p !! lit "subject"
        = match subject with
          | Some (c :: cs) => Some (PStr (c :: cs))
          | _ => None
          end
     /\ forall get_profile d,
          profile_service = Some get_profile ->
          get_profile user = Ok (Some d) -> d <> ∅ ->
          forall key,
            key ∈ ["name"; "age"; "class"; "syllabus"; "proficiency";
                   "gender"]%string ->
            p !! lit key = Some (dict_get d (lit key)))
  /\ (forall e,
        load_student_profile profile_service user subject = Raise e ->
        exists get_profile,
          profile_service = Some get_profile /\ get_profile user = Raise e).
Proof.
  unfold load_student_profile. split.
  - intros p Hp.
    destruct profile_service as [get_profile|].
    + destruct (get_profile user) as [stored | e] eqn:Eg; [|done].
      destruct (dict_truthy stored) eqn:Et.
      * destruct subject as [[|c cs]|]; injection Hp as <-.
        all: split; [done|]; split; [done|].
        all: intros g d [= <-] Hg Hd key Hin; rewrite Eg in Hg;
          injection Hg as ->; simpl.
        all: repeat (apply elem_of_cons in Hin as [-> | Hin]; [done|]).
        all: by apply elem_of_nil in Hin.
      * destruct subject as [[|c cs]|]; injection Hp as <-.
        all: split; [done|]; split; [done|].
        all: intros g d [= <-] Hg Hd; rewrite Eg in Hg; injection Hg as ->.
        all: simpl in Et; by rewrite bool_decide_eq_false_2 in Et.
    + destruct subject as [[|c cs]|]; injection Hp as <-.
      all: split; [done|]; split; [done|]; by intros g d [=].
  - intros e He.
    destruct profile_service as [get_profile|].
    + destruct (get_profile user) as [stored | e'] eqn:Eg.
      * destruct (dict_truthy stored); by destruct subject as [[|c cs]|].
      * injection He as <-. by exists get_profile.
    + by destruct subject as [[|c cs]|].
Qed.

End Generic.

Section Fallback.
Context {score : Type}.
Variable lower : str -> str.
Variable code_exec_tool : str -> option str.
Variable api_key : bool.
Variable chat : str -> str -> result str.
Variable vector_store :
  option (str -> str -> Z -> result (list (@VectorStore.hit score))).
Variable profile_service :
  option (str -> result (option (gmap str pyval))).


End Fallback.

Section StoreContext.
Context {vec score : Type}.
Variable embed : str -> vec.
Variable faiss_search : list vec -> vec -> Z -> result (list (score * Z)).

Hypothesis faiss_len :
  forall ix q k found, faiss_search ix q k = Ok found -> len found = k.
Hypothesis faiss_range :
  forall ix q k found,
    faiss_search ix q k = Ok found ->
    Forall (fun p => -1 <= snd p < len ix) found.
Hypothesis faiss_total :
  forall ix q k, 0 < k -> exists found, faiss_search ix q k = Ok found.

(** X24. The document context of a request, with the vector store of the
    repository on a store reached by its operations and an index that
    returns [k] valid labels: for a subject without documents there is no
    context; for a subject with [n] documents the context is built from
    exactly [min(3, n)] hits and holds, for each hit, the line
    "[From source]: text". *)
Theorem context_from_store ops subject message :
  subject <> [] ->
  let st := VectorStore.run embed ops in
  let search := fun s q k => VectorStore.search embed faiss_search s q k st in
  let ctx := lookup_vector_context (Some search) (Some subject) message in
  (VectorStore.added subject ops [] = [] -> ctx = None)
  /\ (VectorStore.added subject ops [] <> [] ->
      exists hits text,
        search subject message 3 = Ok hits
        /\ len hits = Z.min 3 (len (VectorStore.added subject ops []))
        /\ ctx = Some text
        /\ forall h,
             h ∈ hits ->
             substring
               (lit "[From " ++ VectorStore.hit_source h ++ lit "]: "
                ++ VectorStore.hit_text h)
               text).
Proof.
  intros Hs st search ctx. subst ctx. unfold lookup_vector_context.
  destruct subject as [|c cs]; [done|].
  destruct (VectorStoreMore.search_hit_count embed faiss_search faiss_len
              faiss_range faiss_total ops (c :: cs) message 3)
    as (hits & Hh & Hlen); [lia|].
  fold st in Hh. change (search (c :: cs) message 3 = Ok hits) in Hh.
  rewrite Hh. split.
  - intros Ha. rewrite Ha in Hlen. destruct hits; [done|].
    unfold len in Hlen. simpl in Hlen. lia.
  - intros Ha. destruct hits as [|h hits].
    + destruct (VectorStore.added (c :: cs) ops []); [done|].
      unfold len in Hlen. simpl in Hlen. lia.
    + eexists _, _. split; [done|]. split; [done|]. split; [done|].
      intros h' Hin. apply substring_join.
      apply list_elem_of_In.
      apply (in_map (fun r => lit "[From " ++ VectorStore.hit_source r
                              ++ lit "]: " ++ VectorStore.hit_text r)).
      by apply list_elem_of_In.
Qed.

End StoreContext.

Lemma search_without_hits_changes_nothing_witness :
  let respond := Agents.respond ascii_lower Samples.no_tool true
                   Samples.canned_chat in
  let create_plan := Agents.create_plan ascii_lower in
  Samples.failing_search (lit "maths") (lit "Explain circles") 3
  = Raise (RuntimeError (lit "index unavailable"))
  /\ handle_message ascii_lower respond create_plan
       (Some Samples.failing_search) None true (lit "u1") (lit "s1")
       (lit "Explain circles") (Some (lit "maths")) Samples.fresh_world
     = handle_message (score:=Z) ascii_lower respond create_plan None None
         true (lit "u1") (lit "s1") (lit "Explain circles")
         (Some (lit "maths")) Samples.fresh_world.
Proof.
  intros respond create_plan. split; [reflexivity|].
  apply search_without_hits_changes_nothing.
  intros s _ _. right. by eexists.
Defined.

Lemma flow_runs_tutor_before_planner_witness :
  let respond := Agents.respond ascii_lower Samples.no_tool true
                   Samples.canned_chat in
  let create_plan := Agents.create_plan ascii_lower in
  let inputs :=
    GraphState (lit "u1") (lit "s1") (Some (lit "Plan my study practice"))
      (Session.fresh None) ∅ None None in
  wants_planner (ascii_lower (lit "Plan my study practice"))
  /\ fst (flow_invoke ascii_lower respond create_plan inputs
            Samples.fresh_world)
     = Some (Raise AttributeError).
Proof.
  intros respond create_plan inputs.
  assert (H : wants_planner (ascii_lower (lit "Plan my study practice")))
    by (apply keyword_test; by vm_compute).
  split; [exact H|].
  by rewrite (proj1 (flow_runs_tutor_before_planner ascii_lower respond
                       create_plan inputs Samples.fresh_world
                       (lit "Plan my study practice") eq_refl H)
                AttributeError eq_refl).
Defined.

Lemma loaded_profile_fields_witness :
  let service := Some (fun _ : str => Ok (Some
                   (<[lit "grade" := PInt 7]> Samples.asha_profile))) in
  exists p,
    load_student_profile service (lit "asha") (Some (lit "maths")) = Ok p
    /\ p !! lit "grade" = None
    /\ p !! lit "subject" = Some (PStr (lit "maths")).
Proof.
  intros service. eexists. split; [reflexivity|].
  destruct (proj1 (loaded_profile_fields service (lit "asha")
                     (Some (lit "maths"))) _ eq_refl) as (Hg & Hs & _).
  by split.
Defined.


(** A message with a math symbol, when the tool hands nothing back:
    [handle_message] hands nothing back either, with and without the
    flow; the tool was counted and the session holds the user message
    only. *)
Example math_message_with_silent_tool has_flow api_key chat :
  let out :=
    handle_message (score:=Z) ascii_lower
      (Agents.respond ascii_lower Samples2.silent_tool api_key chat)
      (Agents.create_plan ascii_lower) None None has_flow (lit "u1")
      (lit "s1") (lit "x = 1") None Samples.fresh_world in
  fst out = None
  /\ tool_usage (counters (snd out)) = {[lit "code_exec_tool" := 1]}
  /\ messages_of (lit "s1") (snd out)
     = [Session.Message (lit "user") (lit "x = 1")].
Proof. destruct has_flow; by vm_compute. Qed.

Lemma context_from_store_witness :
  lit "science" <> []
  /\ VectorStore.added (lit "science") Samples.store_ops [] <> []
  /\ exists text,
       lookup_vector_context
         (Some (fun s q k =>
                  VectorStore.search Samples.length_embed Samples.flat_search
                    s q k
                    (VectorStore.run Samples.length_embed Samples.store_ops)))
         (Some (lit "science")) (lit "Rain")
       = Some text.
Proof.
  assert (Hs : lit "science" <> []) by done.
  assert (Ha : VectorStore.added (lit "science") Samples.store_ops [] <> [])
    by (by vm_compute).
  split; [exact Hs|]. split; [exact Ha|].
  destruct (proj2 (context_from_store Samples.length_embed
                     Samples.flat_search
                     VectorStoreTheorems.flat_search_len
                     VectorStoreTheorems.flat_search_range
                     VectorStoreTheorems.flat_search_total
                     Samples.store_ops (lit "science") (lit "Rain") Hs) Ha)
    as (hits & text & _ & _ & Hc & _).
  by exists text.
Defined.

End OrchestratorMore.

(** ** Quiz scores *)

Module QuizTheorems.
Import Py PyFacts QuizScore.
Local Open Scope Z_scope.

Lemma py_index_nat {A} (l : list A) (i : nat) :
  py_index l (Z.of_nat i) = l !! i.
Proof.
  unfold py_index. destruct (Z.of_nat i <? 0) eqn:E.
  - apply Z.ltb_lt in E. lia.
  - by rewrite Nat2Z.id.
Qed.

Lemma answered_right_lookup user_answers i q :
  answered_right user_answers i q
  = match user_answers !! i with
    | Some a => a =? correct_answer q
    | None => false
    end.
Proof.
  unfold answered_right. rewrite py_index_nat.
  destruct (user_answers !! i) as [a|] eqn:E; [|apply andb_false_r].
  apply lookup_lt_Some in E.
  assert (H : (Z.of_nat i <? len user_answers) = true)
    by (apply Z.ltb_lt; unfold len; lia).
  by rewrite H.
Qed.

Lemma sum_acc l a : fold_left Z.add l a = a + fold_left Z.add l 0.
Proof.
  revert a. induction l as [|x l IH]; intros a; simpl; [lia|].
  rewrite IH, (IH (0 + x)). lia.
Qed.

Lemma correct_answers_nil user_answers : correct_answers [] user_answers = 0.
Proof. done. Qed.

Lemma correct_answers_cons q questions a user_answers :
  correct_answers (q :: questions) (a :: user_answers)
  = (if a =? correct_answer q then 1 else 0)
    + correct_answers questions user_answers.
Proof.
  unfold correct_answers. rewrite imap_cons. simpl fold_left.
  rewrite sum_acc, answered_right_lookup. simpl. f_equal. f_equal.
  apply imap_ext. intros i x _. simpl.
  by rewrite !answered_right_lookup.
Qed.

Lemma correct_answers_unanswered questions :
  correct_answers questions [] = 0.
Proof.
  unfold correct_answers.
  rewrite (imap_ext _ (fun _ _ => 0) questions)
    by (intros i x _; by rewrite answered_right_lookup).
  generalize 0%nat. induction questions as [|q qs IH]; intros n; [done|].
  rewrite imap_cons. simpl. apply (IH (S n)).
Qed.

Lemma detailed_results_cons q questions a answers :
  detailed_results (q :: questions) (a :: answers)
  = Detail (question q) (options q) (Some a) (correct_answer q)
      (a =? correct_answer q) (explanation q)
    :: detailed_results questions answers.
Proof.
  unfold detailed_results. rewrite imap_cons. f_equal.
  apply imap_ext. intros i x _. simpl.
  rewrite !py_index_nat. simpl.
  replace (Z.of_nat (S i) <? len (a :: answers))
    with (Z.of_nat i <? len answers); [done|].
  unfold len. simpl length.
  destruct (Z.of_nat i <? Z.of_nat (length answers)) eqn:E; symmetry.
  - apply Z.ltb_lt in E. apply Z.ltb_lt. lia.
  - apply Z.ltb_ge in E. apply Z.ltb_ge. lia.
Qed.

Lemma detailed_results_unanswered questions :
  Forall (fun d => d_user_answer d = None /\ d_is_correct d = false)
    (detailed_results questions []).
Proof.
  unfold detailed_results. apply Forall_forall. intros d Hd.
  apply list_elem_of_lookup in Hd as [i Hd].
  rewrite list_lookup_imap in Hd.
  destruct (questions !! i); [|done]. injection Hd as <-. simpl.
  destruct (Z.of_nat i <? len []) eqn:E; [|done].
  apply Z.ltb_lt in E. unfold len in E. simpl in E. lia.
Qed.

(** X25. The stored score and the results shown to the student agree.
    The number of correct answers lies between 0 and the smaller of the
    number of questions and the number of answers, and it equals the
    number of entries of the detailed results that are marked correct;
    the detailed results have one entry for every question, answered or
    not. *)
Theorem score_agrees_with_details questions user_answers :
  0 <= correct_answers questions user_answers
       <= Z.min (len questions) (len user_answers)
  /\ correct_answers questions user_answers
     = len (filter (fun d => d_is_correct d = true)
              (detailed_results questions user_answers))
  /\ len (detailed_results questions user_answers) = len questions.
Proof.
  split; [|split].
  - revert user_answers.
    induction questions as [|q qs IH]; intros [|a ans].
    + rewrite correct_answers_nil. unfold len. simpl. lia.
    + rewrite correct_answers_nil. unfold len. simpl. lia.
    + rewrite correct_answers_unanswered. unfold len. simpl. lia.
    + rewrite correct_answers_cons. specialize (IH ans).
      unfold len in *. simpl length. destruct (a =? correct_answer q); lia.
  - revert user_answers.
    induction questions as [|q qs IH]; intros [|a ans].
    + done.
    + done.
    + rewrite correct_answers_unanswered.
      pose proof (detailed_results_unanswered (q :: qs)) as H.
      induction H as [|d l [_ Hd] _ IHl]; [done|].
      rewrite filter_cons. destruct (decide (d_is_correct d = true)) as [E|E].
      * by rewrite Hd in E.
      * exact IHl.
    + rewrite correct_answers_cons, detailed_results_cons, filter_cons, IH.
      simpl. destruct (a =? correct_answer q); simpl.
      * unfold len. simpl length. lia.
      * lia.
  - unfold detailed_results, len. by rewrite length_imap.
Qed.

(** X26. Answers beyond the last question are ignored, and a student who
    gives the right option for every question scores the number of
    questions: the score depends on the first [len(questions)] answers
    only, and with all of them right it is full. *)
Theorem score_ignores_surplus_answers questions user_answers surplus :
  len questions <= len user_answers ->
  correct_answers questions (user_answers ++ surplus)
  = correct_answers questions user_answers
  /\ correct_answers questions
       (List.map correct_answer questions ++ surplus)
     = len questions.
Proof.
  intros Hlen. split.
  - revert user_answers Hlen.
    induction questions as [|q qs IH]; intros [|a ans] Hlen.
    + done.
    + done.
    + unfold len in Hlen. simpl in Hlen. lia.
    + simpl app. rewrite !correct_answers_cons, IH; [done|].
      unfold len in *. simpl in Hlen. lia.
  - clear Hlen user_answers.
    induction questions as [|q qs IH]; [done|].
    simpl. rewrite correct_answers_cons, IH, Z.eqb_refl.
    unfold len. simpl length. lia.
Qed.

Lemma score_ignores_surplus_answers_witness :
  let qs :=
    [QuizQuestion (lit "2 + 2") [lit "3"; lit "4"; lit "5"; lit "6"] 1 [];
     QuizQuestion (lit "3 * 3") [lit "9"; lit "6"; lit "3"; lit "1"] 0 []] in
  len qs <= len [1; 2]
  /\ correct_answers qs ([1; 2] ++ [0; 3]) = correct_answers qs [1; 2].
Proof.
  intros qs.
  assert (H : len qs <= len [1; 2]) by (by vm_compute).
  split; [exact H|].
  exact (proj1 (score_ignores_surplus_answers qs [1; 2] [0; 3] H)).
Defined.

End QuizTheorems.

(** ** Response text and .env file *)

Module TextTheorems.
Import Py StrSpec PyFacts TextTools TextSpec.
Local Open Scope Z_scope.

Lemma slice_inner {A} (p b s : list A) :
  s <> [] -> slice (p ++ b ++ s) (len p) (- len s) = b.
Proof.
  intros Hs. unfold slice, adjust, len. rewrite !length_app.
  assert (0 < length s)%nat by (destruct s; [done | simpl; lia]).
  destruct (Z.of_nat (length p) <? 0) eqn:E1; [apply Z.ltb_lt in E1; lia|].
  destruct (- Z.of_nat (length s) <? 0) eqn:E2; [|apply Z.ltb_ge in E2; lia].
  replace (Z.to_nat (Z.of_nat (length p)
                     `min` Z.of_nat (length p + (length b + length s))))
    with (length p) by lia.
  replace (Z.to_nat _) with (length b) by lia.
  by rewrite drop_app_length, take_app_length.
Qed.

Lemma slice_drop_prefix {A} (p r : list A) : slice_from (p ++ r) (len p) = r.
Proof.
  unfold slice_from, slice, adjust, len. rewrite length_app.
  destruct (Z.of_nat (length p) <? 0) eqn:E1; [apply Z.ltb_lt in E1; lia|].
  destruct (Z.of_nat (length p + length r) <? 0) eqn:E2;
    [apply Z.ltb_lt in E2; lia|].
  replace (Z.to_nat (Z.of_nat (length p)
                     `min` Z.of_nat (length p + length r)))
    with (length p) by lia.
  rewrite drop_app_length. apply take_ge. lia.
Qed.

Lemma slice_drop_suffix {A} (b s : list A) :
  s <> [] -> slice (b ++ s) 0 (- len s) = b.
Proof. apply (slice_inner [] b s). Qed.

Lemma ends_with_app suffix s : ends_with suffix (s ++ suffix) = true.
Proof.
  unfold ends_with. rewrite rev_app_distr. apply is_prefix_spec. by eexists.
Qed.

Lemma is_prefix_app p r : is_prefix p (p ++ r) = true.
Proof. apply is_prefix_spec. by eexists. Qed.

(** X27. A response wrapped in a markdown code block is unwrapped before
    it is parsed: when the response, without surrounding whitespace, is a
    "```json" fence, a body and a closing fence, the text handed to the
    JSON parser is the body without surrounding whitespace; the same holds
    for a block opened by a plain "```" fence; and a response with no
    fence at either end is handed over as it is, without surrounding
    whitespace. *)
Theorem fenced_response_is_unwrapped raw :
  (forall body,
     strip raw = json_fence ++ body ++ fence ->
     clean_response raw = strip body)
  /\ (forall body,
        strip raw = fence ++ body ++ fence ->
        is_prefix json_fence (strip raw) = false ->
        clean_response raw = strip body)
  /\ (is_prefix fence (strip raw) = false ->
      ends_with fence (strip raw) = false ->
      clean_response raw = strip raw).
Proof.
  unfold clean_response. cbv zeta. split; [|split].
  - intros body ->. rewrite is_prefix_app.
    change 7 with (len json_fence). rewrite slice_drop_prefix.
    rewrite ends_with_app. change (-3) with (- len fence).
    by rewrite slice_drop_suffix.
  - intros body Hb Hj. rewrite Hj, Hb, is_prefix_app.
    change 3 with (len fence). rewrite slice_drop_prefix.
    rewrite ends_with_app. change (-3) with (- len fence).
    by rewrite slice_drop_suffix.
  - intros Hf He.
    assert (Hj : is_prefix json_fence (strip raw) = false).
    { destruct (is_prefix json_fence (strip raw)) eqn:E; [|done].
      apply is_prefix_spec in E as [post E].
      rewrite <- Hf. symmetry. apply is_prefix_spec.
      exists (lit "json" ++ post). by rewrite E. }
    rewrite Hj, Hf, He. apply strip_idem.
Qed.

Lemma fenced_response_is_unwrapped_witness :
  strip fenced_response
  = json_fence ++ ([10%N] ++ lit "[1, 2]" ++ [10%N]) ++ fence
  /\ clean_response fenced_response = lit "[1, 2]".
Proof.
  assert (H : strip fenced_response
              = json_fence ++ ([10%N] ++ lit "[1, 2]" ++ [10%N]) ++ fence)
    by (by vm_compute).
  split; [exact H|].
  by rewrite (proj1 (fenced_response_is_unwrapped fenced_response) _ H).
Defined.

Lemma split_eq_first k v :
  61%N ∉ k -> split_eq (k ++ lit "=" ++ v) = (k, v).
Proof.
  change (lit "=" ++ v) with (61%N :: v).
  induction k as [|c k IH]; intros Hk; simpl; [done|].
  apply not_elem_of_cons in Hk as [Hc Hk].
  destruct (c =? 61)%N eqn:E; [apply N.eqb_eq in E; by subst|].
  by rewrite IH.
Qed.

Lemma parse_lines_skip raw rest key :
  strip raw = []
  \/ is_prefix (lit "#") (strip raw) = true
  \/ contains (lit "=") (strip raw) = false ->
  parse_lines (raw :: rest) key = parse_lines rest key.
Proof.
  intros H. cbn [parse_lines]. cbv zeta.
  destruct H as [H | [H | H]]; rewrite H.
  - done.
  - by rewrite orb_true_r.
  - by rewrite orb_true_r.
Qed.

Lemma parse_lines_definition raw rest key k v :
  strip raw = k ++ lit "=" ++ v ->
  61%N ∉ k ->
  is_prefix (lit "#") (strip raw) = false ->
  parse_lines (raw :: rest) key
  = if bool_decide (strip k = key) then Some (unquote (strip v))
    else parse_lines rest key.
Proof.
  intros Hr Hk Hc. cbn [parse_lines]. cbv zeta. rewrite Hc.
  assert (H2 : contains (lit "=") (strip raw) = true).
  { apply contains_spec. exists k, v. by rewrite Hr. }
  rewrite H2.
  assert (H3 : match strip raw with [] => true | _ => false end = false)
    by (rewrite Hr; by destruct k).
  rewrite H3. cbn [orb negb].
  by rewrite Hr, split_eq_first.
Qed.

Lemma passed_over_skipped key raw rest :
  passed_over key raw ->
  parse_lines (raw :: rest) key = parse_lines rest key.
Proof.
  intros [H | [[r H] | [H | (k & v & H & Hk & Hne)]]].
  - apply parse_lines_skip. by left.
  - apply parse_lines_skip. right. left. by rewrite H.
  - apply parse_lines_skip. right. right. by apply contains_false.
  - destruct (is_prefix (lit "#") (strip raw)) eqn:E.
    + apply parse_lines_skip. right. by left.
    + rewrite (parse_lines_definition raw rest key k v) by done.
      by rewrite bool_decide_eq_false_2.
Qed.

(** X28. The first line that defines the key gives its value. When the
    lines before it are blank, comments, without "=" or about other keys,
    and the line itself, without surrounding whitespace, is a name whose
    stripped text is the key, then "=", then a value, the function returns
    that value without surrounding whitespace and without one pair of
    surrounding quotes, whatever lines follow. *)
Theorem env_first_definition_wins before raw after k v key :
  Forall (passed_over key) before ->
  strip raw = k ++ lit "=" ++ v ->
  61%N ∉ k ->
  is_prefix (lit "#") k = false ->
  strip k = key ->
  _parse_env_file_for_key (Some (before ++ raw :: after)) key
  = Some (unquote (strip v)).
Proof.
  intros Hb Hr Hk Hc Hs. unfold _parse_env_file_for_key.
  induction Hb as [|l before Hl _ IH].
  - rewrite app_nil_l.
    assert (H1 : is_prefix (lit "#") (strip raw) = false).
    { rewrite Hr. destruct k as [|c k]; [done|]. exact Hc. }
    rewrite (parse_lines_definition raw after key k v) by done.
    by rewrite bool_decide_eq_true_2.
  - rewrite <- app_comm_cons, passed_over_skipped by done. exact IH.
Qed.

Lemma env_first_definition_wins_witness :
  _parse_env_file_for_key (Some env_lines) (lit "OPENAI_API_KEY")
  = Some (lit "sk-123").
Proof.
  refine (env_first_definition_wins
            [lit "# keys"; []; lit "DEBUG=1"] _ [lit "OPENAI_API_KEY=other"]
            (lit "OPENAI_API_KEY ")
            (lit " " ++ double_quote ++ lit "sk-123" ++ double_quote)
            (lit "OPENAI_API_KEY") _ _ _ _ _).
  - constructor; [right; left; by exists (lit " keys")|].
    constructor; [by left|].
    constructor; [|constructor].
    right. right. right. exists (lit "DEBUG"), (lit "1").
    split; [done|]. split; [|done].
    intros H. repeat (apply elem_of_cons in H as [H|H]; [done|]).
    by apply elem_of_nil in H.
  - by vm_compute.
  - intros H. repeat (apply elem_of_cons in H as [H|H]; [done|]).
    by apply elem_of_nil in H.
  - done.
  - by vm_compute.
Defined.

(** X29. A file that cannot be read, and a file in which every line is
    blank, a comment, without "=" or about another key, give no value;
    and a value in double or in single quotes is returned without them. *)
Theorem env_without_definition_gives_none lines key :
  Forall (passed_over key) lines ->
  _parse_env_file_for_key None key = None
  /\ _parse_env_file_for_key (Some lines) key = None
  /\ forall body,
       unquote (double_quote ++ body ++ double_quote) = body
       /\ unquote (single_quote ++ body ++ single_quote) = body.
Proof.
  intros H. split; [done|]. split.
  - unfold _parse_env_file_for_key.
    induction H as [|l lines Hl _ IH]; [done|].
    by rewrite passed_over_skipped.
  - intros body. unfold unquote. split.
    + rewrite is_prefix_app, (app_assoc double_quote), ends_with_app.
      rewrite <- app_assoc. simpl orb. cbv iota.
      apply (slice_inner double_quote body double_quote). done.
    + rewrite is_prefix_app, (app_assoc single_quote), ends_with_app.
      rewrite <- app_assoc, orb_true_r.
      apply (slice_inner single_quote body single_quote). done.
Qed.

Lemma env_without_definition_gives_none_witness :
  _parse_env_file_for_key (Some [lit "# keys"; []; lit "DEBUG=1"])
    (lit "OPENAI_API_KEY")
  = None.
Proof.
  refine (proj1 (proj2 (env_without_definition_gives_none
                          [lit "# keys"; []; lit "DEBUG=1"]
                          (lit "OPENAI_API_KEY") _))).
  constructor; [right; left; by exists (lit " keys")|].
  constructor; [by left|].
  constructor; [|constructor].
  right. right. right. exists (lit "DEBUG"), (lit "1").
  split; [done|]. split; [|done].
  intros H. repeat (apply elem_of_cons in H as [H|H]; [done|]).
  by apply elem_of_nil in H.
Defined.

End TextTheorems.
